(** * Order Management AI Business Case Calculator: the scenario engine

    A shallow embedding of the computational core of
    [order_management_business_case.py]: the six benefit calculators,
    [calculate_scenario] (scenario adjustment, year-by-year projection,
    NPV / ROI / payback) and [get_benchmark_position]; and of the figures
    the presentation code derives from the results: the payback shown,
    the probability-weighted NPV of [main], the data of the waterfall
    chart and the replacement fields of [generate_executive_summary].

    Numbers.  Python [float]s are modelled by exact rationals [Q]; Python
    [int]s by [Z], injected into [Q] where the source mixes them with
    floats.  Rounding is therefore not modelled: equalities between
    computed figures are stated with [==] on [Q].  The one scenario whose
    figures are stated to a rounding tolerance is also evaluated on
    binary64 floats, in the module [Binary64].

    Errors.  Two Python exceptions can leave the modelled code: a
    [KeyError] from a dictionary lookup and a [ZeroDivisionError] from
    [/].  Fallible functions live in the error monad [Exc].

    Layout.  The embedding of the source comes first, then the input
    invariants and the closed forms of the loops, then the lemmas that
    relate the loops to their closed forms, then the properties of the
    engine. *)

From Stdlib Require Import QArith Qabs Qpower ZArith List String Bool Lia Lqa.
From Stdlib Require Import PrimInt63 PrimFloat.
Import ListNotations.

Open Scope Q_scope.

(* ===================================================================== *)
(** * Python runtime: exceptions, division, comparison, [range]          *)
(* ===================================================================== *)

Inductive exn : Type :=
  | KeyError
  | ZeroDivisionError.

Definition Exc (A : Type) : Type := (exn + A)%type.

Definition ret {A : Type} (a : A) : Exc A := inr a.

Definition raise {A : Type} (e : exn) : Exc A := inl e.

Definition bind {A B : Type} (m : Exc A) (k : A -> Exc B) : Exc B :=
  match m with
  | inl e => inl e
  | inr a => k a
  end.

Notation "x <- m ;; k" := (bind m (fun x => k))
  (at level 61, m at next level, right associativity).

(** [a / b] on floats: raises when the divisor is zero. *)
Definition truediv (a b : Q) : Exc Q :=
  if Qeq_bool b 0 then raise ZeroDivisionError else ret (a / b).

(** [a > b]. *)
Definition Qgtb (a b : Q) : bool := negb (Qle_bool a b).

(** [range(lo, hi)]: empty when [hi <= lo]. *)
Definition py_range (lo hi : Z) : list Z :=
  map (fun k => (lo + Z.of_nat k)%Z) (seq 0 (Z.to_nat (hi - lo))).

(** [Series.sum()] of a column. *)
Definition Qsum (l : list Q) : Q := fold_left Qplus l 0.

(* ===================================================================== *)
(** * Data model                                                          *)
(* ===================================================================== *)

(** The [FinancialInputs] dataclass, field for field. *)
Record FinancialInputs : Type := {
  (* Volume & Revenue *)
  annual_order_volume : Z;
  average_order_value : Q;
  profit_margin : Q;
  (* Current State Performance *)
  current_dso : Q;
  current_perfect_order_rate : Q;
  current_cycle_time : Q;
  current_revenue_leakage : Q;
  current_cost_per_order : Q;
  current_stp_rate : Q;
  (* Target State Performance *)
  target_dso : Q;
  target_perfect_order_rate : Q;
  target_cycle_time : Q;
  target_revenue_leakage : Q;
  target_cost_per_order : Q;
  target_stp_rate : Q;
  (* Cost Structure *)
  avg_rework_cost : Q;
  fully_loaded_hourly_rate : Q;
  avg_manual_processing_time : Q;
  (* Investment *)
  initial_investment : Q;
  annual_maintenance : Q;
  change_management_cost : Q;
  integration_cost : Q;
  (* Financial Assumptions *)
  wacc : Q;
  tax_rate : Q;
  time_horizon : Z;
  (* Implementation *)
  pilot_duration_months : Z;
  limited_production_months : Z;
  full_production_month : Z
}.

(** The result dictionaries of the six calculators.  Several of them share
    key names ([annual_savings], [profit_impact]); each dictionary is a
    record in a module of its own so that the keys keep their names. *)

Module WorkingCapital.
Record t : Type := {
  current_ar : Q;
  target_ar : Q;
  cash_freed : Q;
  annual_benefit : Q;
  dso_improvement_days : Q
}.
End WorkingCapital.

Module ErrorReduction.
Record t : Type := {
  current_errors : Q;
  target_errors : Q;
  errors_eliminated : Q;
  annual_savings : Q;
  error_rate_improvement : Q
}.
End ErrorReduction.

Module RevenueLeakage.
Record t : Type := {
  current_leakage_amount : Q;
  target_leakage_amount : Q;
  revenue_protected : Q;
  profit_impact : Q;
  leakage_reduction : Q
}.
End RevenueLeakage.

Module LaborAutomation.
Record t : Type := {
  current_manual_touches : Q;
  target_manual_touches : Q;
  touches_eliminated : Q;
  hours_saved : Q;
  annual_savings : Q;
  fte_reduction : Q;
  stp_improvement : Q
}.
End LaborAutomation.

Module CycleTime.
Record t : Type := {
  cycle_time_reduction_days : Q;
  cycle_time_reduction_pct : Q;
  additional_capacity_orders : Q;
  revenue_opportunity : Q;
  profit_impact : Q;
  capacity_capture_rate : Q
}.
End CycleTime.

Module CostReduction.
Record t : Type := {
  cost_reduction_per_order : Q;
  cost_reduction_pct : Q;
  annual_savings : Q
}.
End CostReduction.

(** One row of the cash-flow data frame. *)
Record YearRecord : Type := {
  year : Z;
  phase : string;
  adoption_rate : Q;
  investment : Q;
  maintenance : Q;
  benefits : Q;
  net_cf : Q;
  cumulative_cf : Q;
  discounted_cf : Q
}.

(** The dictionary returned by [calculate_scenario]; [payback] is [None]
    when the cumulative cash flow never turns positive.  Its key
    [adoption_rate] is the field [sr_adoption_rate] here, the name being
    taken by the column of [YearRecord]. *)
Record ScenarioResult : Type := {
  scenario_type : string;
  sr_adoption_rate : Q;
  performance_multiplier : Q;
  annual_revenue : Q;
  working_capital : WorkingCapital.t;
  error_reduction : ErrorReduction.t;
  revenue_leakage : RevenueLeakage.t;
  labor_automation : LaborAutomation.t;
  cycle_time : CycleTime.t;
  cost_reduction : CostReduction.t;
  total_annual_benefit : Q;
  cash_flow_df : list YearRecord;
  npv : Q;
  roi : Q;
  payback : option Q;
  total_investment : Q;
  total_benefits : Q
}.

(* ===================================================================== *)
(** * Benefit calculators                                                 *)
(* ===================================================================== *)

Definition calculate_annual_revenue (volume : Z) (avg_value : Q) : Q :=
  inject_Z volume * avg_value.

(** Divisions by the literals 365, 60 and 2080 cannot raise and are
    written with [/] directly. *)
Definition calculate_working_capital_benefit
    (current_dso target_dso annual_revenue wacc : Q) : WorkingCapital.t :=
  let current_ar := (current_dso / 365) * annual_revenue in
  let target_ar := (target_dso / 365) * annual_revenue in
  let cash_freed := current_ar - target_ar in
  let annual_benefit := cash_freed * wacc in
  {| WorkingCapital.current_ar := current_ar;
     WorkingCapital.target_ar := target_ar;
     WorkingCapital.cash_freed := cash_freed;
     WorkingCapital.annual_benefit := annual_benefit;
     WorkingCapital.dso_improvement_days := current_dso - target_dso |}.

Definition calculate_error_reduction_benefit
    (current_perfect_rate target_perfect_rate : Q) (order_volume : Z)
    (rework_cost : Q) : ErrorReduction.t :=
  let current_errors := inject_Z order_volume * (1 - current_perfect_rate) in
  let target_errors := inject_Z order_volume * (1 - target_perfect_rate) in
  let errors_eliminated := current_errors - target_errors in
  let annual_savings := errors_eliminated * rework_cost in
  {| ErrorReduction.current_errors := current_errors;
     ErrorReduction.target_errors := target_errors;
     ErrorReduction.errors_eliminated := errors_eliminated;
     ErrorReduction.annual_savings := annual_savings;
     ErrorReduction.error_rate_improvement :=
       (1 - current_perfect_rate) - (1 - target_perfect_rate) |}.

Definition calculate_revenue_leakage_benefit
    (current_leakage target_leakage annual_revenue profit_margin : Q)
    : RevenueLeakage.t :=
  let current_leakage_amount := annual_revenue * current_leakage in
  let target_leakage_amount := annual_revenue * target_leakage in
  let revenue_protected := current_leakage_amount - target_leakage_amount in
  let profit_impact := revenue_protected * profit_margin in
  {| RevenueLeakage.current_leakage_amount := current_leakage_amount;
     RevenueLeakage.target_leakage_amount := target_leakage_amount;
     RevenueLeakage.revenue_protected := revenue_protected;
     RevenueLeakage.profit_impact := profit_impact;
     RevenueLeakage.leakage_reduction := current_leakage - target_leakage |}.

Definition calculate_labor_automation_benefit
    (current_stp_rate target_stp_rate : Q) (order_volume : Z)
    (processing_time_minutes hourly_rate : Q) : LaborAutomation.t :=
  let current_manual := inject_Z order_volume * (1 - current_stp_rate) in
  let target_manual := inject_Z order_volume * (1 - target_stp_rate) in
  let manual_touches_eliminated := current_manual - target_manual in
  let hours_saved := (manual_touches_eliminated * processing_time_minutes) / 60 in
  let annual_savings := hours_saved * hourly_rate in
  let fte_reduction := hours_saved / 2080 in
  {| LaborAutomation.current_manual_touches := current_manual;
     LaborAutomation.target_manual_touches := target_manual;
     LaborAutomation.touches_eliminated := manual_touches_eliminated;
     LaborAutomation.hours_saved := hours_saved;
     LaborAutomation.annual_savings := annual_savings;
     LaborAutomation.fte_reduction := fte_reduction;
     LaborAutomation.stp_improvement := target_stp_rate - current_stp_rate |}.

(** Default of the keyword argument [capacity_capture_rate]. *)
Definition default_capacity_capture_rate : Q := 0.30.

Definition calculate_cycle_time_benefit
    (current_cycle_time target_cycle_time : Q) (order_volume : Z)
    (avg_order_value profit_margin capacity_capture_rate : Q)
    : Exc CycleTime.t :=
  cycle_time_reduction_pct <-
    truediv (current_cycle_time - target_cycle_time) current_cycle_time ;;
  let additional_capacity := inject_Z order_volume * cycle_time_reduction_pct in
  let revenue_opportunity :=
    additional_capacity * avg_order_value * capacity_capture_rate in
  let profit_impact := revenue_opportunity * profit_margin in
  ret {| CycleTime.cycle_time_reduction_days :=
           current_cycle_time - target_cycle_time;
         CycleTime.cycle_time_reduction_pct := cycle_time_reduction_pct;
         CycleTime.additional_capacity_orders := additional_capacity;
         CycleTime.revenue_opportunity := revenue_opportunity;
         CycleTime.profit_impact := profit_impact;
         CycleTime.capacity_capture_rate := capacity_capture_rate |}.

Definition calculate_cost_per_order_benefit
    (current_cost target_cost : Q) (order_volume : Z) : Exc CostReduction.t :=
  let cost_reduction := current_cost - target_cost in
  let annual_savings := cost_reduction * inject_Z order_volume in
  cost_reduction_pct <- truediv cost_reduction current_cost ;;
  ret {| CostReduction.cost_reduction_per_order := cost_reduction;
         CostReduction.cost_reduction_pct := cost_reduction_pct;
         CostReduction.annual_savings := annual_savings |}.

(* ===================================================================== *)
(** * Scenario engine                                                     *)
(* ===================================================================== *)

(** A dictionary with string keys, in source order; [d[k]] raises
    [KeyError] on a missing key. *)
Fixpoint dict_get {V : Type} (d : list (string * V)) (k : string) : Exc V :=
  match d with
  | [] => raise KeyError
  | (k', v) :: d' => if String.eqb k' k then ret v else dict_get d' k
  end.

Record Multipliers : Type := {
  adoption : Q;
  performance : Q
}.

Definition scenario_multipliers : list (string * Multipliers) :=
  [ ("best"%string,  {| adoption := 0.95; performance := 1.10 |});
    ("base"%string,  {| adoption := 0.75; performance := 1.00 |});
    ("worst"%string, {| adoption := 0.50; performance := 0.80 |}) ].

(** The three scenario tags and the keys they stand for. *)
Inductive ScenarioTag : Type := best | base | worst.

Definition tag_key (t : ScenarioTag) : string :=
  match t with
  | best => "best"
  | base => "base"
  | worst => "worst"
  end.

(** [adj_inputs = FinancialInputs(...)]: the copy of the inputs with the
    six targets moved by the performance multiplier. *)
Definition adj_inputs (inputs : FinancialInputs) (perf : Q) : FinancialInputs :=
  {| annual_order_volume := annual_order_volume inputs;
     average_order_value := average_order_value inputs;
     profit_margin := profit_margin inputs;
     current_dso := current_dso inputs;
     current_perfect_order_rate := current_perfect_order_rate inputs;
     current_cycle_time := current_cycle_time inputs;
     current_revenue_leakage := current_revenue_leakage inputs;
     current_cost_per_order := current_cost_per_order inputs;
     current_stp_rate := current_stp_rate inputs;
     (* Adjusted targets *)
     target_dso :=
       current_dso inputs - ((current_dso inputs - target_dso inputs) * perf);
     target_perfect_order_rate :=
       current_perfect_order_rate inputs +
       ((target_perfect_order_rate inputs - current_perfect_order_rate inputs) * perf);
     target_cycle_time :=
       current_cycle_time inputs -
       ((current_cycle_time inputs - target_cycle_time inputs) * perf);
     target_revenue_leakage :=
       current_revenue_leakage inputs -
       ((current_revenue_leakage inputs - target_revenue_leakage inputs) * perf);
     target_cost_per_order :=
       current_cost_per_order inputs -
       ((current_cost_per_order inputs - target_cost_per_order inputs) * perf);
     target_stp_rate :=
       current_stp_rate inputs +
       ((target_stp_rate inputs - current_stp_rate inputs) * perf);
     avg_rework_cost := avg_rework_cost inputs;
     fully_loaded_hourly_rate := fully_loaded_hourly_rate inputs;
     avg_manual_processing_time := avg_manual_processing_time inputs;
     initial_investment := initial_investment inputs;
     annual_maintenance := annual_maintenance inputs;
     change_management_cost := change_management_cost inputs;
     integration_cost := integration_cost inputs;
     wacc := wacc inputs;
     tax_rate := tax_rate inputs;
     time_horizon := time_horizon inputs;
     pilot_duration_months := pilot_duration_months inputs;
     limited_production_months := limited_production_months inputs;
     full_production_month := full_production_month inputs |}.

(** A [for] loop over a list whose body may raise. *)
Fixpoint for_each {S A : Type} (body : S -> A -> Exc S) (xs : list A) (s : S)
    : Exc S :=
  match xs with
  | [] => ret s
  | x :: xs' => s' <- body s x ;; for_each body xs' s'
  end.

(** Body of the loop over the years [3 .. time_horizon]; the loop state is
    the pair of the list [years] and the running [cumulative_cf]. *)
Definition steady_state_body (adj : FinancialInputs)
    (adoption total_annual_benefit : Q)
    (st : list YearRecord * Q) (year : Z) : Exc (list YearRecord * Q) :=
  let years := fst st in
  let cumulative_cf := snd st in
  let growth_factor := 1.03 ^ (year - 2) in
  let year_benefit := total_annual_benefit * adoption * growth_factor in
  let year_maintenance := annual_maintenance adj * (1.02 ^ (year - 2)) in
  let year_net := year_benefit - year_maintenance in
  let cumulative_cf := cumulative_cf + year_net in
  discounted <- truediv year_net ((1 + wacc adj) ^ year) ;;
  ret (years ++ [ {| year := year;
                     phase := "Steady State";
                     adoption_rate := adoption;
                     investment := 0;
                     maintenance := year_maintenance;
                     benefits := year_benefit;
                     net_cf := year_net;
                     cumulative_cf := cumulative_cf;
                     discounted_cf := discounted |} ],
       cumulative_cf).

(** The year-by-year projection: the part of [calculate_scenario] from
    [years = []] to [df = pd.DataFrame(years)]. *)
Definition build_projection (adj : FinancialInputs)
    (adoption total_annual_benefit : Q) : Exc (list YearRecord) :=
  let years : list YearRecord := [] in
  (* Year 0 - Pilot phase *)
  let year0_benefit := total_annual_benefit * 0.15 * adoption in
  let year0_cost :=
    initial_investment adj * 0.30 + change_management_cost adj * 0.50 in
  let year0_net := year0_benefit - year0_cost in
  let cumulative_cf := year0_net in
  discounted0 <- truediv year0_net ((1 + wacc adj) ^ 0) ;;
  let years :=
    years ++ [ {| year := 0;
                  phase := "Pilot";
                  adoption_rate := 0.15 * adoption;
                  investment := year0_cost;
                  maintenance := 0;
                  benefits := year0_benefit;
                  net_cf := year0_net;
                  cumulative_cf := cumulative_cf;
                  discounted_cf := discounted0 |} ] in
  (* Year 1 - Limited production *)
  let year1_benefit := total_annual_benefit * 0.45 * adoption in
  let year1_cost :=
    initial_investment adj * 0.50 + change_management_cost adj * 0.50 +
    integration_cost adj in
  let year1_maintenance := annual_maintenance adj * 0.5 in
  let year1_net := year1_benefit - year1_cost - year1_maintenance in
  let cumulative_cf := cumulative_cf + year1_net in
  discounted1 <- truediv year1_net ((1 + wacc adj) ^ 1) ;;
  let years :=
    years ++ [ {| year := 1;
                  phase := "Limited Production";
                  adoption_rate := 0.45 * adoption;
                  investment := year1_cost;
                  maintenance := year1_maintenance;
                  benefits := year1_benefit;
                  net_cf := year1_net;
                  cumulative_cf := cumulative_cf;
                  discounted_cf := discounted1 |} ] in
  (* Year 2 - Scaling to full production *)
  let year2_benefit := total_annual_benefit * 0.80 * adoption in
  let year2_cost := initial_investment adj * 0.20 in
  let year2_maintenance := annual_maintenance adj in
  let year2_net := year2_benefit - year2_cost - year2_maintenance in
  let cumulative_cf := cumulative_cf + year2_net in
  discounted2 <- truediv year2_net ((1 + wacc adj) ^ 2) ;;
  let years :=
    years ++ [ {| year := 2;
                  phase := "Full Production";
                  adoption_rate := 0.80 * adoption;
                  investment := year2_cost;
                  maintenance := year2_maintenance;
                  benefits := year2_benefit;
                  net_cf := year2_net;
                  cumulative_cf := cumulative_cf;
                  discounted_cf := discounted2 |} ] in
  (* Years 3+ - Steady state with 3% growth *)
  st <- for_each (steady_state_body adj adoption total_annual_benefit)
                 (py_range 3 (time_horizon adj + 1)) (years, cumulative_cf) ;;
  ret (fst st).

(** [df.loc[idx, ...]] on the default integer index. *)
Definition df_loc (df : list YearRecord) (idx : nat) : Exc YearRecord :=
  match nth_error df idx with
  | Some row => ret row
  | None => raise KeyError
  end.

(** The payback loop over [df.iterrows()]: [rows] are the rows still to
    visit and [idx] the label of the first of them; [break] is the return
    at the first row whose cumulative cash flow is positive. *)
Fixpoint payback_loop (df rows : list YearRecord) (idx : nat)
    : Exc (option Q) :=
  match rows with
  | [] => ret None
  | row :: rest =>
      if Qgtb (cumulative_cf row) 0 then
        if Nat.eqb idx 0 then ret (Some 0)
        else
          prev <- df_loc df (idx - 1) ;;
          let prev_cf := cumulative_cf prev in
          let curr_cf := cumulative_cf row in
          year_fraction <-
            (if negb (Qeq_bool (curr_cf - prev_cf) 0)
             then truediv (Qabs prev_cf) (curr_cf - prev_cf)
             else ret 0) ;;
          ret (Some (inject_Z (Z.of_nat (idx - 1)) + year_fraction))
      else payback_loop df rest (S idx)
  end.

Definition calculate_scenario (inputs : FinancialInputs)
    (scenario_type : string) : Exc ScenarioResult :=
  mult <- dict_get scenario_multipliers scenario_type ;;
  let adoption := adoption mult in
  let perf := performance mult in
  let adj := adj_inputs inputs perf in
  let annual_revenue :=
    calculate_annual_revenue (annual_order_volume adj) (average_order_value adj) in
  (* Calculate each benefit component *)
  let wc_benefit :=
    calculate_working_capital_benefit
      (current_dso adj) (target_dso adj) annual_revenue (wacc adj) in
  let error_benefit :=
    calculate_error_reduction_benefit
      (current_perfect_order_rate adj) (target_perfect_order_rate adj)
      (annual_order_volume adj) (avg_rework_cost adj) in
  let leakage_benefit :=
    calculate_revenue_leakage_benefit
      (current_revenue_leakage adj) (target_revenue_leakage adj)
      annual_revenue (profit_margin adj) in
  let labor_benefit :=
    calculate_labor_automation_benefit
      (current_stp_rate adj) (target_stp_rate adj) (annual_order_volume adj)
      (avg_manual_processing_time adj) (fully_loaded_hourly_rate adj) in
  cycle_benefit <-
    calculate_cycle_time_benefit
      (current_cycle_time adj) (target_cycle_time adj) (annual_order_volume adj)
      (average_order_value adj) (profit_margin adj)
      default_capacity_capture_rate ;;
  cost_benefit <-
    calculate_cost_per_order_benefit
      (current_cost_per_order adj) (target_cost_per_order adj)
      (annual_order_volume adj) ;;
  (* Total annual benefit (adoption-adjusted) *)
  let total_annual_benefit :=
    adoption * (WorkingCapital.annual_benefit wc_benefit +
                ErrorReduction.annual_savings error_benefit +
                RevenueLeakage.profit_impact leakage_benefit +
                LaborAutomation.annual_savings labor_benefit +
                CycleTime.profit_impact cycle_benefit) in
  (* Build year-by-year projection with realistic ramp *)
  df <- build_projection adj adoption total_annual_benefit ;;
  (* Calculate financial metrics *)
  let npv := Qsum (map discounted_cf df) in
  let total_investment :=
    Qsum (map investment df) + Qsum (map maintenance df) in
  let total_benefits := Qsum (map benefits df) in
  roi <-
    (if Qgtb total_investment 0
     then q <- truediv (total_benefits - total_investment) total_investment ;;
          ret (q * 100)
     else ret 0) ;;
  (* Payback period *)
  payback <- payback_loop df df 0 ;;
  ret {| scenario_type := scenario_type;
         sr_adoption_rate := adoption;
         performance_multiplier := perf;
         annual_revenue := annual_revenue;
         working_capital := wc_benefit;
         error_reduction := error_benefit;
         revenue_leakage := leakage_benefit;
         labor_automation := labor_benefit;
         cycle_time := cycle_benefit;
         cost_reduction := cost_benefit;
         total_annual_benefit := total_annual_benefit;
         cash_flow_df := df;
         npv := npv;
         roi := roi;
         payback := payback;
         total_investment := total_investment;
         total_benefits := total_benefits |}.

(* ===================================================================== *)
(** * Benchmark classifier                                                *)
(* ===================================================================== *)

Record Benchmarks : Type := {
  bottom_quartile : Q;
  average : Q;
  top_quartile : Q;
  best_in_class : Q
}.

(** Industry benchmarks (sourced from APQC, Aberdeen Group, Gartner). *)
Definition INDUSTRY_BENCHMARKS : list (string * Benchmarks) :=
  [ ("dso"%string,
     {| bottom_quartile := 52; average := 38;
        top_quartile := 31; best_in_class := 24 |});
    ("perfect_order_rate"%string,
     {| bottom_quartile := 0.68; average := 0.85;
        top_quartile := 0.93; best_in_class := 0.97 |});
    ("stp_rate"%string,
     {| bottom_quartile := 0.58; average := 0.78;
        top_quartile := 0.89; best_in_class := 0.95 |});
    ("cost_per_order"%string,
     {| bottom_quartile := 105; average := 62;
        top_quartile := 42; best_in_class := 28 |});
    ("revenue_leakage"%string,
     {| bottom_quartile := 0.12; average := 0.06;
        top_quartile := 0.03; best_in_class := 0.01 |}) ].

(** [x in xs] on a list of strings. *)
Definition str_in (x : string) (xs : list string) : bool :=
  existsb (String.eqb x) xs.

(** The metrics for which lower is better. *)
Definition lower_is_better : list string :=
  [ "dso"; "cost_per_order"; "revenue_leakage" ]%string.

(** The nested function [categorize]; [metric_name] and [benchmarks] are
    the variables it closes over.  It returns the tier and its colour. *)
Definition categorize (metric_name : string) (benchmarks : Benchmarks)
    (value : Q) : string * string :=
  if str_in metric_name lower_is_better then
    (* Lower is better *)
    if Qle_bool value (best_in_class benchmarks) then
      ("Best-in-Class", "#28a745")%string
    else if Qle_bool value (top_quartile benchmarks) then
      ("Top Quartile", "#20c997")%string
    else if Qle_bool value (average benchmarks) then
      ("Average", "#ffc107")%string
    else
      ("Bottom Quartile", "#dc3545")%string
  else
    (* Higher is better *)
    if Qle_bool (best_in_class benchmarks) value then
      ("Best-in-Class", "#28a745")%string
    else if Qle_bool (top_quartile benchmarks) value then
      ("Top Quartile", "#20c997")%string
    else if Qle_bool (average benchmarks) value then
      ("Average", "#ffc107")%string
    else
      ("Bottom Quartile", "#dc3545")%string.

Record BenchmarkPosition : Type := {
  current_category : string;
  current_color : string;
  target_category : string;
  target_color : string;
  benchmarks : Benchmarks
}.

Definition get_benchmark_position (metric_name : string)
    (current_value target_value : Q) : Exc BenchmarkPosition :=
  benchmarks <- dict_get INDUSTRY_BENCHMARKS metric_name ;;
  let current := categorize metric_name benchmarks current_value in
  let target := categorize metric_name benchmarks target_value in
  ret {| current_category := fst current;
         current_color := snd current;
         target_category := fst target;
         target_color := snd target;
         benchmarks := benchmarks |}.

(* ===================================================================== *)
(** * Input invariants                                                    *)
(* ===================================================================== *)

Definition is_rate (x : Q) : Prop := 0 <= x /\ x <= 1.

(** The invariant on [FinancialInputs]: rates and fractions lie in
    [[0,1]], monetary, volume and time fields are positive, and the time
    horizon is at least three years.  The code does not check it. *)
Record valid_inputs (i : FinancialInputs) : Prop := {
  valid_annual_order_volume : (0 < annual_order_volume i)%Z;
  valid_average_order_value : 0 < average_order_value i;
  valid_profit_margin : is_rate (profit_margin i);
  valid_current_dso : 0 < current_dso i;
  valid_current_perfect_order_rate : is_rate (current_perfect_order_rate i);
  valid_current_cycle_time : 0 < current_cycle_time i;
  valid_current_revenue_leakage : is_rate (current_revenue_leakage i);
  valid_current_cost_per_order : 0 < current_cost_per_order i;
  valid_current_stp_rate : is_rate (current_stp_rate i);
  valid_target_dso : 0 < target_dso i;
  valid_target_perfect_order_rate : is_rate (target_perfect_order_rate i);
  valid_target_cycle_time : 0 < target_cycle_time i;
  valid_target_revenue_leakage : is_rate (target_revenue_leakage i);
  valid_target_cost_per_order : 0 < target_cost_per_order i;
  valid_target_stp_rate : is_rate (target_stp_rate i);
  valid_avg_rework_cost : 0 < avg_rework_cost i;
  valid_fully_loaded_hourly_rate : 0 < fully_loaded_hourly_rate i;
  valid_avg_manual_processing_time : 0 < avg_manual_processing_time i;
  valid_initial_investment : 0 < initial_investment i;
  valid_annual_maintenance : 0 < annual_maintenance i;
  valid_change_management_cost : 0 < change_management_cost i;
  valid_integration_cost : 0 < integration_cost i;
  valid_wacc : is_rate (wacc i);
  valid_tax_rate : is_rate (tax_rate i);
  valid_time_horizon : (3 <= time_horizon i)%Z;
  valid_pilot_duration_months : (0 < pilot_duration_months i)%Z;
  valid_limited_production_months : (0 < limited_production_months i)%Z;
  valid_full_production_month : (0 < full_production_month i)%Z
}.

(** Every target is at least as good as the current value, in the
    direction in which the metric improves. *)
Record targets_improve (i : FinancialInputs) : Prop := {
  improve_dso : target_dso i <= current_dso i;
  improve_perfect_order_rate :
    current_perfect_order_rate i <= target_perfect_order_rate i;
  improve_cycle_time : target_cycle_time i <= current_cycle_time i;
  improve_revenue_leakage :
    target_revenue_leakage i <= current_revenue_leakage i;
  improve_cost_per_order :
    target_cost_per_order i <= current_cost_per_order i;
  improve_stp_rate : current_stp_rate i <= target_stp_rate i
}.

(** The inputs the form in [main] starts from. *)
Definition default_inputs : FinancialInputs :=
  {| annual_order_volume := 50000;
     average_order_value := 2500;
     profit_margin := 0.15;
     current_dso := 45;
     current_perfect_order_rate := 0.75;
     current_cycle_time := 5.2;
     current_revenue_leakage := 0.08;
     current_cost_per_order := 85;
     current_stp_rate := 0.65;
     target_dso := 35;
     target_perfect_order_rate := 0.92;
     target_cycle_time := 3;
     target_revenue_leakage := 0.03;
     target_cost_per_order := 52;
     target_stp_rate := 0.88;
     avg_rework_cost := 85;
     fully_loaded_hourly_rate := 75;
     avg_manual_processing_time := 28;
     initial_investment := 500000;
     annual_maintenance := 100000;
     change_management_cost := 100000;
     integration_cost := 75000;
     wacc := 0.08;
     tax_rate := 0.25;
     time_horizon := 5;
     pilot_duration_months := 3;
     limited_production_months := 6;
     full_production_month := 10 |}.

(** [inputs] with the two cost-per-order fields replaced. *)
Definition with_cost_per_order (inputs : FinancialInputs) (current target : Q)
    : FinancialInputs :=
  {| annual_order_volume := annual_order_volume inputs;
     average_order_value := average_order_value inputs;
     profit_margin := profit_margin inputs;
     current_dso := current_dso inputs;
     current_perfect_order_rate := current_perfect_order_rate inputs;
     current_cycle_time := current_cycle_time inputs;
     current_revenue_leakage := current_revenue_leakage inputs;
     current_cost_per_order := current;
     current_stp_rate := current_stp_rate inputs;
     target_dso := target_dso inputs;
     target_perfect_order_rate := target_perfect_order_rate inputs;
     target_cycle_time := target_cycle_time inputs;
     target_revenue_leakage := target_revenue_leakage inputs;
     target_cost_per_order := target;
     target_stp_rate := target_stp_rate inputs;
     avg_rework_cost := avg_rework_cost inputs;
     fully_loaded_hourly_rate := fully_loaded_hourly_rate inputs;
     avg_manual_processing_time := avg_manual_processing_time inputs;
     initial_investment := initial_investment inputs;
     annual_maintenance := annual_maintenance inputs;
     change_management_cost := change_management_cost inputs;
     integration_cost := integration_cost inputs;
     wacc := wacc inputs;
     tax_rate := tax_rate inputs;
     time_horizon := time_horizon inputs;
     pilot_duration_months := pilot_duration_months inputs;
     limited_production_months := limited_production_months inputs;
     full_production_month := full_production_month inputs |}.

(* ===================================================================== *)
(** * Closed forms of the loops                                           *)
(* ===================================================================== *)

(** The multipliers the table holds for a tag. *)
Definition multipliers_of (t : ScenarioTag) : Multipliers :=
  match t with
  | best  => {| adoption := 0.95; performance := 1.10 |}
  | base  => {| adoption := 0.75; performance := 1.00 |}
  | worst => {| adoption := 0.50; performance := 0.80 |}
  end.

(** The row the steady-state loop appends for [year] when the running
    total before it is [cumulative_cf] and no division raises. *)
Definition steady_state_row (adj : FinancialInputs)
    (adoption total_annual_benefit cumulative_cf : Q) (year : Z) : YearRecord :=
  let year_benefit := total_annual_benefit * adoption * 1.03 ^ (year - 2) in
  let year_maintenance := annual_maintenance adj * 1.02 ^ (year - 2) in
  let year_net := year_benefit - year_maintenance in
  {| year := year;
     phase := "Steady State";
     adoption_rate := adoption;
     investment := 0;
     maintenance := year_maintenance;
     benefits := year_benefit;
     net_cf := year_net;
     cumulative_cf := cumulative_cf + year_net;
     discounted_cf := year_net / (1 + wacc adj) ^ year |}.

Fixpoint steady_state_rows (adj : FinancialInputs)
    (adoption total_annual_benefit : Q) (ys : list Z) (cumulative_cf0 : Q)
    : list YearRecord :=
  match ys with
  | [] => []
  | y :: ys' =>
      let row := steady_state_row adj adoption total_annual_benefit cumulative_cf0 y in
      row :: steady_state_rows adj adoption total_annual_benefit ys'
               (cumulative_cf row)
  end.

(** The rows of the years 0, 1 and 2. *)
Definition ramp_rows (adj : FinancialInputs)
    (adoption total_annual_benefit : Q) : list YearRecord :=
  let b0 := total_annual_benefit * 0.15 * adoption in
  let c0 := initial_investment adj * 0.30 + change_management_cost adj * 0.50 in
  let n0 := b0 - c0 in
  let b1 := total_annual_benefit * 0.45 * adoption in
  let c1 := initial_investment adj * 0.50 + change_management_cost adj * 0.50 +
            integration_cost adj in
  let m1 := annual_maintenance adj * 0.5 in
  let n1 := b1 - c1 - m1 in
  let b2 := total_annual_benefit * 0.80 * adoption in
  let c2 := initial_investment adj * 0.20 in
  let m2 := annual_maintenance adj in
  let n2 := b2 - c2 - m2 in
  [ {| year := 0; phase := "Pilot"; adoption_rate := 0.15 * adoption;
       investment := c0; maintenance := 0; benefits := b0; net_cf := n0;
       cumulative_cf := n0;
       discounted_cf := n0 / (1 + wacc adj) ^ 0 |};
    {| year := 1; phase := "Limited Production";
       adoption_rate := 0.45 * adoption;
       investment := c1; maintenance := m1; benefits := b1; net_cf := n1;
       cumulative_cf := n0 + n1;
       discounted_cf := n1 / (1 + wacc adj) ^ 1 |};
    {| year := 2; phase := "Full Production";
       adoption_rate := 0.80 * adoption;
       investment := c2; maintenance := m2; benefits := b2; net_cf := n2;
       cumulative_cf := n0 + n1 + n2;
       discounted_cf := n2 / (1 + wacc adj) ^ 2 |} ].

(** The whole data frame when no division raises. *)
Definition projection_rows (adj : FinancialInputs)
    (adoption total_annual_benefit : Q) : list YearRecord :=
  let ramp := ramp_rows adj adoption total_annual_benefit in
  ramp ++
  steady_state_rows adj adoption total_annual_benefit
    (py_range 3 (time_horizon adj + 1))
    (cumulative_cf (last ramp (steady_state_row adj adoption total_annual_benefit 0 0))).

(** The payback rule in the words of the specification, on the column of
    cumulative cash flows: the first index whose entry is positive ... *)
Fixpoint first_positive (cs : list Q) : option nat :=
  match cs with
  | [] => None
  | c :: cs' =>
      if Qgtb c 0 then Some O else option_map S (first_positive cs')
  end.

(** ... and the value at a crossing year [y]: zero in year 0, otherwise
    the interpolation between the years [y - 1] and [y], with the fraction
    taken as 0 when the denominator is 0. *)
Definition payback_at (cs : list Q) (y : nat) : Q :=
  match y with
  | O => 0
  | S y' =>
      let prev := nth y' cs 0 in
      let curr := nth (S y') cs 0 in
      let fraction :=
        if Qeq_bool (curr - prev) 0 then 0 else Qabs prev / (curr - prev) in
      inject_Z (Z.of_nat y') + fraction
  end.

Definition payback_spec (cs : list Q) : option Q :=
  option_map (payback_at cs) (first_positive cs).

(** The two comparisons of a value with a threshold. *)
Definition at_most (v t : Q) : Prop := v <= t.

Definition at_least (v t : Q) : Prop := t <= v.

(** The tier a value falls in, as a proposition: [better v t] says that
    [v] meets the threshold [t]. *)
Definition tier_spec (better : Q -> Q -> Prop) (b : Benchmarks) (v : Q)
    (tier : string) : Prop :=
  (better v (best_in_class b) /\ tier = "Best-in-Class"%string) \/
  (~ better v (best_in_class b) /\ better v (top_quartile b) /\
   tier = "Top Quartile"%string) \/
  (~ better v (best_in_class b) /\ ~ better v (top_quartile b) /\
   better v (average b) /\ tier = "Average"%string) \/
  (~ better v (best_in_class b) /\ ~ better v (top_quartile b) /\
   ~ better v (average b) /\ tier = "Bottom Quartile"%string).

(** The values of the two fallible calculators when the divisor is not
    zero. *)
Definition cycle_time_benefit_value
    (current_cycle_time target_cycle_time : Q) (order_volume : Z)
    (avg_order_value profit_margin capacity_capture_rate : Q) : CycleTime.t :=
  let pct := (current_cycle_time - target_cycle_time) / current_cycle_time in
  let additional_capacity := inject_Z order_volume * pct in
  let revenue_opportunity :=
    additional_capacity * avg_order_value * capacity_capture_rate in
  {| CycleTime.cycle_time_reduction_days :=
       current_cycle_time - target_cycle_time;
     CycleTime.cycle_time_reduction_pct := pct;
     CycleTime.additional_capacity_orders := additional_capacity;
     CycleTime.revenue_opportunity := revenue_opportunity;
     CycleTime.profit_impact := revenue_opportunity * profit_margin;
     CycleTime.capacity_capture_rate := capacity_capture_rate |}.

Definition cost_per_order_benefit_value
    (current_cost target_cost : Q) (order_volume : Z) : CostReduction.t :=
  {| CostReduction.cost_reduction_per_order := current_cost - target_cost;
     CostReduction.cost_reduction_pct :=
       (current_cost - target_cost) / current_cost;
     CostReduction.annual_savings :=
       (current_cost - target_cost) * inject_Z order_volume |}.

(** The ROI expression, whose division is guarded. *)
Definition roi_value (total_investment total_benefits : Q) : Q :=
  if Qgtb total_investment 0
  then (total_benefits - total_investment) / total_investment * 100
  else 0.

(** The sum of the five benefit components that enter the cash flow,
    before the adoption rate is applied. *)
Definition benefit_components (adj : FinancialInputs) : Q :=
  let annual_revenue :=
    calculate_annual_revenue (annual_order_volume adj) (average_order_value adj) in
  WorkingCapital.annual_benefit
    (calculate_working_capital_benefit
       (current_dso adj) (target_dso adj) annual_revenue (wacc adj)) +
  ErrorReduction.annual_savings
    (calculate_error_reduction_benefit
       (current_perfect_order_rate adj) (target_perfect_order_rate adj)
       (annual_order_volume adj) (avg_rework_cost adj)) +
  RevenueLeakage.profit_impact
    (calculate_revenue_leakage_benefit
       (current_revenue_leakage adj) (target_revenue_leakage adj)
       annual_revenue (profit_margin adj)) +
  LaborAutomation.annual_savings
    (calculate_labor_automation_benefit
       (current_stp_rate adj) (target_stp_rate adj) (annual_order_volume adj)
       (avg_manual_processing_time adj) (fully_loaded_hourly_rate adj)) +
  CycleTime.profit_impact
    (cycle_time_benefit_value
       (current_cycle_time adj) (target_cycle_time adj) (annual_order_volume adj)
       (average_order_value adj) (profit_margin adj)
       default_capacity_capture_rate).

(** The value [calculate_scenario] returns for a scenario tag when no
    division raises. *)
Definition scenario_value (inputs : FinancialInputs) (t : ScenarioTag)
    : ScenarioResult :=
  let mult := multipliers_of t in
  let adj := adj_inputs inputs (performance mult) in
  let annual_revenue :=
    calculate_annual_revenue (annual_order_volume adj) (average_order_value adj) in
  let total_annual_benefit := adoption mult * benefit_components adj in
  let df := projection_rows adj (adoption mult) total_annual_benefit in
  let total_investment :=
    Qsum (map investment df) + Qsum (map maintenance df) in
  let total_benefits := Qsum (map benefits df) in
  {| scenario_type := tag_key t;
     sr_adoption_rate := adoption mult;
     performance_multiplier := performance mult;
     annual_revenue := annual_revenue;
     working_capital :=
       calculate_working_capital_benefit
         (current_dso adj) (target_dso adj) annual_revenue (wacc adj);
     error_reduction :=
       calculate_error_reduction_benefit
         (current_perfect_order_rate adj) (target_perfect_order_rate adj)
         (annual_order_volume adj) (avg_rework_cost adj);
     revenue_leakage :=
       calculate_revenue_leakage_benefit
         (current_revenue_leakage adj) (target_revenue_leakage adj)
         annual_revenue (profit_margin adj);
     labor_automation :=
       calculate_labor_automation_benefit
         (current_stp_rate adj) (target_stp_rate adj) (annual_order_volume adj)
         (avg_manual_processing_time adj) (fully_loaded_hourly_rate adj);
     cycle_time :=
       cycle_time_benefit_value
         (current_cycle_time adj) (target_cycle_time adj)
         (annual_order_volume adj) (average_order_value adj)
         (profit_margin adj) default_capacity_capture_rate;
     cost_reduction :=
       cost_per_order_benefit_value
         (current_cost_per_order adj) (target_cost_per_order adj)
         (annual_order_volume adj);
     total_annual_benefit := total_annual_benefit;
     cash_flow_df := df;
     npv := Qsum (map discounted_cf df);
     roi := roi_value total_investment total_benefits;
     payback := payback_spec (map cumulative_cf df);
     total_investment := total_investment;
     total_benefits := total_benefits |}.

(** Each row's cumulative cash flow is the one before it plus the row's
    net cash flow, starting from [c]. *)
Fixpoint running_total (c : Q) (rows : list YearRecord) : Prop :=
  match rows with
  | [] => True
  | r :: rs => cumulative_cf r == c + net_cf r /\ running_total (cumulative_cf r) rs
  end.

(** The ramp schedule of the specification: the share of the total annual
    benefit the year [y] is to receive. *)
Definition spec_ramp (y : Z) : Q :=
  if (y =? 0)%Z then 0.15
  else if (y =? 1)%Z then 0.45
  else if (y =? 2)%Z then 0.80
  else 1.03 ^ (y - 2).

(** The inputs of the form with the discount rate set to zero and the
    shortest horizon. *)
Definition zero_wacc_inputs : FinancialInputs :=
  {| annual_order_volume := 50000;
     average_order_value := 2500;
     profit_margin := 0.15;
     current_dso := 45;
     current_perfect_order_rate := 0.75;
     current_cycle_time := 5.2;
     current_revenue_leakage := 0.08;
     current_cost_per_order := 85;
     current_stp_rate := 0.65;
     target_dso := 35;
     target_perfect_order_rate := 0.92;
     target_cycle_time := 3;
     target_revenue_leakage := 0.03;
     target_cost_per_order := 52;
     target_stp_rate := 0.88;
     avg_rework_cost := 85;
     fully_loaded_hourly_rate := 75;
     avg_manual_processing_time := 28;
     initial_investment := 500000;
     annual_maintenance := 100000;
     change_management_cost := 100000;
     integration_cost := 75000;
     wacc := 0;
     tax_rate := 0.25;
     time_horizon := 3;
     pilot_duration_months := 3;
     limited_production_months := 6;
     full_production_month := 10 |}.

(** The concrete scenario of the specification: a DSO improvement from 45
    to 35 days and every other target equal to its current value. *)
Definition dso_only_inputs : FinancialInputs :=
  {| annual_order_volume := 50000;
     average_order_value := 2500;
     profit_margin := 0.15;
     current_dso := 45;
     current_perfect_order_rate := 0.75;
     current_cycle_time := 5.2;
     current_revenue_leakage := 0.08;
     current_cost_per_order := 85;
     current_stp_rate := 0.65;
     target_dso := 35;
     target_perfect_order_rate := 0.75;
     target_cycle_time := 5.2;
     target_revenue_leakage := 0.08;
     target_cost_per_order := 85;
     target_stp_rate := 0.65;
     avg_rework_cost := 85;
     fully_loaded_hourly_rate := 75;
     avg_manual_processing_time := 28;
     initial_investment := 500000;
     annual_maintenance := 100000;
     change_management_cost := 100000;
     integration_cost := 75000;
     wacc := 0.08;
     tax_rate := 0.25;
     time_horizon := 5;
     pilot_duration_months := 3;
     limited_production_months := 6;
     full_production_month := 10 |}.

(** The five metric keys of the benchmark table. *)
Definition metric_keys : list string :=
  [ "dso"; "perfect_order_rate"; "stp_rate"; "cost_per_order";
    "revenue_leakage" ]%string.

(** The metrics for which higher is better. *)
Definition higher_is_better : list string :=
  [ "perfect_order_rate"; "stp_rate" ]%string.

(* ===================================================================== *)
(** * Inputs with some fields replaced                                    *)
(* ===================================================================== *)

(** [inputs] with another time horizon. *)
Definition with_time_horizon (inputs : FinancialInputs) (horizon : Z)
    : FinancialInputs :=
  {| annual_order_volume := annual_order_volume inputs;
     average_order_value := average_order_value inputs;
     profit_margin := profit_margin inputs;
     current_dso := current_dso inputs;
     current_perfect_order_rate := current_perfect_order_rate inputs;
     current_cycle_time := current_cycle_time inputs;
     current_revenue_leakage := current_revenue_leakage inputs;
     current_cost_per_order := current_cost_per_order inputs;
     current_stp_rate := current_stp_rate inputs;
     target_dso := target_dso inputs;
     target_perfect_order_rate := target_perfect_order_rate inputs;
     target_cycle_time := target_cycle_time inputs;
     target_revenue_leakage := target_revenue_leakage inputs;
     target_cost_per_order := target_cost_per_order inputs;
     target_stp_rate := target_stp_rate inputs;
     avg_rework_cost := avg_rework_cost inputs;
     fully_loaded_hourly_rate := fully_loaded_hourly_rate inputs;
     avg_manual_processing_time := avg_manual_processing_time inputs;
     initial_investment := initial_investment inputs;
     annual_maintenance := annual_maintenance inputs;
     change_management_cost := change_management_cost inputs;
     integration_cost := integration_cost inputs;
     wacc := wacc inputs;
     tax_rate := tax_rate inputs;
     time_horizon := horizon;
     pilot_duration_months := pilot_duration_months inputs;
     limited_production_months := limited_production_months inputs;
     full_production_month := full_production_month inputs |}.

(** [inputs] with other values in the tax rate and the three month counts. *)
Definition with_unused (inputs : FinancialInputs) (tax : Q) (pilot limited full : Z)
    : FinancialInputs :=
  {| annual_order_volume := annual_order_volume inputs;
     average_order_value := average_order_value inputs;
     profit_margin := profit_margin inputs;
     current_dso := current_dso inputs;
     current_perfect_order_rate := current_perfect_order_rate inputs;
     current_cycle_time := current_cycle_time inputs;
     current_revenue_leakage := current_revenue_leakage inputs;
     current_cost_per_order := current_cost_per_order inputs;
     current_stp_rate := current_stp_rate inputs;
     target_dso := target_dso inputs;
     target_perfect_order_rate := target_perfect_order_rate inputs;
     target_cycle_time := target_cycle_time inputs;
     target_revenue_leakage := target_revenue_leakage inputs;
     target_cost_per_order := target_cost_per_order inputs;
     target_stp_rate := target_stp_rate inputs;
     avg_rework_cost := avg_rework_cost inputs;
     fully_loaded_hourly_rate := fully_loaded_hourly_rate inputs;
     avg_manual_processing_time := avg_manual_processing_time inputs;
     initial_investment := initial_investment inputs;
     annual_maintenance := annual_maintenance inputs;
     change_management_cost := change_management_cost inputs;
     integration_cost := integration_cost inputs;
     wacc := wacc inputs;
     tax_rate := tax;
     time_horizon := time_horizon inputs;
     pilot_duration_months := pilot;
     limited_production_months := limited;
     full_production_month := full |}.

(** [inputs] with the four investment fields replaced. *)
Definition with_costs (inputs : FinancialInputs) (initial maint change integ : Q)
    : FinancialInputs :=
  {| annual_order_volume := annual_order_volume inputs;
     average_order_value := average_order_value inputs;
     profit_margin := profit_margin inputs;
     current_dso := current_dso inputs;
     current_perfect_order_rate := current_perfect_order_rate inputs;
     current_cycle_time := current_cycle_time inputs;
     current_revenue_leakage := current_revenue_leakage inputs;
     current_cost_per_order := current_cost_per_order inputs;
     current_stp_rate := current_stp_rate inputs;
     target_dso := target_dso inputs;
     target_perfect_order_rate := target_perfect_order_rate inputs;
     target_cycle_time := target_cycle_time inputs;
     target_revenue_leakage := target_revenue_leakage inputs;
     target_cost_per_order := target_cost_per_order inputs;
     target_stp_rate := target_stp_rate inputs;
     avg_rework_cost := avg_rework_cost inputs;
     fully_loaded_hourly_rate := fully_loaded_hourly_rate inputs;
     avg_manual_processing_time := avg_manual_processing_time inputs;
     initial_investment := initial;
     annual_maintenance := maint;
     change_management_cost := change;
     integration_cost := integ;
     wacc := wacc inputs;
     tax_rate := tax_rate inputs;
     time_horizon := time_horizon inputs;
     pilot_duration_months := pilot_duration_months inputs;
     limited_production_months := limited_production_months inputs;
     full_production_month := full_production_month inputs |}.

(** [inputs] with the six targets replaced. *)
Definition with_targets (inputs : FinancialInputs) (dso por cyc leak cost stp : Q)
    : FinancialInputs :=
  {| annual_order_volume := annual_order_volume inputs;
     average_order_value := average_order_value inputs;
     profit_margin := profit_margin inputs;
     current_dso := current_dso inputs;
     current_perfect_order_rate := current_perfect_order_rate inputs;
     current_cycle_time := current_cycle_time inputs;
     current_revenue_leakage := current_revenue_leakage inputs;
     current_cost_per_order := current_cost_per_order inputs;
     current_stp_rate := current_stp_rate inputs;
     target_dso := dso;
     target_perfect_order_rate := por;
     target_cycle_time := cyc;
     target_revenue_leakage := leak;
     target_cost_per_order := cost;
     target_stp_rate := stp;
     avg_rework_cost := avg_rework_cost inputs;
     fully_loaded_hourly_rate := fully_loaded_hourly_rate inputs;
     avg_manual_processing_time := avg_manual_processing_time inputs;
     initial_investment := initial_investment inputs;
     annual_maintenance := annual_maintenance inputs;
     change_management_cost := change_management_cost inputs;
     integration_cost := integration_cost inputs;
     wacc := wacc inputs;
     tax_rate := tax_rate inputs;
     time_horizon := time_horizon inputs;
     pilot_duration_months := pilot_duration_months inputs;
     limited_production_months := limited_production_months inputs;
     full_production_month := full_production_month inputs |}.

(** [inputs] with every target set to the current value. *)
Definition without_improvement (inputs : FinancialInputs) : FinancialInputs :=
  with_targets inputs
    (current_dso inputs) (current_perfect_order_rate inputs)
    (current_cycle_time inputs) (current_revenue_leakage inputs)
    (current_cost_per_order inputs) (current_stp_rate inputs).

(** Every target equals the current value. *)
Record no_improvement (i : FinancialInputs) : Prop := {
  same_dso : target_dso i == current_dso i;
  same_perfect_order_rate :
    target_perfect_order_rate i == current_perfect_order_rate i;
  same_cycle_time : target_cycle_time i == current_cycle_time i;
  same_revenue_leakage :
    target_revenue_leakage i == current_revenue_leakage i;
  same_cost_per_order : target_cost_per_order i == current_cost_per_order i;
  same_stp_rate : target_stp_rate i == current_stp_rate i
}.

(** Every target is at most as good as the current value: the inverted
    inputs, which the code accepts as well. *)
Record targets_worsen (i : FinancialInputs) : Prop := {
  worsen_dso : current_dso i <= target_dso i;
  worsen_perfect_order_rate :
    target_perfect_order_rate i <= current_perfect_order_rate i;
  worsen_cycle_time : current_cycle_time i <= target_cycle_time i;
  worsen_revenue_leakage :
    current_revenue_leakage i <= target_revenue_leakage i;
  worsen_cost_per_order :
    current_cost_per_order i <= target_cost_per_order i;
  worsen_stp_rate : target_stp_rate i <= current_stp_rate i
}.

(* ===================================================================== *)
(** * The figures [main] and the charts derive from the results           *)
(* ===================================================================== *)

(** [x if x else 99] on a payback: [None] and a zero payback are both
    false in a condition.  It is written out seven times, in
    [create_scenario_comparison_chart], in the payback metric and in the
    three scenario cards of [main]. *)
Definition payback_or_99 (payback : option Q) : Q :=
  match payback with
  | None => 99
  | Some p => if Qeq_bool p 0 then 99 else p
  end.

(** [payback_months] of the payback metric in [main]. *)
Definition payback_months (base_result : ScenarioResult) : Q :=
  let payback_years := payback_or_99 (payback base_result) in
  payback_years * 12.

(** The probability-weighted NPV of [main] (20% best, 50% base, 30%
    worst). *)
Definition probability_weighted_npv
    (best_result base_result worst_result : ScenarioResult) : Q :=
  0.20 * npv best_result + 0.50 * npv base_result + 0.30 * npv worst_result.

(** The part of [main] that computes it from the inputs. *)
Definition main_probability_weighted_npv (inputs : FinancialInputs) : Exc Q :=
  best_result <- calculate_scenario inputs "best" ;;
  base_result <- calculate_scenario inputs "base" ;;
  worst_result <- calculate_scenario inputs "worst" ;;
  ret (probability_weighted_npv best_result base_result worst_result).

(** The data of [create_waterfall_chart]: the [values] of the dictionary
    [benefits], in insertion order, the list [cumulative] of their running
    sums and the height [sum(values)] of the bar "Total". *)
Definition waterfall_values (base_result : ScenarioResult) : list Q :=
  [ WorkingCapital.annual_benefit (working_capital base_result);
    ErrorReduction.annual_savings (error_reduction base_result);
    RevenueLeakage.profit_impact (revenue_leakage base_result);
    LaborAutomation.annual_savings (labor_automation base_result);
    CycleTime.profit_impact (cycle_time base_result) ].

Definition waterfall_cumulative (values : list Q) : list Q :=
  map (fun i => Qsum (firstn (i + 1) values)) (seq 0 (List.length values)).

Definition waterfall_total (values : list Q) : Q := Qsum values.

(* ===================================================================== *)
(** * The executive summary                                               *)
(* ===================================================================== *)

(** The exceptions of the report code: those of the engine, and the
    [TypeError] that formatting [None] with a float format raises. *)
Inductive report_exn : Type :=
  | Raised (e : exn)
  | TypeError.

Definition Report (A : Type) : Type := (report_exn + A)%type.

Definition lift {A : Type} (m : Exc A) : Report A :=
  match m with
  | inl e => inl (Raised e)
  | inr a => inr a
  end.

Definition rbind {A B : Type} (m : Report A) (k : A -> Report B) : Report B :=
  match m with
  | inl e => inl e
  | inr a => k a
  end.

Notation "x <~ m ;; k" := (rbind m (fun x => k))
  (at level 61, m at next level, right associativity).

(** A replacement field of an f-string once evaluated: its value and the
    format it is rendered with.  The rendering to characters and the text
    between the fields are not modelled. *)
Inductive Field : Type :=
  | Today                            (* datetime.now().strftime(...) *)
  | Plain (v : Q)                    (* {v} *)
  | Fixed (decimals : nat) (v : Q)   (* {v:.Nf} *)
  | Grouped (decimals : nat) (v : Q) (* {v:,.Nf} *)
  | GroupedInt (z : Z)               (* {z:,} *)
  | NonFinite.                       (* an infinity or a NaN *)

(** [{v:.Nf}] on a value that may be [None]: a number is rendered, [None]
    raises [TypeError]. *)
Definition format_fixed (decimals : nat) (v : option Q) : Report Field :=
  match v with
  | Some q => inr (Fixed decimals q)
  | None => inl TypeError
  end.

(** [{(a / b) * 100:.0f}] where [a] is a NumPy float, as the sums of the
    columns of the data frame are: dividing it by zero does not raise, it
    yields an infinity or a NaN, which is rendered as such. *)
Definition format_ratio_percent (a b : Q) : Field :=
  if Qeq_bool b 0 then NonFinite else Fixed 0 (a / b * 100).

(** [generate_executive_summary]: the replacement fields of its f-string
    in source order.  The fields are evaluated and formatted from first to
    last, so the first one that raises decides the exception; the ones
    that can raise are bound in that order.  Divisions by the literals
    1e6 and 1e3 cannot raise.  The argument [best] is not read. *)
Definition generate_executive_summary (inputs : FinancialInputs)
    (best base worst : ScenarioResult) (probability_weighted_npv : Q)
    : Report (list Field) :=
  let annual_revenue :=
    calculate_annual_revenue (annual_order_volume inputs)
                             (average_order_value inputs) in
  let current_error_rate := (1 - current_perfect_order_rate inputs) * 100 in
  let target_error_rate := (1 - target_perfect_order_rate inputs) * 100 in
  dso_benchmarks <~ lift (dict_get INDUSTRY_BENCHMARKS "dso") ;;
  por_benchmarks <~ lift (dict_get INDUSTRY_BENCHMARKS "perfect_order_rate") ;;
  stp_benchmarks <~ lift (dict_get INDUSTRY_BENCHMARKS "stp_rate") ;;
  base_payback <~ format_fixed 1 (payback base) ;;
  worst_payback <~ format_fixed 1 (payback worst) ;;
  inr
    [ (* header *)
      Today;
      (* THE PROBLEM *)
      Fixed 1 (current_cost_per_order inputs *
               inject_Z (annual_order_volume inputs) / 1000000);
      Fixed 0 current_error_rate;
      Fixed 1 (annual_revenue * current_revenue_leakage inputs / 1000000);
      Fixed 0 (current_dso inputs);
      Plain (average dso_benchmarks);
      Fixed 0 (current_perfect_order_rate inputs * 100);
      Fixed 0 (average por_benchmarks * 100);
      Fixed 0 (current_stp_rate inputs * 100);
      Fixed 0 (average stp_benchmarks * 100);
      (* THE SOLUTION *)
      Fixed 0 ((target_stp_rate inputs - current_stp_rate inputs) * 100);
      Fixed 0 (current_error_rate - target_error_rate);
      Fixed 0 (target_dso inputs);
      Fixed 0 (target_perfect_order_rate inputs * 100);
      Fixed 0 (target_stp_rate inputs * 100);
      (* THE FINANCIAL CASE *)
      Fixed 0 ((initial_investment inputs + change_management_cost inputs +
                integration_cost inputs) / 1000);
      Fixed 2 (total_annual_benefit base / 1000000);
      Fixed 0 (wacc inputs * 100);
      Fixed 1 (npv base / 1000000);
      Fixed 0 (roi base);
      base_payback;
      Fixed 1 (probability_weighted_npv / 1000000);
      (* BENEFIT BREAKDOWN *)
      Fixed 0 (WorkingCapital.annual_benefit (working_capital base) / 1000);
      Fixed 0 (current_dso inputs);
      Fixed 0 (target_dso inputs);
      Fixed 1 (WorkingCapital.cash_freed (working_capital base) / 1000000);
      Fixed 0 (ErrorReduction.annual_savings (error_reduction base) / 1000);
      Grouped 0 (ErrorReduction.errors_eliminated (error_reduction base));
      Grouped 0 (ErrorReduction.annual_savings (error_reduction base));
      Fixed 0 (RevenueLeakage.profit_impact (revenue_leakage base) / 1000);
      Fixed 2 (RevenueLeakage.revenue_protected (revenue_leakage base) / 1000000);
      Fixed 0 (profit_margin inputs * 100);
      Fixed 0 (LaborAutomation.annual_savings (labor_automation base) / 1000);
      Fixed 1 (LaborAutomation.fte_reduction (labor_automation base));
      Grouped 0 (LaborAutomation.touches_eliminated (labor_automation base));
      Fixed 0 (CycleTime.profit_impact (cycle_time base) / 1000);
      Fixed 1 (current_cycle_time inputs);
      Fixed 1 (target_cycle_time inputs);
      Grouped 0 (CycleTime.additional_capacity_orders (cycle_time base));
      (* DOWNSIDE PROTECTION *)
      Fixed 1 (npv worst / 1000000);
      Fixed 0 (roi worst);
      worst_payback;
      format_ratio_percent (total_investment base) (total_annual_benefit base);
      (* IMPLEMENTATION ROADMAP *)
      Fixed 0 (initial_investment inputs * 0.30 / 1000);
      Fixed 0 ((initial_investment inputs * 0.50 + integration_cost inputs) / 1000);
      Grouped 0 (inject_Z (annual_order_volume inputs) * 0.30);
      Fixed 1 (total_annual_benefit base * 0.45 / 1000000);
      Fixed 0 (initial_investment inputs * 0.20 / 1000);
      GroupedInt (annual_order_volume inputs);
      Fixed 2 (total_annual_benefit base / 1000000);
      (* RECOMMENDATION *)
      Fixed 0 (current_perfect_order_rate inputs * 100);
      Fixed 0 (target_perfect_order_rate inputs * 100) ].

(** The calls of [main] that lead to the executive summary: the three
    scenarios, the probability-weighted NPV and the summary itself, which
    [main] builds unconditionally. *)
Definition main_executive_summary (inputs : FinancialInputs)
    : Report (list Field) :=
  best_result <~ lift (calculate_scenario inputs "best") ;;
  base_result <~ lift (calculate_scenario inputs "base") ;;
  worst_result <~ lift (calculate_scenario inputs "worst") ;;
  let pw := probability_weighted_npv best_result base_result worst_result in
  generate_executive_summary inputs best_result base_result worst_result pw.

(* ===================================================================== *)
(** * Quantities used to state the properties of the engine              *)
(* ===================================================================== *)

(** The three conditions under which no division of [calculate_scenario]
    has a zero divisor. *)
Definition divisors_nonzero (inputs : FinancialInputs) : Prop :=
  ~ current_cycle_time inputs == 0 /\
  ~ current_cost_per_order inputs == 0 /\
  ~ 1 + wacc inputs == 0.

(** The years of the projection. *)
Definition projection_years (horizon : Z) : list Z :=
  [0; 1; 2]%Z ++ py_range 3 (horizon + 1).

(** The outlay of a year, investment plus maintenance. *)
Definition yearly_cost (inputs : FinancialInputs) (y : Z) : Q :=
  if (y =? 0)%Z then
    initial_investment inputs * 0.30 + change_management_cost inputs * 0.50
  else if (y =? 1)%Z then
    initial_investment inputs * 0.50 + change_management_cost inputs * 0.50 +
    integration_cost inputs + annual_maintenance inputs * 0.5
  else if (y =? 2)%Z then
    initial_investment inputs * 0.20 + annual_maintenance inputs
  else annual_maintenance inputs * 1.02 ^ (y - 2).

(** The discounted ramp shares and the discounted outlays of the whole
    horizon. *)
Definition discounted_ramp (inputs : FinancialInputs) : Q :=
  Qsum (map (fun y => spec_ramp y / (1 + wacc inputs) ^ y)
            (projection_years (time_horizon inputs))).

Definition discounted_costs (inputs : FinancialInputs) : Q :=
  Qsum (map (fun y => yearly_cost inputs y / (1 + wacc inputs) ^ y)
            (projection_years (time_horizon inputs))).

(** The rank of a tier, the higher the better. *)
Definition tier_rank (tier : string) : nat :=
  if String.eqb tier "Best-in-Class" then 3
  else if String.eqb tier "Top Quartile" then 2
  else if String.eqb tier "Average" then 1
  else 0.

(* ===================================================================== *)
(** * The working-capital calculation on binary64 floats                  *)
(* ===================================================================== *)

(** The same two functions on IEEE 754 binary64 numbers, the [float] of
    Python, for the concrete scenario whose figures are stated to a
    rounding tolerance.  An [int] volume is converted exactly. *)
Module Binary64.

Definition calculate_annual_revenue (volume : PrimInt63.int)
    (avg_value : PrimFloat.float) : PrimFloat.float :=
  PrimFloat.mul (PrimFloat.of_uint63 volume) avg_value.

Record WorkingCapital : Type := {
  current_ar : PrimFloat.float;
  target_ar : PrimFloat.float;
  cash_freed : PrimFloat.float;
  annual_benefit : PrimFloat.float;
  dso_improvement_days : PrimFloat.float
}.

Definition calculate_working_capital_benefit
    (current_dso target_dso annual_revenue wacc : PrimFloat.float)
    : WorkingCapital :=
  let current_ar :=
    PrimFloat.mul (PrimFloat.div current_dso 365%float) annual_revenue in
  let target_ar :=
    PrimFloat.mul (PrimFloat.div target_dso 365%float) annual_revenue in
  let cash_freed := PrimFloat.sub current_ar target_ar in
  let annual_benefit := PrimFloat.mul cash_freed wacc in
  {| current_ar := current_ar;
     target_ar := target_ar;
     cash_freed := cash_freed;
     annual_benefit := annual_benefit;
     dso_improvement_days := PrimFloat.sub current_dso target_dso |}.

(** The adjusted DSO target of [calculate_scenario]. *)
Definition adjusted_target_dso (current_dso target_dso perf : PrimFloat.float)
    : PrimFloat.float :=
  PrimFloat.sub current_dso
    (PrimFloat.mul (PrimFloat.sub current_dso target_dso) perf).

(** [abs(x - y) <= tol]. *)
Definition within (x y tol : PrimFloat.float) : bool :=
  PrimFloat.leb (PrimFloat.abs (PrimFloat.sub x y)) tol.

End Binary64.

(* ===================================================================== *)
(** * Tactics                                                             *)
(* ===================================================================== *)

(** Discharges [valid_inputs] and [targets_improve] on concrete inputs. *)
Ltac concrete_inputs :=
  constructor; cbn;
  try match goal with |- is_rate _ => split end;
  first [ reflexivity | discriminate | lia ].

(** Non-negativity of a product of non-negative factors. *)
Ltac nonneg :=
  repeat first
    [ apply Qmult_le_0_compat
    | apply Qinv_le_0_compat
    | lra ].

(* ===================================================================== *)
(** * Runtime lemmas                                                      *)
(* ===================================================================== *)

Lemma truediv_ok (a b : Q) : ~ b == 0 -> truediv a b = ret (a / b).
Proof.
  intros Hb. unfold truediv.
  destruct (Qeq_bool b 0) eqn:E; [ | reflexivity ].
  apply Qeq_bool_eq in E. contradiction.
Qed.

Lemma truediv_zero (a b : Q) : b == 0 -> truediv a b = raise ZeroDivisionError.
Proof.
  intros Hb. unfold truediv.
  apply Qeq_eq_bool in Hb. rewrite Hb. reflexivity.
Qed.

Lemma Qgtb_true (a b : Q) : Qgtb a b = true <-> b < a.
Proof.
  unfold Qgtb. rewrite negb_true_iff. split.
  - intros E. apply Qnot_le_lt. intros Hle.
    apply Qle_bool_iff in Hle. congruence.
  - intros Hlt. destruct (Qle_bool a b) eqn:E; [ | reflexivity ].
    apply Qle_bool_iff in E. exfalso. apply (Qlt_not_le _ _ Hlt E).
Qed.

Lemma Qgtb_false (a b : Q) : Qgtb a b = false <-> a <= b.
Proof.
  unfold Qgtb. rewrite negb_false_iff. apply Qle_bool_iff.
Qed.

Lemma dict_get_scenario (t : ScenarioTag) :
  dict_get scenario_multipliers (tag_key t) = ret (multipliers_of t).
Proof. destruct t; reflexivity. Qed.

Lemma discount_nonzero (w : Q) (y : Z) : ~ 1 + w == 0 -> ~ (1 + w) ^ y == 0.
Proof. intros H. apply Qpower_not_0. exact H. Qed.

(* ===================================================================== *)
(** * The projection loop                                                 *)
(* ===================================================================== *)

Section Projection.

Variable adj : FinancialInputs.
Variables adoption total_annual_benefit : Q.
Hypothesis wacc_ok : ~ 1 + wacc adj == 0.

Lemma steady_state_body_ok (years : list YearRecord) (c : Q) (y : Z) :
  steady_state_body adj adoption total_annual_benefit (years, c) y =
  ret (years ++ [steady_state_row adj adoption total_annual_benefit c y],
       cumulative_cf (steady_state_row adj adoption total_annual_benefit c y)).
Proof.
  unfold steady_state_body. cbn [fst snd].
  rewrite truediv_ok by (apply discount_nonzero; exact wacc_ok).
  reflexivity.
Qed.

Lemma steady_state_loop_ok (ys : list Z) :
  forall (years : list YearRecord) (c : Q),
  exists c',
    for_each (steady_state_body adj adoption total_annual_benefit) ys (years, c) =
    ret (years ++ steady_state_rows adj adoption total_annual_benefit ys c, c').
Proof.
  induction ys as [ | y ys IH ]; intros years c.
  - exists c. cbn. rewrite app_nil_r. reflexivity.
  - cbn [for_each steady_state_rows].
    rewrite steady_state_body_ok. cbn [bind ret].
    destruct (IH (years ++ [steady_state_row adj adoption total_annual_benefit c y])
                 (cumulative_cf (steady_state_row adj adoption total_annual_benefit c y)))
      as [c' Hc'].
    exists c'. rewrite Hc'. rewrite <- app_assoc. reflexivity.
Qed.

Lemma build_projection_ok :
  build_projection adj adoption total_annual_benefit =
  ret (projection_rows adj adoption total_annual_benefit).
Proof.
  unfold build_projection.
  rewrite !truediv_ok by (apply discount_nonzero; exact wacc_ok).
  cbn [bind ret app].
  match goal with
  | |- context [ for_each _ ?ys (?years, ?c) ] =>
      destruct (steady_state_loop_ok ys years c) as [c' Hc']
  end.
  rewrite Hc'. reflexivity.
Qed.

End Projection.

(* ===================================================================== *)
(** * The payback loop                                                    *)
(* ===================================================================== *)

Lemma skipn_cons_nth {A : Type} (l : list A) :
  forall (n : nat) (x : A) (rest : list A),
  skipn n l = x :: rest -> nth_error l n = Some x /\ skipn (S n) l = rest.
Proof.
  induction l as [ | a l IH ]; intros n x rest H.
  - destruct n; discriminate.
  - destruct n as [ | n ].
    + cbn in H. inversion H. subst. split; reflexivity.
    + cbn in H. apply IH in H. exact H.
Qed.

Lemma nth_error_map_nth (df : list YearRecord) (n : nat) (row : YearRecord) :
  nth_error df n = Some row ->
  nth n (map cumulative_cf df) 0 = cumulative_cf row.
Proof.
  revert n. induction df as [ | a df IH ]; intros n H.
  - destruct n; discriminate.
  - destruct n as [ | n ].
    + cbn in H. inversion H. reflexivity.
    + cbn in H. cbn. apply IH. exact H.
Qed.

Lemma payback_loop_ok (df : list YearRecord) :
  forall (rows : list YearRecord) (idx : nat),
  skipn idx df = rows ->
  payback_loop df rows idx =
  ret (option_map (fun k => payback_at (map cumulative_cf df) (idx + k)%nat)
                  (first_positive (map cumulative_cf rows))).
Proof.
  induction rows as [ | row rest IH ]; intros idx Hskip.
  - reflexivity.
  - apply skipn_cons_nth in Hskip. destruct Hskip as [Hrow Hrest].
    cbn [payback_loop map first_positive].
    destruct (Qgtb (cumulative_cf row) 0) eqn:Hpos.
    + cbn [option_map]. rewrite Nat.add_0_r.
      destruct idx as [ | idx' ]; [ reflexivity | ].
      cbn [Nat.eqb]. replace (S idx' - 1)%nat with idx' by lia.
      assert (Hlt : (idx' < List.length df)%nat).
      { apply Nat.lt_succ_l. apply nth_error_Some. congruence. }
      destruct (nth_error df idx') as [ prev | ] eqn:Hprev.
      2:{ apply nth_error_Some in Hlt. contradiction. }
      unfold df_loc. rewrite Hprev. cbn [bind ret].
      unfold payback_at.
      rewrite (nth_error_map_nth df idx' prev Hprev).
      rewrite (nth_error_map_nth df (S idx') row Hrow).
      unfold truediv.
      destruct (Qeq_bool (cumulative_cf row - cumulative_cf prev) 0);
        reflexivity.
    + rewrite (IH (S idx) Hrest).
      destruct (first_positive (map cumulative_cf rest)) as [ k | ];
        cbn [option_map]; [ | reflexivity ].
      rewrite Nat.add_succ_r. reflexivity.
Qed.

Lemma payback_loop_spec (df : list YearRecord) :
  payback_loop df df 0 = ret (payback_spec (map cumulative_cf df)).
Proof.
  rewrite (payback_loop_ok df df 0 eq_refl). reflexivity.
Qed.

(* ===================================================================== *)
(** * [calculate_scenario] returns                                        *)
(* ===================================================================== *)

Lemma calculate_cycle_time_benefit_ok (c t : Q) (v : Z) (a m k : Q) :
  ~ c == 0 ->
  calculate_cycle_time_benefit c t v a m k =
  ret (cycle_time_benefit_value c t v a m k).
Proof.
  intros Hc. unfold calculate_cycle_time_benefit.
  rewrite truediv_ok by exact Hc. reflexivity.
Qed.

Lemma calculate_cost_per_order_benefit_ok (c t : Q) (v : Z) :
  ~ c == 0 ->
  calculate_cost_per_order_benefit c t v =
  ret (cost_per_order_benefit_value c t v).
Proof.
  intros Hc. unfold calculate_cost_per_order_benefit.
  rewrite truediv_ok by exact Hc. reflexivity.
Qed.

Lemma roi_ok (ti tb : Q) :
  (if Qgtb ti 0
   then q <- truediv (tb - ti) ti ;; ret (q * 100)
   else ret 0) = ret (roi_value ti tb).
Proof.
  unfold roi_value. destruct (Qgtb ti 0) eqn:E; [ | reflexivity ].
  apply Qgtb_true in E.
  rewrite truediv_ok; [ reflexivity | ].
  intros H. rewrite H in E. apply (Qlt_irrefl 0 E).
Qed.

(** Without a zero divisor the function returns, and returns
    [scenario_value]. *)
Lemma calculate_scenario_ok (inputs : FinancialInputs) (t : ScenarioTag) :
  ~ current_cycle_time inputs == 0 ->
  ~ current_cost_per_order inputs == 0 ->
  ~ 1 + wacc inputs == 0 ->
  calculate_scenario inputs (tag_key t) = ret (scenario_value inputs t).
Proof.
  intros Hcycle Hcost Hwacc.
  unfold calculate_scenario.
  rewrite dict_get_scenario. cbn [bind ret].
  rewrite calculate_cycle_time_benefit_ok by exact Hcycle. cbn [bind ret].
  rewrite calculate_cost_per_order_benefit_ok by exact Hcost. cbn [bind ret].
  rewrite build_projection_ok by exact Hwacc. cbn [bind ret].
  rewrite roi_ok. cbn [bind ret].
  rewrite payback_loop_spec. cbn [bind ret].
  reflexivity.
Qed.

Lemma valid_inputs_ok (inputs : FinancialInputs) :
  valid_inputs inputs ->
  ~ current_cycle_time inputs == 0 /\
  ~ current_cost_per_order inputs == 0 /\
  ~ 1 + wacc inputs == 0.
Proof.
  intros V.
  pose proof (valid_current_cycle_time _ V) as H1.
  pose proof (valid_current_cost_per_order _ V) as H2.
  destruct (valid_wacc _ V) as [H3 _].
  repeat split; intros H; lra.
Qed.

Lemma calculate_scenario_valid (inputs : FinancialInputs) (t : ScenarioTag) :
  valid_inputs inputs ->
  calculate_scenario inputs (tag_key t) = ret (scenario_value inputs t).
Proof.
  intros V. destruct (valid_inputs_ok inputs V) as (H1 & H2 & H3).
  apply calculate_scenario_ok; assumption.
Qed.

(* ===================================================================== *)
(** * Sums, ranges and the shape of the data frame                        *)
(* ===================================================================== *)

Lemma fold_left_Qplus (l : list Q) :
  forall a : Q, fold_left Qplus l a == a + Qsum l.
Proof.
  unfold Qsum. induction l as [ | x l IH ]; intros a; cbn [fold_left].
  - ring.
  - rewrite (IH (a + x)), (IH (0 + x)). ring.
Qed.

Lemma Qsum_cons (x : Q) (l : list Q) : Qsum (x :: l) == x + Qsum l.
Proof.
  unfold Qsum at 1. cbn [fold_left]. rewrite fold_left_Qplus. ring.
Qed.

Lemma Qsum_app (l1 l2 : list Q) : Qsum (l1 ++ l2) == Qsum l1 + Qsum l2.
Proof.
  induction l1 as [ | x l1 IH ]; cbn [app].
  - unfold Qsum at 2. cbn. ring.
  - rewrite !Qsum_cons, IH. ring.
Qed.

Lemma py_range_length (lo hi : Z) :
  List.length (py_range lo hi) = Z.to_nat (hi - lo).
Proof. unfold py_range. rewrite length_map, length_seq. reflexivity. Qed.

Lemma range_nth_error (lo : Z) (n : nat) :
  forall (start k : nat) (y : Z),
  nth_error (map (fun j => (lo + Z.of_nat j)%Z) (seq start n)) k = Some y ->
  y = (lo + Z.of_nat (start + k))%Z.
Proof.
  induction n as [ | n IH ]; intros start k y H.
  - destruct k; discriminate.
  - destruct k as [ | k ]; cbn in H.
    + inversion H. rewrite Nat.add_0_r. reflexivity.
    + apply IH in H. rewrite H. f_equal. lia.
Qed.

Lemma py_range_nth_error (lo hi : Z) (k : nat) (y : Z) :
  nth_error (py_range lo hi) k = Some y -> y = (lo + Z.of_nat k)%Z.
Proof. intros H. apply range_nth_error in H. exact H. Qed.

Section Rows.

Variable adj : FinancialInputs.
Variables adoption total_annual_benefit : Q.

Lemma steady_state_rows_year (ys : list Z) :
  forall c : Q, map year (steady_state_rows adj adoption total_annual_benefit ys c) = ys.
Proof.
  induction ys as [ | y ys IH ]; intros c; cbn; [ reflexivity | ].
  f_equal. apply IH.
Qed.

Lemma steady_state_rows_length (ys : list Z) (c : Q) :
  List.length (steady_state_rows adj adoption total_annual_benefit ys c) = List.length ys.
Proof.
  rewrite <- (steady_state_rows_year ys c) at 2. rewrite length_map. reflexivity.
Qed.

Lemma steady_state_rows_running (ys : list Z) :
  forall c : Q, running_total c (steady_state_rows adj adoption total_annual_benefit ys c).
Proof.
  induction ys as [ | y ys IH ]; intros c; cbn; [ exact I | ].
  split; [ reflexivity | apply IH ].
Qed.

Lemma steady_state_rows_net (ys : list Z) :
  forall c : Q,
  Forall (fun r => net_cf r == benefits r - investment r - maintenance r)
         (steady_state_rows adj adoption total_annual_benefit ys c).
Proof.
  induction ys as [ | y ys IH ]; intros c; cbn; constructor.
  - cbn. ring.
  - apply IH.
Qed.

Lemma projection_rows_year :
  map year (projection_rows adj adoption total_annual_benefit) =
  [0; 1; 2]%Z ++ py_range 3 (time_horizon adj + 1).
Proof.
  unfold projection_rows. rewrite map_app.
  rewrite steady_state_rows_year. reflexivity.
Qed.

Lemma projection_rows_length :
  (3 <= time_horizon adj)%Z ->
  List.length (projection_rows adj adoption total_annual_benefit) =
  Z.to_nat (time_horizon adj + 1).
Proof.
  intros H. rewrite <- (length_map year), projection_rows_year.
  rewrite length_app, py_range_length. cbn [List.length]. lia.
Qed.

Lemma projection_rows_index (n : nat) (row : YearRecord) :
  nth_error (projection_rows adj adoption total_annual_benefit) n = Some row ->
  year row = Z.of_nat n.
Proof.
  intros H.
  assert (Hy : nth_error
                 (map year (projection_rows adj adoption total_annual_benefit)) n =
               Some (year row)).
  { rewrite nth_error_map, H. reflexivity. }
  rewrite projection_rows_year in Hy.
  destruct n as [ | [ | [ | n ] ] ]; cbn in Hy; try (inversion Hy; reflexivity).
  apply py_range_nth_error in Hy. rewrite Hy. lia.
Qed.

Lemma projection_rows_running :
  running_total 0 (projection_rows adj adoption total_annual_benefit).
Proof.
  unfold projection_rows, ramp_rows. cbn [app running_total cumulative_cf net_cf last].
  repeat split; try ring.
  apply steady_state_rows_running.
Qed.

Lemma projection_rows_net :
  Forall (fun r => net_cf r == benefits r - investment r - maintenance r)
         (projection_rows adj adoption total_annual_benefit).
Proof.
  unfold projection_rows, ramp_rows. cbn [app].
  repeat constructor; try (cbn; ring).
  apply steady_state_rows_net.
Qed.

End Rows.

Lemma running_total_prefix (rows : list YearRecord) :
  forall (c : Q) (n : nat) (row : YearRecord),
  running_total c rows ->
  nth_error rows n = Some row ->
  cumulative_cf row == c + Qsum (map net_cf (firstn (S n) rows)).
Proof.
  induction rows as [ | r rows IH ]; intros c n row Hrun Hn.
  - destruct n; discriminate.
  - destruct Hrun as [Hr Hrest].
    destruct n as [ | n ].
    + cbn in Hn. inversion Hn. subst row.
      cbn [firstn map]. rewrite Qsum_cons. rewrite Hr.
      unfold Qsum. cbn. ring.
    + cbn in Hn. rewrite (IH _ _ _ Hrest Hn).
      change (firstn (S (S n)) (r :: rows)) with (r :: firstn (S n) rows).
      cbn [map]. rewrite Qsum_cons, Hr. ring.
Qed.

(* ===================================================================== *)
(** * Properties of [calculate_scenario]                                  *)
(* ===================================================================== *)

(** What the projection does: every year's benefit is the total annual
    benefit times the ramp share times the adoption rate once more. *)
Lemma steady_state_rows_benefits (adj : FinancialInputs) (a tab : Q)
    (ys : list Z) :
  forall (c : Q) (r : YearRecord),
  In r (steady_state_rows adj a tab ys c) ->
  In (year r) ys /\ benefits r == tab * a * 1.03 ^ (year r - 2).
Proof.
  induction ys as [ | y ys IH ]; intros c r Hr; cbn in Hr.
  - contradiction.
  - destruct Hr as [ <- | Hr ].
    + split; [ left; reflexivity | reflexivity ].
    + destruct (IH _ _ Hr) as [Hy Hb]. split; [ right; exact Hy | exact Hb ].
Qed.

Lemma projection_rows_benefits (adj : FinancialInputs) (a tab : Q) :
  Forall (fun r => benefits r == tab * spec_ramp (year r) * a)
         (projection_rows adj a tab).
Proof.
  unfold projection_rows. apply Forall_app. split.
  - unfold ramp_rows. repeat constructor; cbn; ring.
  - apply Forall_forall. intros r Hr.
    apply steady_state_rows_benefits in Hr. destruct Hr as [Hy Hb].
    unfold py_range in Hy. apply in_map_iff in Hy.
    destruct Hy as (k & Hk & _).
    rewrite Hb. unfold spec_ramp.
    replace (year r =? 0)%Z with false by (symmetry; apply Z.eqb_neq; lia).
    replace (year r =? 1)%Z with false by (symmetry; apply Z.eqb_neq; lia).
    replace (year r =? 2)%Z with false by (symmetry; apply Z.eqb_neq; lia).
    ring.
Qed.

(** For every valid input and tag: each year's benefit is the total annual
    benefit, which already holds the adoption rate, times the ramp share,
    times the adoption rate a second time. *)
Lemma benefits_apply_adoption_twice (inputs : FinancialInputs) (t : ScenarioTag) :
  valid_inputs inputs ->
  exists r,
    calculate_scenario inputs (tag_key t) = inr r /\
    total_annual_benefit r ==
      sr_adoption_rate r * benefit_components (adj_inputs inputs (performance_multiplier r)) /\
    Forall (fun row =>
              benefits row ==
              total_annual_benefit r * spec_ramp (year row) * sr_adoption_rate r)
           (cash_flow_df r).
Proof.
  intros V. exists (scenario_value inputs t).
  split; [ apply calculate_scenario_valid; exact V | ].
  split; [ reflexivity | ].
  apply projection_rows_benefits.
Qed.

(** C1 (the code departs from the claim).  On the inputs the form starts
    from, base scenario, [calculate_scenario] returns, and in every year
    of the projection the benefit is the total annual benefit times the
    ramp share times the adoption rate 0.75 again; in no year is it the
    total annual benefit times the ramp share alone, as the ramp schedule
    asks.  Year 0 shows 1510565625/3796 where the schedule gives
    503521875/949. *)
Theorem default_base_benefits_apply_adoption_twice :
  exists r,
    calculate_scenario default_inputs "base" = inr r /\
    total_annual_benefit r == 3356812500 # 949 /\
    (forall row, In row (cash_flow_df r) ->
       benefits row == total_annual_benefit r * spec_ramp (year row) * 0.75 /\
       ~ benefits row == total_annual_benefit r * spec_ramp (year row)) /\
    (exists row0, nth_error (cash_flow_df r) 0 = Some row0 /\
       benefits row0 == 1510565625 # 3796 /\
       total_annual_benefit r * 0.15 == 503521875 # 949).
Proof.
  exists (scenario_value default_inputs base).
  split; [ vm_compute; reflexivity | ].
  split; [ vm_compute; reflexivity | ].
  split.
  - intros row Hin. vm_compute in Hin.
    repeat (destruct Hin as [ <- | Hin ];
            [ split; [ vm_compute; reflexivity
                     | vm_compute; intros H; discriminate H ] | ]).
    contradiction.
  - eexists. split; [ reflexivity | ].
    split; vm_compute; reflexivity.
Qed.

(** C2.  For every base input and each of the three scenario tags, the
    table gives the tag its fixed performance multiplier (1.10, 1.00, 0.80)
    and the adjusted inputs carry, for the lower-is-better targets (DSO,
    cycle time, revenue leakage, cost per order),
    current - (current - target) * perf, and for the higher-is-better
    targets (perfect-order rate, STP rate),
    current + (target - current) * perf. *)
Theorem adjusted_targets (inputs : FinancialInputs) (t : ScenarioTag) :
  exists mult,
    dict_get scenario_multipliers (tag_key t) = inr mult /\
    performance mult =
      match t with best => 1.10 | base => 1.00 | worst => 0.80 end /\
    let perf := performance mult in
    let adj := adj_inputs inputs perf in
    target_dso adj =
      current_dso inputs - (current_dso inputs - target_dso inputs) * perf /\
    target_cycle_time adj =
      current_cycle_time inputs -
      (current_cycle_time inputs - target_cycle_time inputs) * perf /\
    target_revenue_leakage adj =
      current_revenue_leakage inputs -
      (current_revenue_leakage inputs - target_revenue_leakage inputs) * perf /\
    target_cost_per_order adj =
      current_cost_per_order inputs -
      (current_cost_per_order inputs - target_cost_per_order inputs) * perf /\
    target_perfect_order_rate adj =
      current_perfect_order_rate inputs +
      (target_perfect_order_rate inputs - current_perfect_order_rate inputs) * perf /\
    target_stp_rate adj =
      current_stp_rate inputs +
      (target_stp_rate inputs - current_stp_rate inputs) * perf.
Proof.
  exists (multipliers_of t).
  split; [ apply dict_get_scenario | ].
  split; [ destruct t; reflexivity | ].
  cbn. repeat split.
Qed.

(** The improvements a scenario reports are the base improvements scaled by
    the performance multiplier: the adjusted inputs are what the benefit
    calculators run on. *)
Lemma reported_improvements (inputs : FinancialInputs) (t : ScenarioTag) :
  valid_inputs inputs ->
  exists r,
    calculate_scenario inputs (tag_key t) = inr r /\
    let perf := performance (multipliers_of t) in
    performance_multiplier r = perf /\
    WorkingCapital.dso_improvement_days (working_capital r) ==
      (current_dso inputs - target_dso inputs) * perf /\
    CycleTime.cycle_time_reduction_days (cycle_time r) ==
      (current_cycle_time inputs - target_cycle_time inputs) * perf /\
    RevenueLeakage.leakage_reduction (revenue_leakage r) ==
      (current_revenue_leakage inputs - target_revenue_leakage inputs) * perf /\
    CostReduction.cost_reduction_per_order (cost_reduction r) ==
      (current_cost_per_order inputs - target_cost_per_order inputs) * perf /\
    ErrorReduction.error_rate_improvement (error_reduction r) ==
      (target_perfect_order_rate inputs - current_perfect_order_rate inputs) * perf /\
    LaborAutomation.stp_improvement (labor_automation r) ==
      (target_stp_rate inputs - current_stp_rate inputs) * perf.
Proof.
  intros V. exists (scenario_value inputs t).
  split; [ apply calculate_scenario_valid; exact V | ].
  cbn. repeat split; ring.
Qed.

Lemma steady_state_rows_ext (adj1 adj2 : FinancialInputs) (a tab : Q) :
  annual_maintenance adj1 = annual_maintenance adj2 ->
  wacc adj1 = wacc adj2 ->
  forall (ys : list Z) (c : Q),
  steady_state_rows adj1 a tab ys c = steady_state_rows adj2 a tab ys c.
Proof.
  intros Hm Hw ys. induction ys as [ | y ys IH ]; intros c.
  - reflexivity.
  - cbn [steady_state_rows]. unfold steady_state_row at 1 3.
    cbn [cumulative_cf]. rewrite Hm, Hw. f_equal. unfold steady_state_row.
    cbn [cumulative_cf]. rewrite Hm. apply IH.
Qed.

(** The cash-flow table reads the cost-per-order inputs nowhere. *)
Lemma projection_rows_cost_per_order
    (inputs : FinancialInputs) (current target perf a tab : Q) :
  projection_rows (adj_inputs (with_cost_per_order inputs current target) perf)
                  a tab =
  projection_rows (adj_inputs inputs perf) a tab.
Proof.
  unfold projection_rows. f_equal.
  apply steady_state_rows_ext; reflexivity.
Qed.

(** C3.  For every valid input and every scenario tag, the total annual
    benefit is the scenario's adoption rate times the sum of exactly five
    components: working-capital annual benefit, error-reduction annual
    savings, revenue-leakage profit impact, labor-automation annual savings
    and cycle-time profit impact.  The cost-per-order annual savings are
    computed and reported, and never enter the total: whatever the two
    cost-per-order inputs are replaced with, the total annual benefit and
    the whole cash-flow table stay the same. *)
Theorem total_annual_benefit_five_components
    (inputs : FinancialInputs) (t : ScenarioTag) :
  valid_inputs inputs ->
  exists r,
    calculate_scenario inputs (tag_key t) = inr r /\
    sr_adoption_rate r = adoption (multipliers_of t) /\
    total_annual_benefit r =
      sr_adoption_rate r *
      (WorkingCapital.annual_benefit (working_capital r) +
       ErrorReduction.annual_savings (error_reduction r) +
       RevenueLeakage.profit_impact (revenue_leakage r) +
       LaborAutomation.annual_savings (labor_automation r) +
       CycleTime.profit_impact (cycle_time r)) /\
    CostReduction.annual_savings (cost_reduction r) ==
      (current_cost_per_order inputs - target_cost_per_order inputs) *
      performance (multipliers_of t) * inject_Z (annual_order_volume inputs) /\
    forall current target : Q,
      0 < current ->
      exists r',
        calculate_scenario (with_cost_per_order inputs current target)
                           (tag_key t) = inr r' /\
        total_annual_benefit r' = total_annual_benefit r /\
        cash_flow_df r' = cash_flow_df r.
Proof.
  intros V. destruct (valid_inputs_ok inputs V) as (H1 & H2 & H3).
  exists (scenario_value inputs t).
  split; [ apply calculate_scenario_ok; assumption | ].
  split; [ reflexivity | ].
  split; [ reflexivity | ].
  split; [ cbn; ring | ].
  intros current target Hpos.
  exists (scenario_value (with_cost_per_order inputs current target) t).
  split; [ | split; [ reflexivity | apply projection_rows_cost_per_order ] ].
  apply calculate_scenario_ok; cbn; try assumption.
  intros H. rewrite H in Hpos. apply (Qlt_irrefl 0 Hpos).
Qed.

Lemma total_annual_benefit_five_components_witness :
  valid_inputs default_inputs /\
  exists r,
    calculate_scenario default_inputs (tag_key base) = inr r /\
    sr_adoption_rate r = adoption (multipliers_of base) /\
    total_annual_benefit r =
      sr_adoption_rate r *
      (WorkingCapital.annual_benefit (working_capital r) +
       ErrorReduction.annual_savings (error_reduction r) +
       RevenueLeakage.profit_impact (revenue_leakage r) +
       LaborAutomation.annual_savings (labor_automation r) +
       CycleTime.profit_impact (cycle_time r)) /\
    CostReduction.annual_savings (cost_reduction r) ==
      (current_cost_per_order default_inputs - target_cost_per_order default_inputs) *
      performance (multipliers_of base) *
      inject_Z (annual_order_volume default_inputs) /\
    forall current target : Q,
      0 < current ->
      exists r',
        calculate_scenario (with_cost_per_order default_inputs current target)
                           (tag_key base) = inr r' /\
        total_annual_benefit r' = total_annual_benefit r /\
        cash_flow_df r' = cash_flow_df r.
Proof.
  split; [ concrete_inputs | ].
  apply (total_annual_benefit_five_components default_inputs base).
  concrete_inputs.
Defined.

(** C4.  For every valid input (time horizon at least 3) and every
    scenario tag, [calculate_scenario] returns a cash-flow table of exactly
    [time_horizon + 1] rows; the row at position [n] has year index [n], so
    the years ascend strictly from 0; its cumulative cash flow is the sum
    of the net cash flows of the rows 0..n; and its net cash flow is
    benefits - investment - maintenance. *)
Theorem cash_flow_table_shape (inputs : FinancialInputs) (t : ScenarioTag) :
  valid_inputs inputs ->
  exists r,
    calculate_scenario inputs (tag_key t) = inr r /\
    List.length (cash_flow_df r) = Z.to_nat (time_horizon inputs + 1) /\
    forall (n : nat) (row : YearRecord),
      nth_error (cash_flow_df r) n = Some row ->
      year row = Z.of_nat n /\
      cumulative_cf row ==
        Qsum (map net_cf (firstn (S n) (cash_flow_df r))) /\
      net_cf row == benefits row - investment row - maintenance row.
Proof.
  intros V. exists (scenario_value inputs t).
  split; [ apply calculate_scenario_valid; exact V | ].
  split.
  - apply (projection_rows_length (adj_inputs inputs _)).
    exact (valid_time_horizon _ V).
  - intros n row Hn. cbn [cash_flow_df scenario_value] in *.
    split; [ | split ].
    + exact (projection_rows_index _ _ _ n row Hn).
    + rewrite (running_total_prefix _ 0 n row
                 (projection_rows_running _ _ _) Hn).
      ring.
    + pose proof (projection_rows_net (adj_inputs inputs
                    (performance (multipliers_of t)))
                    (adoption (multipliers_of t))
                    (adoption (multipliers_of t) *
                     benefit_components
                       (adj_inputs inputs (performance (multipliers_of t)))))
        as Hall.
      rewrite Forall_forall in Hall. apply Hall.
      apply nth_error_In with n. exact Hn.
Qed.

Lemma cash_flow_table_shape_witness :
  valid_inputs default_inputs /\
  exists r,
    calculate_scenario default_inputs (tag_key worst) = inr r /\
    List.length (cash_flow_df r) = Z.to_nat (time_horizon default_inputs + 1) /\
    forall (n : nat) (row : YearRecord),
      nth_error (cash_flow_df r) n = Some row ->
      year row = Z.of_nat n /\
      cumulative_cf row ==
        Qsum (map net_cf (firstn (S n) (cash_flow_df r))) /\
      net_cf row == benefits row - investment row - maintenance row.
Proof.
  split; [ concrete_inputs | ].
  apply (cash_flow_table_shape default_inputs worst).
  concrete_inputs.
Defined.

(* ===================================================================== *)
(** * Payback                                                             *)
(* ===================================================================== *)

Lemma first_positive_none (cs : list Q) :
  (forall c, In c cs -> c <= 0) -> first_positive cs = None.
Proof.
  induction cs as [ | c cs IH ]; intros H; cbn; [ reflexivity | ].
  assert (Hc : Qgtb c 0 = false).
  { apply Qgtb_false. apply H. left. reflexivity. }
  rewrite Hc, IH; [ reflexivity | ].
  intros c' Hin. apply H. right. exact Hin.
Qed.

Lemma first_positive_some (cs : list Q) :
  forall y : nat,
  (y < List.length cs)%nat ->
  0 < nth y cs 0 ->
  (forall k, (k < y)%nat -> nth k cs 0 <= 0) ->
  first_positive cs = Some y.
Proof.
  induction cs as [ | c cs IH ]; intros y Hlen Hpos Hbefore.
  - cbn in Hlen. lia.
  - cbn [first_positive]. destruct y as [ | y ].
    + cbn in Hpos. apply Qgtb_true in Hpos. rewrite Hpos. reflexivity.
    + assert (Hc : Qgtb c 0 = false).
      { apply Qgtb_false. apply (Hbefore 0%nat). lia. }
      rewrite Hc. rewrite (IH y); [ reflexivity | | | ].
      * cbn in Hlen. lia.
      * exact Hpos.
      * intros k Hk. apply (Hbefore (S k)). lia.
Qed.

(** C5.  For every valid input and every scenario tag, the payback is an
    optional value: absent when no year's cumulative cash flow exceeds 0;
    otherwise, with [y] the first year whose cumulative cash flow exceeds
    0, it is 0 when [y = 0] and
    (y - 1) + |cumulative_cf[y-1]| / (cumulative_cf[y] - cumulative_cf[y-1])
    when [y > 0].  It is the rule [payback_spec], which takes the fraction
    as 0 when the denominator is 0. *)
Theorem payback_rule (inputs : FinancialInputs) (t : ScenarioTag) :
  valid_inputs inputs ->
  exists r,
    calculate_scenario inputs (tag_key t) = inr r /\
    let cs := map cumulative_cf (cash_flow_df r) in
    payback r = payback_spec cs /\
    ((forall c, In c cs -> c <= 0) -> payback r = None) /\
    (forall y : nat,
       (y < List.length cs)%nat ->
       0 < nth y cs 0 ->
       (forall k, (k < y)%nat -> nth k cs 0 <= 0) ->
       exists p,
         payback r = Some p /\
         (y = 0%nat -> p = 0) /\
         (forall y', y = S y' ->
            p == inject_Z (Z.of_nat y') +
                 Qabs (nth y' cs 0) / (nth y cs 0 - nth y' cs 0))).
Proof.
  intros V. exists (scenario_value inputs t).
  split; [ apply calculate_scenario_valid; exact V | ].
  cbn zeta. cbn [payback cash_flow_df scenario_value].
  set (cs := map cumulative_cf _).
  split; [ reflexivity | ].
  split.
  - intros Hall. unfold payback_spec.
    rewrite (first_positive_none cs Hall). reflexivity.
  - intros y Hlen Hpos Hbefore. unfold payback_spec.
    rewrite (first_positive_some cs y Hlen Hpos Hbefore). cbn [option_map].
    exists (payback_at cs y). split; [ reflexivity | ].
    split.
    + intros ->. reflexivity.
    + intros y' ->. cbn [payback_at].
      assert (Hprev : nth y' cs 0 <= 0) by (apply Hbefore; lia).
      destruct (Qeq_bool (nth (S y') cs 0 - nth y' cs 0) 0) eqn:E.
      * apply Qeq_bool_eq in E. lra.
      * reflexivity.
Qed.

Lemma payback_rule_witness :
  valid_inputs default_inputs /\
  exists r,
    calculate_scenario default_inputs (tag_key best) = inr r /\
    let cs := map cumulative_cf (cash_flow_df r) in
    payback r = payback_spec cs /\
    ((forall c, In c cs -> c <= 0) -> payback r = None) /\
    (forall y : nat,
       (y < List.length cs)%nat ->
       0 < nth y cs 0 ->
       (forall k, (k < y)%nat -> nth k cs 0 <= 0) ->
       exists p,
         payback r = Some p /\
         (y = 0%nat -> p = 0) /\
         (forall y', y = S y' ->
            p == inject_Z (Z.of_nat y') +
                 Qabs (nth y' cs 0) / (nth y cs 0 - nth y' cs 0))).
Proof.
  split; [ concrete_inputs | ].
  apply (payback_rule default_inputs best).
  concrete_inputs.
Defined.

(** The three outcomes on concrete inputs.  Worst scenario of the form's
    inputs: the cumulative cash flow is negative in the years 0 and 1 and
    positive in year 2, and the payback is interpolated inside year 2. *)
Example payback_interpolated :
  exists r p,
    calculate_scenario default_inputs "worst" = inr r /\
    map (fun row => Qred (cumulative_cf row)) (firstn 3 (cash_flow_df r)) =
      [ -55527500 # 949; -56035000 # 949; 470285000 # 949 ] /\
    payback r = Some p /\
    p == 1 + (56035000 # 949) / ((470285000 # 949) - (-56035000 # 949)).
Proof.
  exists (scenario_value default_inputs worst).
  eexists.
  split; [ vm_compute; reflexivity | ].
  split; [ vm_compute; reflexivity | ].
  split; [ vm_compute; reflexivity | ].
  vm_compute. reflexivity.
Qed.

(** Base scenario of the form's inputs: positive already in year 0. *)
Example payback_immediate :
  exists r,
    calculate_scenario default_inputs "base" = inr r /\
    payback r = Some 0.
Proof.
  exists (scenario_value default_inputs base).
  split; vm_compute; reflexivity.
Qed.

(** With the DSO improvement alone the investment is not recovered within
    the horizon and the payback is absent. *)
Example payback_absent :
  exists r,
    calculate_scenario dso_only_inputs "base" = inr r /\
    payback r = None.
Proof.
  exists (scenario_value dso_only_inputs base).
  split; vm_compute; reflexivity.
Qed.

(* ===================================================================== *)
(** * Scenario monotonicity                                               *)
(* ===================================================================== *)

(** The five components are linear in the performance multiplier. *)
Lemma benefit_components_scaled (inputs : FinancialInputs) (perf : Q) :
  ~ current_cycle_time inputs == 0 ->
  benefit_components (adj_inputs inputs perf) ==
  perf * benefit_components (adj_inputs inputs 1).
Proof.
  intros Hc. unfold benefit_components, calculate_annual_revenue. cbn.
  field. exact Hc.
Qed.

(** With targets that improve on the current values, no component is
    negative. *)
Lemma benefit_components_nonneg (inputs : FinancialInputs) :
  valid_inputs inputs ->
  targets_improve inputs ->
  0 <= benefit_components (adj_inputs inputs 1).
Proof.
  intros V T.
  destruct V as [Hvol Haov [Hm0 Hm1] Hcd _ Hcc _ _ _ _ _ _ _ _ _
                 Hrw Hrt Htm _ _ _ _ [Hw0 Hw1] _ _ _ _ _].
  destruct T as [Tdso Tpor Tcyc Tleak _ Tstp].
  assert (Hv : 0 <= inject_Z (annual_order_volume inputs)).
  { change 0 with (inject_Z 0). rewrite <- Zle_Qle. lia. }
  unfold benefit_components, calculate_annual_revenue. cbn.
  set (v := inject_Z (annual_order_volume inputs)) in *.
  assert (E :
    current_dso inputs / 365 * (v * average_order_value inputs) -
    (current_dso inputs - (current_dso inputs - target_dso inputs) * 1) / 365 *
    (v * average_order_value inputs) ==
    (current_dso inputs - target_dso inputs) * / 365 *
    (v * average_order_value inputs)) by field.
  assert (W : 0 <=
    (current_dso inputs / 365 * (v * average_order_value inputs) -
     (current_dso inputs - (current_dso inputs - target_dso inputs) * 1) / 365 *
     (v * average_order_value inputs)) * wacc inputs).
  { rewrite E. nonneg. }
  assert (R : 0 <=
    (v * (1 - current_perfect_order_rate inputs) -
     v * (1 - (current_perfect_order_rate inputs +
               (target_perfect_order_rate inputs -
                current_perfect_order_rate inputs) * 1))) *
    avg_rework_cost inputs).
  { setoid_replace
      (v * (1 - current_perfect_order_rate inputs) -
       v * (1 - (current_perfect_order_rate inputs +
                 (target_perfect_order_rate inputs -
                  current_perfect_order_rate inputs) * 1)))
      with (v * (target_perfect_order_rate inputs -
                 current_perfect_order_rate inputs)) by ring.
    nonneg. }
  assert (L : 0 <=
    (v * average_order_value inputs * current_revenue_leakage inputs -
     v * average_order_value inputs *
     (current_revenue_leakage inputs -
      (current_revenue_leakage inputs - target_revenue_leakage inputs) * 1)) *
    profit_margin inputs).
  { setoid_replace
      (v * average_order_value inputs * current_revenue_leakage inputs -
       v * average_order_value inputs *
       (current_revenue_leakage inputs -
        (current_revenue_leakage inputs - target_revenue_leakage inputs) * 1))
      with (v * average_order_value inputs *
            (current_revenue_leakage inputs - target_revenue_leakage inputs))
      by ring.
    nonneg. }
  assert (A : 0 <=
    (v * (1 - current_stp_rate inputs) -
     v * (1 - (current_stp_rate inputs +
               (target_stp_rate inputs - current_stp_rate inputs) * 1))) *
    avg_manual_processing_time inputs / 60 *
    fully_loaded_hourly_rate inputs).
  { setoid_replace
      (v * (1 - current_stp_rate inputs) -
       v * (1 - (current_stp_rate inputs +
                 (target_stp_rate inputs - current_stp_rate inputs) * 1)))
      with (v * (target_stp_rate inputs - current_stp_rate inputs)) by ring.
    unfold Qdiv. nonneg. }
  assert (C : 0 <=
    v *
    ((current_cycle_time inputs -
      (current_cycle_time inputs -
       (current_cycle_time inputs - target_cycle_time inputs) * 1)) /
     current_cycle_time inputs) *
    average_order_value inputs * default_capacity_capture_rate *
    profit_margin inputs).
  { setoid_replace
      (current_cycle_time inputs -
       (current_cycle_time inputs -
        (current_cycle_time inputs - target_cycle_time inputs) * 1))
      with (current_cycle_time inputs - target_cycle_time inputs) by ring.
    unfold Qdiv, default_capacity_capture_rate. nonneg. }
  lra.
Qed.

(** C6.  For every valid base input whose targets improve on the current
    values, the total annual benefit of the best scenario is at least that
    of the base scenario, which is at least that of the worst scenario. *)
Theorem scenario_monotonicity (inputs : FinancialInputs) :
  valid_inputs inputs ->
  targets_improve inputs ->
  exists r_best r_base r_worst,
    calculate_scenario inputs "best" = inr r_best /\
    calculate_scenario inputs "base" = inr r_base /\
    calculate_scenario inputs "worst" = inr r_worst /\
    total_annual_benefit r_base <= total_annual_benefit r_best /\
    total_annual_benefit r_worst <= total_annual_benefit r_base.
Proof.
  intros V T.
  exists (scenario_value inputs best), (scenario_value inputs base),
         (scenario_value inputs worst).
  split; [ apply (calculate_scenario_valid inputs best V) | ].
  split; [ apply (calculate_scenario_valid inputs base V) | ].
  split; [ apply (calculate_scenario_valid inputs worst V) | ].
  destruct (valid_inputs_ok inputs V) as (Hc & _ & _).
  pose proof (benefit_components_nonneg inputs V T) as Hs.
  cbn [total_annual_benefit scenario_value multipliers_of adoption performance].
  rewrite (benefit_components_scaled inputs 1.10 Hc).
  rewrite (benefit_components_scaled inputs 1.00 Hc).
  rewrite (benefit_components_scaled inputs 0.80 Hc).
  set (s := benefit_components (adj_inputs inputs 1)) in *.
  split; lra.
Qed.

Lemma scenario_monotonicity_witness :
  valid_inputs default_inputs /\
  targets_improve default_inputs /\
  exists r_best r_base r_worst,
    calculate_scenario default_inputs "best" = inr r_best /\
    calculate_scenario default_inputs "base" = inr r_base /\
    calculate_scenario default_inputs "worst" = inr r_worst /\
    total_annual_benefit r_base <= total_annual_benefit r_best /\
    total_annual_benefit r_worst <= total_annual_benefit r_base.
Proof.
  split; [ concrete_inputs | ].
  split; [ concrete_inputs | ].
  apply (scenario_monotonicity default_inputs); concrete_inputs.
Defined.

(* ===================================================================== *)
(** * Discounting                                                         *)
(* ===================================================================== *)

Lemma Qsum_map_ext {A : Type} (f g : A -> Q) (l : list A) :
  Forall (fun x => f x == g x) l -> Qsum (map f l) == Qsum (map g l).
Proof.
  induction 1 as [ | x l Hx _ IH ]; cbn [map].
  - reflexivity.
  - rewrite !Qsum_cons, Hx, IH. reflexivity.
Qed.

Lemma undiscounted (w n : Q) (y : Z) : w == 0 -> n / (1 + w) ^ y == n.
Proof.
  intros Hw. rewrite Hw.
  setoid_replace (1 + 0) with 1 by ring.
  rewrite Qpower_1. field.
Qed.

Lemma steady_state_rows_undiscounted (adj : FinancialInputs) (a tab : Q) :
  wacc adj == 0 ->
  forall (ys : list Z) (c : Q),
  Forall (fun r => discounted_cf r == net_cf r)
         (steady_state_rows adj a tab ys c).
Proof.
  intros Hw ys. induction ys as [ | y ys IH ]; intros c; cbn; constructor.
  - cbn. apply undiscounted. exact Hw.
  - apply IH.
Qed.

Lemma projection_rows_undiscounted (adj : FinancialInputs) (a tab : Q) :
  wacc adj == 0 ->
  Forall (fun r => discounted_cf r == net_cf r) (projection_rows adj a tab).
Proof.
  intros Hw. unfold projection_rows. apply Forall_app. split.
  - unfold ramp_rows.
    repeat constructor; cbn [discounted_cf net_cf]; apply undiscounted; exact Hw.
  - apply steady_state_rows_undiscounted. exact Hw.
Qed.

(** C7.  For every valid input with WACC = 0 and every scenario tag, each
    year's discounted cash flow equals its net cash flow and the NPV equals
    the plain sum of the net cash flows of all years. *)
Theorem npv_at_zero_wacc (inputs : FinancialInputs) (t : ScenarioTag) :
  valid_inputs inputs ->
  wacc inputs == 0 ->
  exists r,
    calculate_scenario inputs (tag_key t) = inr r /\
    Forall (fun row => discounted_cf row == net_cf row) (cash_flow_df r) /\
    npv r == Qsum (map net_cf (cash_flow_df r)).
Proof.
  intros V Hw. exists (scenario_value inputs t).
  split; [ apply calculate_scenario_valid; exact V | ].
  cbn [npv cash_flow_df scenario_value].
  assert (Hall : Forall (fun row => discounted_cf row == net_cf row)
                   (projection_rows
                      (adj_inputs inputs (performance (multipliers_of t)))
                      (adoption (multipliers_of t))
                      (adoption (multipliers_of t) *
                       benefit_components
                         (adj_inputs inputs (performance (multipliers_of t)))))).
  { apply projection_rows_undiscounted. exact Hw. }
  split; [ exact Hall | ].
  apply Qsum_map_ext. exact Hall.
Qed.

Lemma npv_at_zero_wacc_witness :
  valid_inputs zero_wacc_inputs /\
  wacc zero_wacc_inputs == 0 /\
  exists r,
    calculate_scenario zero_wacc_inputs (tag_key base) = inr r /\
    Forall (fun row => discounted_cf row == net_cf row) (cash_flow_df r) /\
    npv r == Qsum (map net_cf (cash_flow_df r)).
Proof.
  split; [ concrete_inputs | ].
  split; [ reflexivity | ].
  apply (npv_at_zero_wacc zero_wacc_inputs base);
    [ concrete_inputs | reflexivity ].
Defined.

(* ===================================================================== *)
(** * Benchmark classification                                            *)
(* ===================================================================== *)

Lemma Qle_bool_false (x y : Q) : Qle_bool x y = false -> ~ x <= y.
Proof.
  intros E H. apply Qle_bool_iff in H. congruence.
Qed.

(** [categorize] walks the thresholds best-in-class, top quartile, average
    in that order, with [<=] when lower is better ... *)
Lemma categorize_lower (m : string) (b : Benchmarks) (v : Q) :
  str_in m lower_is_better = true ->
  tier_spec at_most b v (fst (categorize m b v)).
Proof.
  intros Hm. unfold categorize, tier_spec, at_most. rewrite Hm.
  destruct (Qle_bool v (best_in_class b)) eqn:E1.
  { left. split; [ apply Qle_bool_iff; exact E1 | reflexivity ]. }
  apply Qle_bool_false in E1.
  destruct (Qle_bool v (top_quartile b)) eqn:E2.
  { right; left. repeat split;
      [ exact E1 | apply Qle_bool_iff; exact E2 ]. }
  apply Qle_bool_false in E2.
  destruct (Qle_bool v (average b)) eqn:E3.
  { right; right; left. repeat split;
      [ exact E1 | exact E2 | apply Qle_bool_iff; exact E3 ]. }
  apply Qle_bool_false in E3.
  right; right; right. repeat split; assumption.
Qed.

(** ... and with [>=] when higher is better. *)
Lemma categorize_higher (m : string) (b : Benchmarks) (v : Q) :
  str_in m lower_is_better = false ->
  tier_spec at_least b v (fst (categorize m b v)).
Proof.
  intros Hm. unfold categorize, tier_spec, at_least. rewrite Hm.
  destruct (Qle_bool (best_in_class b) v) eqn:E1.
  { left. split; [ apply Qle_bool_iff; exact E1 | reflexivity ]. }
  apply Qle_bool_false in E1.
  destruct (Qle_bool (top_quartile b) v) eqn:E2.
  { right; left. repeat split;
      [ exact E1 | apply Qle_bool_iff; exact E2 ]. }
  apply Qle_bool_false in E2.
  destruct (Qle_bool (average b) v) eqn:E3.
  { right; right; left. repeat split;
      [ exact E1 | exact E2 | apply Qle_bool_iff; exact E3 ]. }
  apply Qle_bool_false in E3.
  right; right; right. repeat split; assumption.
Qed.

(** C8.  For each of the five metrics the classifier returns, and the tier
    of a value is found by comparing it with the best-in-class, top-quartile
    and average thresholds in that order, with [<=] for DSO, cost per order
    and revenue leakage and with [>=] for perfect-order rate and STP rate,
    and is "Bottom Quartile" when none matches.  In particular DSO 24 is
    "Best-in-Class", DSO 53 is "Bottom Quartile" and perfect-order rate
    0.93 is "Top Quartile". *)
Theorem benchmark_classification (m : string) (current_value target_value : Q) :
  In m metric_keys ->
  (exists p b,
     get_benchmark_position m current_value target_value = inr p /\
     dict_get INDUSTRY_BENCHMARKS m = inr b /\
     benchmarks p = b /\
     (In m lower_is_better ->
      tier_spec at_most b current_value (current_category p) /\
      tier_spec at_most b target_value (target_category p)) /\
     (In m higher_is_better ->
      tier_spec at_least b current_value (current_category p) /\
      tier_spec at_least b target_value (target_category p))) /\
  (exists p,
     get_benchmark_position "dso" 24 53 = inr p /\
     current_category p = "Best-in-Class"%string /\
     target_category p = "Bottom Quartile"%string) /\
  (exists p,
     get_benchmark_position "perfect_order_rate" 0.93 target_value = inr p /\
     current_category p = "Top Quartile"%string).
Proof.
  intros Hm. split; [ | split ].
  - unfold get_benchmark_position.
    assert (Hcases :
      (str_in m lower_is_better = true /\ ~ In m higher_is_better \/
       str_in m lower_is_better = false /\ ~ In m lower_is_better) /\
      exists b, dict_get INDUSTRY_BENCHMARKS m = inr b).
    { cbn in Hm.
      destruct Hm as [ <- | [ <- | [ <- | [ <- | [ <- | [] ] ] ] ] ];
        (split; [ | eexists; reflexivity ]);
        [ left | right | right | left | left ];
        (split; [ reflexivity | ]);
        cbn; intros H; repeat destruct H as [ H | H ]; try discriminate H;
        exact H. }
    destruct Hcases as [Hdir [b Hb]].
    rewrite Hb. cbn [bind ret].
    eexists. exists b. split; [ reflexivity | ].
    split; [ reflexivity | ]. split; [ reflexivity | ].
    cbn [current_category target_category].
    destruct Hdir as [ [Hlow Hnot] | [Hhigh Hnot] ].
    + split; [ | intros H; contradiction ].
      intros _. split; apply categorize_lower; exact Hlow.
    + split; [ intros H; contradiction | ].
      intros _. split; apply categorize_higher; exact Hhigh.
  - eexists. split; [ reflexivity | ]. split; reflexivity.
  - unfold get_benchmark_position. cbn [dict_get INDUSTRY_BENCHMARKS String.eqb Ascii.eqb Bool.eqb bind ret].
    eexists. split; [ reflexivity | ]. reflexivity.
Qed.

Lemma benchmark_classification_witness :
  In "cost_per_order"%string metric_keys /\
  (exists p b,
     get_benchmark_position "cost_per_order" 85 52 = inr p /\
     dict_get INDUSTRY_BENCHMARKS "cost_per_order" = inr b /\
     benchmarks p = b /\
     (In "cost_per_order"%string lower_is_better ->
      tier_spec at_most b 85 (current_category p) /\
      tier_spec at_most b 52 (target_category p)) /\
     (In "cost_per_order"%string higher_is_better ->
      tier_spec at_least b 85 (current_category p) /\
      tier_spec at_least b 52 (target_category p))) /\
  (exists p,
     get_benchmark_position "dso" 24 53 = inr p /\
     current_category p = "Best-in-Class"%string /\
     target_category p = "Bottom Quartile"%string) /\
  (exists p,
     get_benchmark_position "perfect_order_rate" 0.93 52 = inr p /\
     current_category p = "Top Quartile"%string).
Proof.
  split; [ cbn; tauto | ].
  apply (benchmark_classification "cost_per_order" 85 52).
  cbn. tauto.
Defined.

(* ===================================================================== *)
(** * The concrete working-capital scenario                               *)
(* ===================================================================== *)

(** C9.  For valid inputs with volume 50000, average order value 2500,
    profit margin 0.15, current DSO 45, target DSO 35 and WACC 0.08, the
    base scenario yields annual revenue 125,000,000, cash freed
    (45 - 35) / 365 * 125,000,000 = 250,000,000 / 73, within 1e-2 of
    3,424,657.53, and working-capital annual benefit 0.08 times that,
    within 1e-2 of 273,972.60.  The other current and target metrics do
    not enter these three figures, so they are left free. *)
Theorem base_case_working_capital (inputs : FinancialInputs) :
  valid_inputs inputs ->
  annual_order_volume inputs = 50000%Z ->
  average_order_value inputs == 2500 ->
  profit_margin inputs == 0.15 ->
  current_dso inputs == 45 ->
  target_dso inputs == 35 ->
  wacc inputs == 0.08 ->
  exists r,
    calculate_scenario inputs "base" = inr r /\
    annual_revenue r == 125000000 /\
    WorkingCapital.cash_freed (working_capital r) ==
      (45 - 35) / 365 * 125000000 /\
    Qabs (WorkingCapital.cash_freed (working_capital r) - 3424657.53) <= 0.01 /\
    WorkingCapital.annual_benefit (working_capital r) ==
      WorkingCapital.cash_freed (working_capital r) * 0.08 /\
    Qabs (WorkingCapital.annual_benefit (working_capital r) - 273972.60) <= 0.01.
Proof.
  intros V Hvol Haov _ Hcd Htd Hw.
  exists (scenario_value inputs base).
  split; [ apply (calculate_scenario_valid inputs base V) | ].
  cbn [annual_revenue working_capital scenario_value multipliers_of
       performance adoption].
  unfold calculate_working_capital_benefit, calculate_annual_revenue.
  cbn [WorkingCapital.cash_freed WorkingCapital.annual_benefit
       adj_inputs annual_order_volume average_order_value current_dso
       target_dso wacc].
  rewrite Hvol.
  assert (Hrev : inject_Z 50000 * average_order_value inputs == 125000000).
  { rewrite Haov. reflexivity. }
  assert (Hcash :
    current_dso inputs / 365 * (inject_Z 50000 * average_order_value inputs) -
    (current_dso inputs - (current_dso inputs - target_dso inputs) * 1.00) / 365 *
    (inject_Z 50000 * average_order_value inputs) ==
    (45 - 35) / 365 * 125000000).
  { rewrite Hrev, Hcd, Htd. reflexivity. }
  split; [ exact Hrev | ].
  split; [ exact Hcash | ].
  split.
  { rewrite Hcash. apply Qabs_Qle_condition. split; vm_compute; discriminate. }
  split.
  { rewrite Hw. reflexivity. }
  rewrite Hcash, Hw. apply Qabs_Qle_condition. split; vm_compute; discriminate.
Qed.

Lemma base_case_working_capital_witness :
  valid_inputs dso_only_inputs /\
  exists r,
    calculate_scenario dso_only_inputs "base" = inr r /\
    annual_revenue r == 125000000 /\
    WorkingCapital.cash_freed (working_capital r) ==
      (45 - 35) / 365 * 125000000 /\
    Qabs (WorkingCapital.cash_freed (working_capital r) - 3424657.53) <= 0.01 /\
    WorkingCapital.annual_benefit (working_capital r) ==
      WorkingCapital.cash_freed (working_capital r) * 0.08 /\
    Qabs (WorkingCapital.annual_benefit (working_capital r) - 273972.60) <= 0.01.
Proof.
  split; [ concrete_inputs | ].
  apply (base_case_working_capital dso_only_inputs);
    first [ concrete_inputs | reflexivity ].
Defined.

(** In that scenario the other five components vanish, so the total annual
    benefit is the adoption rate times the working-capital benefit. *)
Example dso_only_total_annual_benefit :
  exists r,
    calculate_scenario dso_only_inputs "base" = inr r /\
    ErrorReduction.annual_savings (error_reduction r) == 0 /\
    RevenueLeakage.profit_impact (revenue_leakage r) == 0 /\
    LaborAutomation.annual_savings (labor_automation r) == 0 /\
    CycleTime.profit_impact (cycle_time r) == 0 /\
    CostReduction.annual_savings (cost_reduction r) == 0 /\
    total_annual_benefit r == 0.75 * (20000000 # 73).
Proof.
  exists (scenario_value dso_only_inputs base).
  split; [ vm_compute; reflexivity | ].
  repeat split; vm_compute; reflexivity.
Qed.

(** Decimal literals denote the nearest double, as they do in Python. *)
#[local] Set Warnings "-inexact-float".

(** The same figures as the source computes them, on binary64 floats:
    the three results are the doubles printed as 125000000.0,
    3424657.534246575 and 273972.602739726, within 1e-2 of the stated
    decimals. *)
Example base_case_working_capital_binary64 :
  let annual_revenue := Binary64.calculate_annual_revenue 50000 2500 in
  let wc :=
    Binary64.calculate_working_capital_benefit
      45 (Binary64.adjusted_target_dso 45 35 1) annual_revenue 0.08 in
  annual_revenue = 125000000%float /\
  Binary64.cash_freed wc = 3424657.5342465751%float /\
  Binary64.annual_benefit wc = 273972.60273972602%float /\
  Binary64.within (Binary64.cash_freed wc) 3424657.53 0.01 = true /\
  Binary64.within (Binary64.annual_benefit wc) 273972.60 0.01 = true.
Proof.
  cbv zeta. repeat split; vm_compute; reflexivity.
Qed.

(* ===================================================================== *)
(** * Division in the cost-per-order calculator                           *)
(* ===================================================================== *)

(** C10.  The cost-per-order calculator divides by [current_cost] without
    a guard: with a zero current cost it raises [ZeroDivisionError],
    whatever the other arguments.  With a positive current cost the
    division is defined, the calculator returns its three figures, and
    the call inside [calculate_scenario], which passes the current cost
    per order unchanged, does not raise either. *)
Theorem cost_per_order_division (current_cost target_cost : Q) (order_volume : Z) :
  0 < current_cost ->
  calculate_cost_per_order_benefit current_cost target_cost order_volume =
    inr {| CostReduction.cost_reduction_per_order := current_cost - target_cost;
           CostReduction.cost_reduction_pct :=
             (current_cost - target_cost) / current_cost;
           CostReduction.annual_savings :=
             (current_cost - target_cost) * inject_Z order_volume |} /\
  (forall (inputs : FinancialInputs) (perf : Q),
     current_cost_per_order inputs = current_cost ->
     exists r,
       calculate_cost_per_order_benefit
         (current_cost_per_order (adj_inputs inputs perf))
         (target_cost_per_order (adj_inputs inputs perf))
         (annual_order_volume (adj_inputs inputs perf)) = inr r) /\
  (forall zero : Q, zero == 0 ->
     calculate_cost_per_order_benefit zero target_cost order_volume =
       inl ZeroDivisionError).
Proof.
  intros Hpos.
  assert (Hnz : ~ current_cost == 0).
  { intros H. rewrite H in Hpos. apply (Qlt_irrefl 0 Hpos). }
  split; [ | split ].
  - rewrite calculate_cost_per_order_benefit_ok by exact Hnz. reflexivity.
  - intros inputs perf Hc. cbn [adj_inputs current_cost_per_order
      target_cost_per_order annual_order_volume].
    rewrite calculate_cost_per_order_benefit_ok by (rewrite Hc; exact Hnz).
    eexists. reflexivity.
  - intros zero Hz. unfold calculate_cost_per_order_benefit.
    rewrite truediv_zero by exact Hz. reflexivity.
Qed.

Lemma cost_per_order_division_witness :
  0 < 85 /\
  calculate_cost_per_order_benefit 85 52 50000 =
    inr {| CostReduction.cost_reduction_per_order := 85 - 52;
           CostReduction.cost_reduction_pct := (85 - 52) / 85;
           CostReduction.annual_savings := (85 - 52) * inject_Z 50000 |} /\
  (forall (inputs : FinancialInputs) (perf : Q),
     current_cost_per_order inputs = 85 ->
     exists r,
       calculate_cost_per_order_benefit
         (current_cost_per_order (adj_inputs inputs perf))
         (target_cost_per_order (adj_inputs inputs perf))
         (annual_order_volume (adj_inputs inputs perf)) = inr r) /\
  (forall zero : Q, zero == 0 ->
     calculate_cost_per_order_benefit zero 52 50000 = inl ZeroDivisionError).
Proof.
  split; [ reflexivity | ].
  apply (cost_per_order_division 85 52 50000). reflexivity.
Defined.

(* ===================================================================== *)
(** * Where [calculate_scenario] is defined                               *)
(* ===================================================================== *)

Lemma divisors_nonzero_dec (inputs : FinancialInputs) :
  divisors_nonzero inputs \/
  (current_cycle_time inputs == 0 \/
   current_cost_per_order inputs == 0 \/
   1 + wacc inputs == 0).
Proof.
  unfold divisors_nonzero.
  destruct (Qeq_dec (current_cycle_time inputs) 0) as [ H1 | H1 ];
    [ right; left; exact H1 | ].
  destruct (Qeq_dec (current_cost_per_order inputs) 0) as [ H2 | H2 ];
    [ right; right; left; exact H2 | ].
  destruct (Qeq_dec (1 + wacc inputs) 0) as [ H3 | H3 ];
    [ right; right; right; exact H3 | ].
  left. repeat split; assumption.
Qed.

Lemma build_projection_raises (adj : FinancialInputs) (a tab : Q) :
  1 + wacc adj == 0 ->
  build_projection adj a tab = raise ZeroDivisionError.
Proof.
  intros Hw. unfold build_projection.
  rewrite truediv_ok by (cbn; discriminate).
  cbn [bind ret].
  rewrite truediv_zero; [ reflexivity | ].
  change ((1 + wacc adj) ^ 1) with (1 + wacc adj). exact Hw.
Qed.

Lemma calculate_scenario_raises (inputs : FinancialInputs) (t : ScenarioTag) :
  current_cycle_time inputs == 0 \/
  current_cost_per_order inputs == 0 \/
  1 + wacc inputs == 0 ->
  calculate_scenario inputs (tag_key t) = raise ZeroDivisionError.
Proof.
  intros H. unfold calculate_scenario.
  rewrite dict_get_scenario. cbn [bind ret].
  destruct (Qeq_dec (current_cycle_time inputs) 0) as [ H1 | H1 ].
  { unfold calculate_cycle_time_benefit.
    rewrite truediv_zero by exact H1. reflexivity. }
  rewrite calculate_cycle_time_benefit_ok by exact H1. cbn [bind ret].
  destruct (Qeq_dec (current_cost_per_order inputs) 0) as [ H2 | H2 ].
  { unfold calculate_cost_per_order_benefit.
    rewrite truediv_zero by exact H2. reflexivity. }
  rewrite calculate_cost_per_order_benefit_ok by exact H2. cbn [bind ret].
  destruct H as [ H | [ H | H ] ]; try contradiction.
  rewrite build_projection_raises by exact H. reflexivity.
Qed.


(** X2.  A scenario type other than "best", "base" and "worst" raises
    [KeyError], whatever the inputs are, before any figure is computed;
    the keys are case-sensitive. *)
Theorem calculate_scenario_unknown_tag (inputs : FinancialInputs) (s : string) :
  s <> "best"%string -> s <> "base"%string -> s <> "worst"%string ->
  calculate_scenario inputs s = inl KeyError.
Proof.
  intros H1 H2 H3. unfold calculate_scenario.
  assert (Hget : dict_get scenario_multipliers s = raise KeyError).
  { unfold scenario_multipliers. cbn [dict_get].
    assert (E1 : String.eqb "best" s = false)
      by (apply String.eqb_neq; congruence).
    assert (E2 : String.eqb "base" s = false)
      by (apply String.eqb_neq; congruence).
    assert (E3 : String.eqb "worst" s = false)
      by (apply String.eqb_neq; congruence).
    rewrite E1, E2, E3. reflexivity. }
  rewrite Hget. reflexivity.
Qed.

Lemma calculate_scenario_unknown_tag_witness :
  "Base"%string <> "best"%string /\
  "Base"%string <> "base"%string /\
  "Base"%string <> "worst"%string /\
  calculate_scenario default_inputs "Base" = inl KeyError.
Proof.
  split; [ discriminate | ].
  split; [ discriminate | ].
  split; [ discriminate | ].
  apply (calculate_scenario_unknown_tag default_inputs "Base"); discriminate.
Defined.

(* ===================================================================== *)
(** * The columns of the cash-flow table                                  *)
(* ===================================================================== *)

Lemma calculate_scenario_defined (inputs : FinancialInputs) (t : ScenarioTag) :
  divisors_nonzero inputs ->
  calculate_scenario inputs (tag_key t) = ret (scenario_value inputs t).
Proof.
  intros (H1 & H2 & H3). apply calculate_scenario_ok; assumption.
Qed.

Lemma valid_divisors_nonzero (inputs : FinancialInputs) :
  valid_inputs inputs -> divisors_nonzero inputs.
Proof. apply valid_inputs_ok. Qed.

Lemma Qsum_nil : Qsum [] == 0.
Proof. reflexivity. Qed.

Lemma Qsum_nonneg (l : list Q) : Forall (fun x => 0 <= x) l -> 0 <= Qsum l.
Proof.
  induction 1 as [ | x l Hx _ IH ].
  - rewrite Qsum_nil. lra.
  - rewrite Qsum_cons. lra.
Qed.

Lemma Qsum_nonpos (l : list Q) : Forall (fun x => x <= 0) l -> Qsum l <= 0.
Proof.
  induction 1 as [ | x l Hx _ IH ].
  - rewrite Qsum_nil. lra.
  - rewrite Qsum_cons. lra.
Qed.

Lemma Qsum_map_scale {A : Type} (k : Q) (f : A -> Q) (l : list A) :
  Qsum (map (fun x => k * f x) l) == k * Qsum (map f l).
Proof.
  induction l as [ | x l IH ]; cbn [map].
  - rewrite !Qsum_nil. ring.
  - rewrite !Qsum_cons, IH. ring.
Qed.

Lemma Qsum_map_net (rows : list YearRecord) :
  Forall (fun r => net_cf r == benefits r - investment r - maintenance r) rows ->
  Qsum (map net_cf rows) ==
  Qsum (map benefits rows) - Qsum (map investment rows) -
  Qsum (map maintenance rows).
Proof.
  induction 1 as [ | r rows Hr _ IH ]; cbn [map].
  - rewrite !Qsum_nil. ring.
  - rewrite !Qsum_cons, IH, Hr. ring.
Qed.

Section Columns.

Variable adj : FinancialInputs.
Variables a tab : Q.

Lemma steady_state_rows_investment (ys : list Z) :
  forall c : Q,
  Qsum (map investment (steady_state_rows adj a tab ys c)) == 0.
Proof.
  induction ys as [ | y ys IH ]; intros c; cbn [steady_state_rows map].
  - apply Qsum_nil.
  - rewrite Qsum_cons, IH. cbn. ring.
Qed.

Lemma steady_state_rows_maintenance (ys : list Z) :
  forall c : Q,
  map maintenance (steady_state_rows adj a tab ys c) =
  map (fun y => annual_maintenance adj * 1.02 ^ (y - 2)) ys.
Proof.
  induction ys as [ | y ys IH ]; intros c; cbn [steady_state_rows map].
  - reflexivity.
  - rewrite IH. reflexivity.
Qed.

Lemma projection_rows_investment :
  Qsum (map investment (projection_rows adj a tab)) ==
  initial_investment adj + change_management_cost adj + integration_cost adj.
Proof.
  unfold projection_rows. rewrite map_app, Qsum_app.
  rewrite steady_state_rows_investment.
  unfold ramp_rows. cbn [map investment].
  rewrite !Qsum_cons, Qsum_nil. ring.
Qed.

Lemma projection_rows_maintenance :
  Qsum (map maintenance (projection_rows adj a tab)) ==
  annual_maintenance adj *
  (0.5 + 1 + Qsum (map (fun y => 1.02 ^ (y - 2))
                       (py_range 3 (time_horizon adj + 1)))).
Proof.
  unfold projection_rows. rewrite map_app, Qsum_app.
  rewrite steady_state_rows_maintenance.
  rewrite (Qsum_map_scale (annual_maintenance adj) (fun y => 1.02 ^ (y - 2))).
  unfold ramp_rows. cbn [map maintenance].
  rewrite !Qsum_cons, Qsum_nil. ring.
Qed.

End Columns.

Lemma growth_sum_nonneg (ys : list Z) :
  0 <= Qsum (map (fun y => 1.02 ^ (y - 2)) ys).
Proof.
  apply Qsum_nonneg. apply Forall_forall. intros x Hx.
  apply in_map_iff in Hx. destruct Hx as (y & <- & _).
  apply Qpower_0_le. discriminate.
Qed.

(** X3.  When no divisor is zero the table has three rows for the years 0,
    1 and 2 plus one row per year from 3 to the time horizon, whatever the
    horizon is: a horizon below 3, which the code does not reject, yields
    exactly the three ramp rows and the summary figures are computed over
    those three years. *)
Theorem cash_flow_table_length (inputs : FinancialInputs) (t : ScenarioTag) :
  divisors_nonzero inputs ->
  exists r,
    calculate_scenario inputs (tag_key t) = inr r /\
    List.length (cash_flow_df r) =
      (3 + Z.to_nat (time_horizon inputs - 2))%nat /\
    map year (cash_flow_df r) = projection_years (time_horizon inputs) /\
    ((time_horizon inputs < 3)%Z -> map year (cash_flow_df r) = [0; 1; 2]%Z).
Proof.
  intros Hok. exists (scenario_value inputs t).
  split; [ apply calculate_scenario_defined; exact Hok | ].
  cbn [cash_flow_df scenario_value].
  assert (Hy : map year
                 (projection_rows
                    (adj_inputs inputs (performance (multipliers_of t)))
                    (adoption (multipliers_of t))
                    (adoption (multipliers_of t) *
                     benefit_components
                       (adj_inputs inputs (performance (multipliers_of t))))) =
               projection_years (time_horizon inputs)).
  { apply projection_rows_year. }
  split; [ | split ].
  - rewrite <- (length_map year), Hy. unfold projection_years.
    rewrite length_app, py_range_length. cbn [List.length]. lia.
  - exact Hy.
  - intros Hh. rewrite Hy. unfold projection_years, py_range.
    replace (Z.to_nat (time_horizon inputs + 1 - 3)) with 0%nat by lia.
    reflexivity.
Qed.

Lemma cash_flow_table_length_witness :
  divisors_nonzero (with_time_horizon default_inputs 1) /\
  exists r,
    calculate_scenario (with_time_horizon default_inputs 1) (tag_key base) =
      inr r /\
    List.length (cash_flow_df r) =
      (3 + Z.to_nat (time_horizon (with_time_horizon default_inputs 1) - 2))%nat /\
    map year (cash_flow_df r) =
      projection_years (time_horizon (with_time_horizon default_inputs 1)) /\
    ((time_horizon (with_time_horizon default_inputs 1) < 3)%Z ->
     map year (cash_flow_df r) = [0; 1; 2]%Z).
Proof.
  assert (H : divisors_nonzero (with_time_horizon default_inputs 1)).
  { repeat split; cbn; discriminate. }
  split; [ exact H | ].
  apply (cash_flow_table_length (with_time_horizon default_inputs 1) base H).
Defined.

(** X4.  When no divisor is zero, the investment column adds up to
    initial investment + change-management cost + integration cost (the
    phased outlays 30% / 50% / 20% and 50% / 50% leave nothing out), the
    maintenance column to the annual maintenance times
    0.5 + 1 + the sum of 1.02^(y-2) over the years 3..horizon, and the
    total investment is their sum: it depends on the four cost inputs and
    the horizon only, not on the scenario. *)
Theorem total_investment_closed_form (inputs : FinancialInputs) (t : ScenarioTag) :
  divisors_nonzero inputs ->
  exists r,
    calculate_scenario inputs (tag_key t) = inr r /\
    Qsum (map investment (cash_flow_df r)) ==
      initial_investment inputs + change_management_cost inputs +
      integration_cost inputs /\
    Qsum (map maintenance (cash_flow_df r)) ==
      annual_maintenance inputs *
      (0.5 + 1 + Qsum (map (fun y => 1.02 ^ (y - 2))
                           (py_range 3 (time_horizon inputs + 1)))) /\
    total_investment r ==
      Qsum (map investment (cash_flow_df r)) +
      Qsum (map maintenance (cash_flow_df r)) /\
    forall t' : ScenarioTag,
      exists r',
        calculate_scenario inputs (tag_key t') = inr r' /\
        total_investment r' == total_investment r.
Proof.
  intros Hok. exists (scenario_value inputs t).
  split; [ apply calculate_scenario_defined; exact Hok | ].
  cbn [cash_flow_df total_investment scenario_value].
  split; [ rewrite projection_rows_investment; reflexivity | ].
  split; [ rewrite projection_rows_maintenance; reflexivity | ].
  split; [ reflexivity | ].
  intros t'. exists (scenario_value inputs t').
  split; [ apply calculate_scenario_defined; exact Hok | ].
  cbn [total_investment scenario_value].
  rewrite !projection_rows_investment, !projection_rows_maintenance.
  reflexivity.
Qed.

Lemma total_investment_closed_form_witness :
  divisors_nonzero default_inputs /\
  exists r,
    calculate_scenario default_inputs (tag_key best) = inr r /\
    Qsum (map investment (cash_flow_df r)) ==
      initial_investment default_inputs + change_management_cost default_inputs +
      integration_cost default_inputs /\
    Qsum (map maintenance (cash_flow_df r)) ==
      annual_maintenance default_inputs *
      (0.5 + 1 + Qsum (map (fun y => 1.02 ^ (y - 2))
                           (py_range 3 (time_horizon default_inputs + 1)))) /\
    total_investment r ==
      Qsum (map investment (cash_flow_df r)) +
      Qsum (map maintenance (cash_flow_df r)) /\
    forall t' : ScenarioTag,
      exists r',
        calculate_scenario default_inputs (tag_key t') = inr r' /\
        total_investment r' == total_investment r.
Proof.
  assert (H : divisors_nonzero default_inputs).
  { repeat split; cbn; discriminate. }
  split; [ exact H | ].
  apply (total_investment_closed_form default_inputs best H).
Defined.

(* ===================================================================== *)
(** * Return on investment                                                *)
(* ===================================================================== *)

Lemma last_nth_error {A : Type} (l : list A) (d : A) :
  l <> [] -> nth_error l (List.length l - 1) = Some (last l d).
Proof.
  induction l as [ | x l IH ]; intros Hne; [ contradiction | ].
  destruct l as [ | y l ]; [ reflexivity | ].
  replace (List.length (x :: y :: l) - 1)%nat
    with (S (List.length (y :: l) - 1)) by (cbn [List.length]; lia).
  cbn [nth_error]. rewrite IH by discriminate. reflexivity.
Qed.

Lemma projection_rows_nonempty (adj : FinancialInputs) (a tab : Q) :
  projection_rows adj a tab <> [].
Proof. unfold projection_rows, ramp_rows. discriminate. Qed.

Lemma projection_rows_last (adj : FinancialInputs) (a tab : Q) (d : YearRecord) :
  cumulative_cf (last (projection_rows adj a tab) d) ==
  Qsum (map benefits (projection_rows adj a tab)) -
  Qsum (map investment (projection_rows adj a tab)) -
  Qsum (map maintenance (projection_rows adj a tab)).
Proof.
  pose proof (projection_rows_nonempty adj a tab) as Hne.
  pose proof (last_nth_error (projection_rows adj a tab) d Hne) as Hlast.
  rewrite (running_total_prefix _ 0 _ _ (projection_rows_running adj a tab) Hlast).
  assert (Hlen : (0 < List.length (projection_rows adj a tab))%nat).
  { destruct (projection_rows adj a tab); [ contradiction | cbn; lia ]. }
  replace (S (List.length (projection_rows adj a tab) - 1))
    with (List.length (projection_rows adj a tab)) by lia.
  rewrite firstn_all.
  rewrite (Qsum_map_net _ (projection_rows_net adj a tab)). ring.
Qed.

(** X5.  When no divisor is zero, the cumulative cash flow of the last
    year of the table equals total benefits minus total investment, the
    numerator of the ROI. *)
Theorem final_cumulative_cash_flow (inputs : FinancialInputs) (t : ScenarioTag) :
  divisors_nonzero inputs ->
  exists r,
    calculate_scenario inputs (tag_key t) = inr r /\
    cash_flow_df r <> [] /\
    forall d : YearRecord,
      cumulative_cf (last (cash_flow_df r) d) ==
      total_benefits r - total_investment r.
Proof.
  intros Hok. exists (scenario_value inputs t).
  split; [ apply calculate_scenario_defined; exact Hok | ].
  cbn [cash_flow_df total_benefits total_investment scenario_value].
  split; [ apply projection_rows_nonempty | ].
  intros d. rewrite projection_rows_last. ring.
Qed.

Lemma final_cumulative_cash_flow_witness :
  divisors_nonzero default_inputs /\
  exists r,
    calculate_scenario default_inputs (tag_key worst) = inr r /\
    cash_flow_df r <> [] /\
    forall d : YearRecord,
      cumulative_cf (last (cash_flow_df r) d) ==
      total_benefits r - total_investment r.
Proof.
  assert (H : divisors_nonzero default_inputs).
  { repeat split; cbn; discriminate. }
  split; [ exact H | ].
  apply (final_cumulative_cash_flow default_inputs worst H).
Defined.

Lemma total_investment_positive (inputs : FinancialInputs) (t : ScenarioTag) :
  valid_inputs inputs ->
  0 < total_investment (scenario_value inputs t).
Proof.
  intros V. cbn [total_investment scenario_value].
  rewrite projection_rows_investment, projection_rows_maintenance.
  cbn [initial_investment change_management_cost integration_cost
       annual_maintenance time_horizon adj_inputs].
  pose proof (valid_initial_investment _ V).
  pose proof (valid_change_management_cost _ V).
  pose proof (valid_integration_cost _ V).
  pose proof (valid_annual_maintenance _ V).
  pose proof (growth_sum_nonneg (py_range 3 (time_horizon inputs + 1))) as Hg.
  set (g := Qsum _) in *.
  assert (0 <= annual_maintenance inputs * (0.5 + 1 + g)) by nonneg.
  lra.
Qed.

Lemma roi_of_valid_inputs_aux (inputs : FinancialInputs) (t : ScenarioTag) :
  valid_inputs inputs ->
  0 < total_investment (scenario_value inputs t) /\
  roi (scenario_value inputs t) =
    (total_benefits (scenario_value inputs t) -
     total_investment (scenario_value inputs t)) /
    total_investment (scenario_value inputs t) * 100.
Proof.
  intros V.
  pose proof (total_investment_positive inputs t V) as Hpos.
  split; [ exact Hpos | ].
  cbn [roi total_benefits total_investment scenario_value] in *.
  unfold roi_value. rewrite (proj2 (Qgtb_true _ _) Hpos). reflexivity.
Qed.

(** X6.  For every valid input and every scenario tag the total investment
    is positive, so the guard of the ROI never takes its zero branch: the
    ROI is (total benefits - total investment) / total investment * 100,
    and it is positive exactly when the total benefits exceed the total
    investment. *)
Theorem roi_of_valid_inputs (inputs : FinancialInputs) (t : ScenarioTag) :
  valid_inputs inputs ->
  exists r,
    calculate_scenario inputs (tag_key t) = inr r /\
    0 < total_investment r /\
    roi r = (total_benefits r - total_investment r) / total_investment r * 100 /\
    (0 < roi r <-> total_investment r < total_benefits r).
Proof.
  intros V. exists (scenario_value inputs t).
  split; [ apply calculate_scenario_valid; exact V | ].
  pose proof (total_investment_positive inputs t V) as Hpos.
  split; [ exact Hpos | ].
  assert (Hroi : roi (scenario_value inputs t) =
                 (total_benefits (scenario_value inputs t) -
                  total_investment (scenario_value inputs t)) /
                 total_investment (scenario_value inputs t) * 100).
  { cbn [roi total_benefits total_investment scenario_value] in *.
    unfold roi_value. rewrite (proj2 (Qgtb_true _ _) Hpos). reflexivity. }
  split; [ exact Hroi | ].
  rewrite Hroi.
  set (ti := total_investment _) in *. set (tb := total_benefits _).
  assert (Hinv : 0 < / ti) by (apply Qinv_lt_0_compat; exact Hpos).
  unfold Qdiv. set (k := / ti) in *.
  split; intros H; nra.
Qed.

Lemma roi_of_valid_inputs_witness :
  valid_inputs default_inputs /\
  exists r,
    calculate_scenario default_inputs (tag_key base) = inr r /\
    0 < total_investment r /\
    roi r = (total_benefits r - total_investment r) / total_investment r * 100 /\
    (0 < roi r <-> total_investment r < total_benefits r).
Proof.
  split; [ concrete_inputs | ].
  apply (roi_of_valid_inputs default_inputs base). concrete_inputs.
Defined.

(** X7.  With the four cost inputs at zero, which the input form allows,
    the total investment is zero and the ROI is 0 by the guard: no
    [ZeroDivisionError] is raised. *)
Theorem roi_without_investment (inputs : FinancialInputs) (t : ScenarioTag) :
  divisors_nonzero inputs ->
  initial_investment inputs == 0 ->
  annual_maintenance inputs == 0 ->
  change_management_cost inputs == 0 ->
  integration_cost inputs == 0 ->
  exists r,
    calculate_scenario inputs (tag_key t) = inr r /\
    total_investment r == 0 /\
    roi r = 0.
Proof.
  intros Hok Hi Hm Hc Hg. exists (scenario_value inputs t).
  split; [ apply calculate_scenario_defined; exact Hok | ].
  assert (Hz : total_investment (scenario_value inputs t) == 0).
  { cbn [total_investment scenario_value].
    rewrite projection_rows_investment, projection_rows_maintenance.
    cbn [initial_investment change_management_cost integration_cost
         annual_maintenance time_horizon adj_inputs].
    rewrite Hi, Hm, Hc, Hg. ring. }
  split; [ exact Hz | ].
  cbn [roi total_investment scenario_value] in *.
  unfold roi_value.
  rewrite (proj2 (Qgtb_false _ _)); [ reflexivity | ].
  rewrite Hz. apply Qle_refl.
Qed.

Lemma roi_without_investment_witness :
  divisors_nonzero (with_costs default_inputs 0 0 0 0) /\
  initial_investment (with_costs default_inputs 0 0 0 0) == 0 /\
  annual_maintenance (with_costs default_inputs 0 0 0 0) == 0 /\
  change_management_cost (with_costs default_inputs 0 0 0 0) == 0 /\
  integration_cost (with_costs default_inputs 0 0 0 0) == 0 /\
  exists r,
    calculate_scenario (with_costs default_inputs 0 0 0 0) (tag_key base) =
      inr r /\
    total_investment r == 0 /\
    roi r = 0.
Proof.
  assert (H : divisors_nonzero (with_costs default_inputs 0 0 0 0)).
  { repeat split; cbn; discriminate. }
  split; [ exact H | ].
  repeat (split; [ reflexivity | ]).
  apply (roi_without_investment (with_costs default_inputs 0 0 0 0) base H);
    reflexivity.
Defined.

(* ===================================================================== *)
(** * Net present value                                                   *)
(* ===================================================================== *)

Lemma spec_ramp_steady (y : Z) : (3 <= y)%Z -> spec_ramp y = 1.03 ^ (y - 2).
Proof.
  intros H. unfold spec_ramp.
  replace (y =? 0)%Z with false by (symmetry; apply Z.eqb_neq; lia).
  replace (y =? 1)%Z with false by (symmetry; apply Z.eqb_neq; lia).
  replace (y =? 2)%Z with false by (symmetry; apply Z.eqb_neq; lia).
  reflexivity.
Qed.

Lemma yearly_cost_steady (inputs : FinancialInputs) (y : Z) :
  (3 <= y)%Z ->
  yearly_cost inputs y = annual_maintenance inputs * 1.02 ^ (y - 2).
Proof.
  intros H. unfold yearly_cost.
  replace (y =? 0)%Z with false by (symmetry; apply Z.eqb_neq; lia).
  replace (y =? 1)%Z with false by (symmetry; apply Z.eqb_neq; lia).
  replace (y =? 2)%Z with false by (symmetry; apply Z.eqb_neq; lia).
  reflexivity.
Qed.

Lemma spec_ramp_nonneg (y : Z) : 0 <= spec_ramp y.
Proof.
  unfold spec_ramp.
  destruct (y =? 0)%Z; [ discriminate | ].
  destruct (y =? 1)%Z; [ discriminate | ].
  destruct (y =? 2)%Z; [ discriminate | ].
  apply Qpower_0_le. discriminate.
Qed.

Lemma py_range_lower (lo hi : Z) : Forall (fun y => (lo <= y)%Z) (py_range lo hi).
Proof.
  apply Forall_forall. intros y Hy. unfold py_range in Hy.
  apply in_map_iff in Hy. destruct Hy as (k & <- & _). lia.
Qed.

Section Discounted.

Variable adj : FinancialInputs.
Variables a tab : Q.
Hypothesis wacc_ok : ~ 1 + wacc adj == 0.

Lemma steady_state_rows_discounted (ys : list Z) :
  Forall (fun y => (3 <= y)%Z) ys ->
  forall c : Q,
  Qsum (map discounted_cf (steady_state_rows adj a tab ys c)) ==
  tab * a * Qsum (map (fun y => spec_ramp y / (1 + wacc adj) ^ y) ys) -
  Qsum (map (fun y => yearly_cost adj y / (1 + wacc adj) ^ y) ys).
Proof.
  induction 1 as [ | y ys Hy _ IH ]; intros c; cbn [steady_state_rows map].
  - rewrite !Qsum_nil. ring.
  - rewrite !Qsum_cons, IH.
    rewrite (spec_ramp_steady y Hy), (yearly_cost_steady adj y Hy).
    cbn [discounted_cf steady_state_row].
    pose proof (discount_nonzero (wacc adj) y wacc_ok) as Hd.
    set (d := (1 + wacc adj) ^ y) in *.
    set (g := 1.03 ^ (y - 2)). set (m := 1.02 ^ (y - 2)).
    field. exact Hd.
Qed.

Lemma projection_rows_discounted :
  Qsum (map discounted_cf (projection_rows adj a tab)) ==
  tab * a *
  Qsum (map (fun y => spec_ramp y / (1 + wacc adj) ^ y)
            (projection_years (time_horizon adj))) -
  Qsum (map (fun y => yearly_cost adj y / (1 + wacc adj) ^ y)
            (projection_years (time_horizon adj))).
Proof.
  unfold projection_rows, projection_years.
  rewrite !map_app, !Qsum_app.
  rewrite steady_state_rows_discounted by apply py_range_lower.
  unfold ramp_rows. cbn [map discounted_cf].
  rewrite !Qsum_cons, !Qsum_nil.
  change (spec_ramp 0) with 0.15. change (spec_ramp 1) with 0.45.
  change (spec_ramp 2) with 0.80.
  unfold yearly_cost. cbn [Z.eqb Pos.eqb].
  change ((1 + wacc adj) ^ 0) with 1.
  change ((1 + wacc adj) ^ 1) with (1 + wacc adj).
  change ((1 + wacc adj) ^ 2) with ((1 + wacc adj) * (1 + wacc adj)).
  field. exact wacc_ok.
Qed.

End Discounted.

Lemma npv_scenario_value (inputs : FinancialInputs) (t : ScenarioTag) :
  ~ 1 + wacc inputs == 0 ->
  npv (scenario_value inputs t) ==
  sr_adoption_rate (scenario_value inputs t) *
  total_annual_benefit (scenario_value inputs t) * discounted_ramp inputs -
  discounted_costs inputs.
Proof.
  intros Hw.
  cbn [npv sr_adoption_rate total_annual_benefit scenario_value].
  rewrite projection_rows_discounted by exact Hw.
  unfold discounted_ramp, discounted_costs.
  cbn [wacc time_horizon adj_inputs].
  assert (Hc : forall p,
    map (fun y => yearly_cost (adj_inputs inputs p) y / (1 + wacc inputs) ^ y)
        (projection_years (time_horizon inputs)) =
    map (fun y => yearly_cost inputs y / (1 + wacc inputs) ^ y)
        (projection_years (time_horizon inputs))) by reflexivity.
  rewrite Hc. ring.
Qed.

(** X8.  When no divisor is zero, the NPV is the adoption rate times the
    total annual benefit times the discounted sum of the ramp shares
    (0.15, 0.45, 0.80, then 1.03^(y-2)), minus the discounted outlays of
    investment and maintenance; the two discounted sums depend on the cost
    inputs, the WACC and the horizon only, so the scenarios differ in the
    NPV through the factor adoption * total annual benefit alone. *)
Theorem npv_decomposition (inputs : FinancialInputs) (t : ScenarioTag) :
  divisors_nonzero inputs ->
  exists r,
    calculate_scenario inputs (tag_key t) = inr r /\
    npv r ==
      sr_adoption_rate r * total_annual_benefit r * discounted_ramp inputs -
      discounted_costs inputs.
Proof.
  intros Hok. exists (scenario_value inputs t).
  split; [ apply calculate_scenario_defined; exact Hok | ].
  apply npv_scenario_value. destruct Hok as (_ & _ & Hw). exact Hw.
Qed.

Lemma npv_decomposition_witness :
  divisors_nonzero default_inputs /\
  exists r,
    calculate_scenario default_inputs (tag_key base) = inr r /\
    npv r ==
      sr_adoption_rate r * total_annual_benefit r *
      discounted_ramp default_inputs -
      discounted_costs default_inputs.
Proof.
  assert (H : divisors_nonzero default_inputs).
  { repeat split; cbn; discriminate. }
  split; [ exact H | ].
  apply (npv_decomposition default_inputs base H).
Defined.

Lemma discounted_ramp_nonneg (inputs : FinancialInputs) :
  0 <= 1 + wacc inputs -> 0 <= discounted_ramp inputs.
Proof.
  intros Hw. unfold discounted_ramp. apply Qsum_nonneg.
  apply Forall_forall. intros x Hx.
  apply in_map_iff in Hx. destruct Hx as (y & <- & _).
  unfold Qdiv. apply Qmult_le_0_compat.
  - apply spec_ramp_nonneg.
  - apply Qinv_le_0_compat. apply Qpower_0_le. exact Hw.
Qed.

Lemma npv_of_tag (inputs : FinancialInputs) (t : ScenarioTag) :
  divisors_nonzero inputs ->
  npv (scenario_value inputs t) ==
  adoption (multipliers_of t) * adoption (multipliers_of t) *
  performance (multipliers_of t) *
  (benefit_components (adj_inputs inputs 1) * discounted_ramp inputs) -
  discounted_costs inputs.
Proof.
  intros (Hc & _ & Hw).
  rewrite (npv_scenario_value inputs t Hw).
  cbn [sr_adoption_rate total_annual_benefit scenario_value].
  rewrite (benefit_components_scaled inputs _ Hc). ring.
Qed.

Lemma npv_order (inputs : FinancialInputs) :
  valid_inputs inputs ->
  targets_improve inputs ->
  npv (scenario_value inputs base) <= npv (scenario_value inputs best) /\
  npv (scenario_value inputs worst) <= npv (scenario_value inputs base).
Proof.
  intros V T.
  pose proof (valid_divisors_nonzero inputs V) as Hok.
  rewrite (npv_of_tag inputs best Hok), (npv_of_tag inputs base Hok),
          (npv_of_tag inputs worst Hok).
  cbn [multipliers_of adoption performance].
  assert (Hp : 0 <= benefit_components (adj_inputs inputs 1) *
                    discounted_ramp inputs).
  { apply Qmult_le_0_compat.
    - apply benefit_components_nonneg; assumption.
    - apply discounted_ramp_nonneg.
      destruct (valid_wacc _ V) as [Hw _]. lra. }
  set (p := benefit_components (adj_inputs inputs 1) * discounted_ramp inputs) in *.
  split; lra.
Qed.

(** X9.  For every valid input whose targets improve on the current
    values, the NPV of the best scenario is at least that of the base
    scenario, which is at least that of the worst scenario. *)
Theorem npv_monotonicity (inputs : FinancialInputs) :
  valid_inputs inputs ->
  targets_improve inputs ->
  exists r_best r_base r_worst,
    calculate_scenario inputs "best" = inr r_best /\
    calculate_scenario inputs "base" = inr r_base /\
    calculate_scenario inputs "worst" = inr r_worst /\
    npv r_base <= npv r_best /\
    npv r_worst <= npv r_base.
Proof.
  intros V T.
  exists (scenario_value inputs best), (scenario_value inputs base),
         (scenario_value inputs worst).
  split; [ apply (calculate_scenario_valid inputs best V) | ].
  split; [ apply (calculate_scenario_valid inputs base V) | ].
  split; [ apply (calculate_scenario_valid inputs worst V) | ].
  apply npv_order; assumption.
Qed.

Lemma npv_monotonicity_witness :
  valid_inputs default_inputs /\
  targets_improve default_inputs /\
  exists r_best r_base r_worst,
    calculate_scenario default_inputs "best" = inr r_best /\
    calculate_scenario default_inputs "base" = inr r_base /\
    calculate_scenario default_inputs "worst" = inr r_worst /\
    npv r_base <= npv r_best /\
    npv r_worst <= npv r_base.
Proof.
  split; [ concrete_inputs | ].
  split; [ concrete_inputs | ].
  apply (npv_monotonicity default_inputs); concrete_inputs.
Defined.

(** X10.  For every valid input whose targets improve on the current
    values, [main] obtains the three scenarios and its probability-weighted
    NPV (weights 0.20, 0.50, 0.30, which add up to 1) lies between the NPV
    of the worst and that of the best scenario. *)
Theorem probability_weighted_npv_bounds (inputs : FinancialInputs) :
  valid_inputs inputs ->
  targets_improve inputs ->
  exists r_best r_worst pw,
    calculate_scenario inputs "best" = inr r_best /\
    calculate_scenario inputs "worst" = inr r_worst /\
    main_probability_weighted_npv inputs = inr pw /\
    npv r_worst <= pw /\ pw <= npv r_best.
Proof.
  intros V T.
  destruct (npv_order inputs V T) as [Hle1 Hle2].
  exists (scenario_value inputs best), (scenario_value inputs worst),
         (probability_weighted_npv (scenario_value inputs best)
            (scenario_value inputs base) (scenario_value inputs worst)).
  split; [ apply (calculate_scenario_valid inputs best V) | ].
  split; [ apply (calculate_scenario_valid inputs worst V) | ].
  split.
  - unfold main_probability_weighted_npv.
    rewrite (calculate_scenario_valid inputs best V : calculate_scenario inputs "best" = _).
    rewrite (calculate_scenario_valid inputs base V : calculate_scenario inputs "base" = _).
    rewrite (calculate_scenario_valid inputs worst V : calculate_scenario inputs "worst" = _).
    reflexivity.
  - unfold probability_weighted_npv. split; lra.
Qed.

Lemma probability_weighted_npv_bounds_witness :
  valid_inputs default_inputs /\
  targets_improve default_inputs /\
  exists r_best r_worst pw,
    calculate_scenario default_inputs "best" = inr r_best /\
    calculate_scenario default_inputs "worst" = inr r_worst /\
    main_probability_weighted_npv default_inputs = inr pw /\
    npv r_worst <= pw /\ pw <= npv r_best.
Proof.
  split; [ concrete_inputs | ].
  split; [ concrete_inputs | ].
  apply (probability_weighted_npv_bounds default_inputs); concrete_inputs.
Defined.

(* ===================================================================== *)
(** * Inputs without improvement                                          *)
(* ===================================================================== *)

Lemma benefit_components_no_improvement (inputs : FinancialInputs) (perf : Q) :
  ~ current_cycle_time inputs == 0 ->
  no_improvement inputs ->
  benefit_components (adj_inputs inputs perf) == 0.
Proof.
  intros Hc N.
  unfold benefit_components, calculate_annual_revenue. cbn.
  rewrite (same_dso _ N), (same_perfect_order_rate _ N), (same_cycle_time _ N),
          (same_revenue_leakage _ N), (same_stp_rate _ N).
  field. exact Hc.
Qed.

Lemma projection_rows_outlays (adj : FinancialInputs) (a tab : Q) :
  0 <= initial_investment adj ->
  0 <= annual_maintenance adj ->
  0 <= change_management_cost adj ->
  0 <= integration_cost adj ->
  Forall (fun r => 0 <= investment r /\ 0 <= maintenance r)
         (projection_rows adj a tab).
Proof.
  intros Hi Hm Hc Hg. unfold projection_rows. apply Forall_app. split.
  - unfold ramp_rows.
    repeat constructor; cbn [investment maintenance]; nonneg.
  - generalize (cumulative_cf
                  (last (ramp_rows adj a tab) (steady_state_row adj a tab 0 0))).
    generalize (py_range 3 (time_horizon adj + 1)).
    intros ys. induction ys as [ | y ys IH ]; intros c;
      cbn [steady_state_rows]; constructor.
    + cbn [investment maintenance steady_state_row]. split; [ lra | ].
      apply Qmult_le_0_compat; [ exact Hm | ].
      apply Qpower_0_le. discriminate.
    + apply IH.
Qed.

Lemma running_total_nonpos (rows : list YearRecord) :
  forall c : Q,
  c <= 0 ->
  running_total c rows ->
  Forall (fun r => net_cf r <= 0) rows ->
  Forall (fun r => cumulative_cf r <= 0) rows.
Proof.
  induction rows as [ | r rows IH ]; intros c Hc Hrun Hnet; constructor.
  - destruct Hrun as [Hr _]. inversion Hnet; subst. rewrite Hr. lra.
  - destruct Hrun as [Hr Hrest]. inversion Hnet; subst.
    apply (IH (cumulative_cf r)); [ rewrite Hr; lra | exact Hrest | assumption ].
Qed.

Lemma payback_spec_absent (rows : list YearRecord) :
  Forall (fun r => cumulative_cf r <= 0) rows ->
  payback_spec (map cumulative_cf rows) = None.
Proof.
  intros H. unfold payback_spec.
  rewrite first_positive_none; [ reflexivity | ].
  intros c Hc. apply in_map_iff in Hc. destruct Hc as (r & <- & Hr).
  rewrite Forall_forall in H. apply H. exact Hr.
Qed.

(** X11.  For every valid input in which every target equals the current
    value, and every scenario tag: the total annual benefit and the
    benefit of every year are 0, the NPV is minus the discounted outlays
    of investment and maintenance, the ROI is -100 and the payback is
    absent. *)
Theorem scenario_without_improvement (inputs : FinancialInputs) (t : ScenarioTag) :
  valid_inputs inputs ->
  no_improvement inputs ->
  exists r,
    calculate_scenario inputs (tag_key t) = inr r /\
    total_annual_benefit r == 0 /\
    Forall (fun row => benefits row == 0) (cash_flow_df r) /\
    total_benefits r == 0 /\
    npv r == - discounted_costs inputs /\
    roi r == - (100) /\
    payback r = None.
Proof.
  intros V N.
  pose proof (valid_divisors_nonzero inputs V) as Hok.
  pose proof Hok as (Hc & _ & Hw).
  exists (scenario_value inputs t).
  split; [ apply calculate_scenario_valid; exact V | ].
  pose proof (benefit_components_no_improvement inputs
                (performance (multipliers_of t)) Hc N) as Hzero.
  assert (Htab : total_annual_benefit (scenario_value inputs t) == 0).
  { cbn [total_annual_benefit scenario_value]. rewrite Hzero. ring. }
  assert (Hben : Forall (fun row => benefits row == 0)
                   (cash_flow_df (scenario_value inputs t))).
  { cbn [cash_flow_df scenario_value].
    eapply Forall_impl; [ | apply projection_rows_benefits ].
    cbn beta. intros row Hrow. rewrite Hrow, Hzero. ring. }
  assert (Htb : total_benefits (scenario_value inputs t) == 0).
  { cbn [total_benefits scenario_value]. cbn [cash_flow_df scenario_value] in Hben.
    rewrite (Qsum_map_ext benefits (fun _ => 0) _ Hben).
    rewrite (Qsum_map_scale 0 (fun _ => 0)). ring. }
  split; [ exact Htab | ]. split; [ exact Hben | ]. split; [ exact Htb | ].
  split; [ | split ].
  - rewrite (npv_scenario_value inputs t Hw), Htab. ring.
  - destruct (roi_of_valid_inputs_aux inputs t V) as [Hpos Hroi].
    rewrite Hroi, Htb. field. intros H. rewrite H in Hpos.
    apply (Qlt_irrefl 0 Hpos).
  - cbn [payback scenario_value]. apply payback_spec_absent.
    cbn [cash_flow_df scenario_value] in Hben.
    apply (running_total_nonpos _ 0); [ lra | apply projection_rows_running | ].
    pose proof (projection_rows_net
                  (adj_inputs inputs (performance (multipliers_of t)))
                  (adoption (multipliers_of t))
                  (adoption (multipliers_of t) *
                   benefit_components
                     (adj_inputs inputs (performance (multipliers_of t)))))
      as Hnet.
    pose proof (projection_rows_outlays
                  (adj_inputs inputs (performance (multipliers_of t)))
                  (adoption (multipliers_of t))
                  (adoption (multipliers_of t) *
                   benefit_components
                     (adj_inputs inputs (performance (multipliers_of t))))
                  (Qlt_le_weak _ _ (valid_initial_investment _ V))
                  (Qlt_le_weak _ _ (valid_annual_maintenance _ V))
                  (Qlt_le_weak _ _ (valid_change_management_cost _ V))
                  (Qlt_le_weak _ _ (valid_integration_cost _ V)))
      as Hout.
    rewrite Forall_forall in *. intros row Hrow.
    rewrite (Hnet row Hrow), (Hben row Hrow).
    destruct (Hout row Hrow). lra.
Qed.

Lemma scenario_without_improvement_witness :
  valid_inputs (without_improvement default_inputs) /\
  no_improvement (without_improvement default_inputs) /\
  exists r,
    calculate_scenario (without_improvement default_inputs) (tag_key best) =
      inr r /\
    total_annual_benefit r == 0 /\
    Forall (fun row => benefits row == 0) (cash_flow_df r) /\
    total_benefits r == 0 /\
    npv r == - discounted_costs (without_improvement default_inputs) /\
    roi r == - (100) /\
    payback r = None.
Proof.
  split; [ concrete_inputs | ].
  split; [ concrete_inputs | ].
  apply (scenario_without_improvement (without_improvement default_inputs) best);
    concrete_inputs.
Defined.

(* ===================================================================== *)
(** * Where the payback lies                                              *)
(* ===================================================================== *)

Lemma first_positive_inv (cs : list Q) :
  forall y : nat,
  first_positive cs = Some y ->
  (y < List.length cs)%nat /\
  0 < nth y cs 0 /\
  (forall k, (k < y)%nat -> nth k cs 0 <= 0).
Proof.
  induction cs as [ | c cs IH ]; intros y H; cbn [first_positive] in H.
  - discriminate.
  - destruct (Qgtb c 0) eqn:E.
    + inversion H. subst y. apply Qgtb_true in E.
      split; [ cbn; lia | ]. split; [ exact E | ]. intros k Hk. lia.
    + apply Qgtb_false in E.
      destruct (first_positive cs) as [ y' | ] eqn:F; [ | discriminate ].
      cbn [option_map] in H. inversion H. subst y.
      destruct (IH y' eq_refl) as (Hlen & Hpos & Hbefore).
      split; [ cbn; lia | ]. split; [ exact Hpos | ].
      intros [ | k ] Hk; [ exact E | ].
      cbn [nth]. apply Hbefore. lia.
Qed.

Lemma inject_Z_succ (n : nat) :
  inject_Z (Z.of_nat (S n)) == inject_Z (Z.of_nat n) + 1.
Proof.
  rewrite Nat2Z.inj_succ. unfold Z.succ. rewrite inject_Z_plus. reflexivity.
Qed.

Lemma payback_at_bounds (cs : list Q) (y' : nat) :
  nth y' cs 0 <= 0 ->
  0 < nth (S y') cs 0 ->
  inject_Z (Z.of_nat y') <= payback_at cs (S y') /\
  payback_at cs (S y') < inject_Z (Z.of_nat (S y')).
Proof.
  intros Hprev Hcurr. cbn [payback_at].
  set (prev := nth y' cs 0) in *. set (curr := nth (S y') cs 0) in *.
  assert (Hden : 0 < curr - prev) by lra.
  destruct (Qeq_bool (curr - prev) 0) eqn:E.
  { apply Qeq_bool_eq in E. lra. }
  rewrite (Qabs_neg prev Hprev).
  assert (H0 : 0 <= - prev / (curr - prev)).
  { apply Qle_shift_div_l; [ exact Hden | lra ]. }
  assert (H1 : - prev / (curr - prev) < 1).
  { apply Qlt_shift_div_r; [ exact Hden | lra ]. }
  rewrite inject_Z_succ. split; lra.
Qed.

(** X12.  For every valid input and every scenario tag, a payback that is
    present belongs to the first year [y] of the table whose cumulative
    cash flow is positive: it is 0 when [y = 0] and lies in the interval
    [y - 1, y) otherwise; in either case it is at least 0 and below the
    time horizon. *)
Theorem payback_within_horizon (inputs : FinancialInputs) (t : ScenarioTag) :
  valid_inputs inputs ->
  exists r,
    calculate_scenario inputs (tag_key t) = inr r /\
    forall p : Q,
      payback r = Some p ->
      let cs := map cumulative_cf (cash_flow_df r) in
      exists y : nat,
        (Z.of_nat y <= time_horizon inputs)%Z /\
        0 < nth y cs 0 /\
        (forall k, (k < y)%nat -> nth k cs 0 <= 0) /\
        (y = 0%nat -> p = 0) /\
        ((0 < y)%nat ->
         inject_Z (Z.of_nat y) - 1 <= p /\ p < inject_Z (Z.of_nat y)) /\
        0 <= p /\ p < inject_Z (time_horizon inputs).
Proof.
  intros V. exists (scenario_value inputs t).
  split; [ apply calculate_scenario_valid; exact V | ].
  intros p Hp. cbn zeta.
  cbn [payback cash_flow_df scenario_value] in *.
  pose proof (projection_rows_length
                (adj_inputs inputs (performance (multipliers_of t)))
                (adoption (multipliers_of t))
                (adoption (multipliers_of t) *
                 benefit_components
                   (adj_inputs inputs (performance (multipliers_of t))))
                (valid_time_horizon _ V)) as Hlen.
  rewrite <- (length_map cumulative_cf) in Hlen.
  set (cs := map cumulative_cf _) in *.
  unfold payback_spec in Hp.
  destruct (first_positive cs) as [ y | ] eqn:F; [ | discriminate ].
  cbn [option_map] in Hp. inversion Hp as [Hpy]. clear Hp.
  destruct (first_positive_inv cs y F) as (Hy & Hpos & Hbefore).
  pose proof (valid_time_horizon _ V) as Hh.
  cbn [time_horizon adj_inputs] in Hlen.
  assert (Hyh : (Z.of_nat y <= time_horizon inputs)%Z) by lia.
  assert (HyQ : inject_Z (Z.of_nat y) <= inject_Z (time_horizon inputs))
    by (rewrite <- Zle_Qle; exact Hyh).
  assert (HhQ : 3 <= inject_Z (time_horizon inputs)).
  { change 3 with (inject_Z 3). rewrite <- Zle_Qle. exact Hh. }
  exists y. split; [ exact Hyh | ]. split; [ exact Hpos | ].
  split; [ exact Hbefore | ].
  destruct y as [ | y' ].
  - cbn [payback_at]. split; [ reflexivity | ].
    split; [ intros H; lia | ]. split; lra.
  - assert (Hprev : nth y' cs 0 <= 0) by (apply Hbefore; lia).
    destruct (payback_at_bounds cs y' Hprev Hpos) as [Hlo Hhi].
    assert (Hnn : 0 <= inject_Z (Z.of_nat y')).
    { change 0 with (inject_Z 0). rewrite <- Zle_Qle. lia. }
    pose proof (inject_Z_succ y') as Hs.
    split; [ intros H; discriminate H | ].
    split; [ intros _; split; lra | ].
    split; lra.
Qed.

Lemma payback_within_horizon_witness :
  valid_inputs default_inputs /\
  exists r,
    calculate_scenario default_inputs (tag_key worst) = inr r /\
    forall p : Q,
      payback r = Some p ->
      let cs := map cumulative_cf (cash_flow_df r) in
      exists y : nat,
        (Z.of_nat y <= time_horizon default_inputs)%Z /\
        0 < nth y cs 0 /\
        (forall k, (k < y)%nat -> nth k cs 0 <= 0) /\
        (y = 0%nat -> p = 0) /\
        ((0 < y)%nat ->
         inject_Z (Z.of_nat y) - 1 <= p /\ p < inject_Z (Z.of_nat y)) /\
        0 <= p /\ p < inject_Z (time_horizon default_inputs).
Proof.
  split; [ concrete_inputs | ].
  apply (payback_within_horizon default_inputs worst). concrete_inputs.
Defined.

(* ===================================================================== *)
(** * The payback shown to the user                                       *)
(* ===================================================================== *)

(** X13.  For every valid input and every scenario tag: when the
    cumulative cash flow is positive already in year 0 the payback is 0,
    and the expression [payback if payback else 99] of the charts and
    cards turns it into 99, the value also shown when there is no payback
    (1188 months in the payback metric); a payback other than 0 is shown
    as it is. *)
Theorem immediate_payback_shown_as_99 (inputs : FinancialInputs) (t : ScenarioTag) :
  valid_inputs inputs ->
  exists r row0,
    calculate_scenario inputs (tag_key t) = inr r /\
    nth_error (cash_flow_df r) 0 = Some row0 /\
    (0 < cumulative_cf row0 ->
     payback r = Some 0 /\
     payback_or_99 (payback r) = 99 /\
     payback_months r = 99 * 12) /\
    (payback r = None -> payback_or_99 (payback r) = 99) /\
    (forall p, payback r = Some p -> ~ p == 0 ->
       payback_or_99 (payback r) = p).
Proof.
  intros V. exists (scenario_value inputs t).
  eexists.
  split; [ apply calculate_scenario_valid; exact V | ].
  split; [ reflexivity | ].
  split; [ | split ].
  - intros Hpos. cbn [cumulative_cf] in Hpos.
    apply Qgtb_true in Hpos.
    assert (Hp : payback (scenario_value inputs t) = Some 0).
    { cbn [payback scenario_value]. unfold payback_spec, projection_rows, ramp_rows.
      cbn [app map first_positive cumulative_cf].
      rewrite Hpos. reflexivity. }
    split; [ exact Hp | ].
    unfold payback_months. rewrite Hp. split; reflexivity.
  - intros Hp. rewrite Hp. reflexivity.
  - intros p Hp Hnz. rewrite Hp. cbn [payback_or_99].
    destruct (Qeq_bool p 0) eqn:E; [ | reflexivity ].
    apply Qeq_bool_eq in E. contradiction.
Qed.

Lemma immediate_payback_shown_as_99_witness :
  valid_inputs default_inputs /\
  exists r row0,
    calculate_scenario default_inputs (tag_key base) = inr r /\
    nth_error (cash_flow_df r) 0 = Some row0 /\
    (0 < cumulative_cf row0 ->
     payback r = Some 0 /\
     payback_or_99 (payback r) = 99 /\
     payback_months r = 99 * 12) /\
    (payback r = None -> payback_or_99 (payback r) = 99) /\
    (forall p, payback r = Some p -> ~ p == 0 ->
       payback_or_99 (payback r) = p).
Proof.
  split; [ concrete_inputs | ].
  apply (immediate_payback_shown_as_99 default_inputs base). concrete_inputs.
Defined.

(** On the inputs the form starts from the base scenario is such a case:
    its year-0 cumulative cash flow is positive and its payback metric
    reads 99 years. *)
Example default_base_payback_shown_as_99 :
  exists r row0,
    calculate_scenario default_inputs "base" = inr r /\
    nth_error (cash_flow_df r) 0 = Some row0 /\
    0 < cumulative_cf row0 /\
    payback r = Some 0 /\
    payback_or_99 (payback r) = 99.
Proof.
  exists (scenario_value default_inputs base). eexists.
  split; [ vm_compute; reflexivity | ].
  split; [ reflexivity | ].
  split; [ vm_compute; reflexivity | ].
  split; vm_compute; reflexivity.
Qed.

(* ===================================================================== *)
(** * The waterfall chart                                                 *)
(* ===================================================================== *)

(** X14.  When no divisor is zero, the bar "Total" of the waterfall chart,
    the sum of the five benefit components, is not the total annual
    benefit of the result it is drawn from: the total annual benefit is
    the adoption rate times that bar.  The chart has five running sums and
    the last of them is the bar "Total". *)
Theorem waterfall_total_before_adoption (inputs : FinancialInputs) (t : ScenarioTag) :
  divisors_nonzero inputs ->
  exists r,
    calculate_scenario inputs (tag_key t) = inr r /\
    let values := waterfall_values r in
    total_annual_benefit r == sr_adoption_rate r * waterfall_total values /\
    List.length (waterfall_cumulative values) = 5%nat /\
    last (waterfall_cumulative values) 0 = waterfall_total values.
Proof.
  intros Hok. exists (scenario_value inputs t).
  split; [ apply calculate_scenario_defined; exact Hok | ].
  cbn zeta. split; [ | split; reflexivity ].
  unfold waterfall_total, waterfall_values.
  rewrite !Qsum_cons, Qsum_nil.
  cbn [total_annual_benefit sr_adoption_rate working_capital error_reduction
       revenue_leakage labor_automation cycle_time scenario_value].
  unfold benefit_components. ring.
Qed.

Lemma waterfall_total_before_adoption_witness :
  divisors_nonzero default_inputs /\
  exists r,
    calculate_scenario default_inputs (tag_key base) = inr r /\
    let values := waterfall_values r in
    total_annual_benefit r == sr_adoption_rate r * waterfall_total values /\
    List.length (waterfall_cumulative values) = 5%nat /\
    last (waterfall_cumulative values) 0 = waterfall_total values.
Proof.
  assert (H : divisors_nonzero default_inputs).
  { repeat split; cbn; discriminate. }
  split; [ exact H | ].
  apply (waterfall_total_before_adoption default_inputs base H).
Defined.

(* ===================================================================== *)
(** * More on the benchmark classifier                                    *)
(* ===================================================================== *)

Lemma metric_keys_cases (m : string) :
  In m metric_keys \/
  (m <> "dso" /\ m <> "perfect_order_rate" /\ m <> "stp_rate" /\
   m <> "cost_per_order" /\ m <> "revenue_leakage")%string.
Proof.
  unfold metric_keys.
  destruct (string_dec m "dso") as [ -> | H1 ]; [ left; cbn; tauto | ].
  destruct (string_dec m "perfect_order_rate") as [ -> | H2 ];
    [ left; cbn; tauto | ].
  destruct (string_dec m "stp_rate") as [ -> | H3 ]; [ left; cbn; tauto | ].
  destruct (string_dec m "cost_per_order") as [ -> | H4 ];
    [ left; cbn; tauto | ].
  destruct (string_dec m "revenue_leakage") as [ -> | H5 ];
    [ left; cbn; tauto | ].
  right. repeat split; assumption.
Qed.

Lemma dict_get_benchmarks_known (m : string) :
  In m metric_keys -> exists b, dict_get INDUSTRY_BENCHMARKS m = inr b.
Proof.
  intros Hm. cbn in Hm.
  destruct Hm as [ <- | [ <- | [ <- | [ <- | [ <- | [] ] ] ] ] ];
    eexists; reflexivity.
Qed.

Lemma dict_get_benchmarks_unknown (m : string) :
  ~ In m metric_keys -> dict_get INDUSTRY_BENCHMARKS m = inl KeyError.
Proof.
  intros Hm.
  destruct (metric_keys_cases m) as [ H | (H1 & H2 & H3 & H4 & H5) ];
    [ contradiction | ].
  unfold INDUSTRY_BENCHMARKS. cbn [dict_get].
  assert (E1 : String.eqb "dso" m = false)
    by (apply String.eqb_neq; congruence).
  assert (E2 : String.eqb "perfect_order_rate" m = false)
    by (apply String.eqb_neq; congruence).
  assert (E3 : String.eqb "stp_rate" m = false)
    by (apply String.eqb_neq; congruence).
  assert (E4 : String.eqb "cost_per_order" m = false)
    by (apply String.eqb_neq; congruence).
  assert (E5 : String.eqb "revenue_leakage" m = false)
    by (apply String.eqb_neq; congruence).
  rewrite E1, E2, E3, E4, E5. reflexivity.
Qed.

(** X15.  [get_benchmark_position] returns exactly for the five metric
    names of the benchmark table; any other name, whatever the two values,
    raises [KeyError]. *)
Theorem get_benchmark_position_domain (m : string) (current_value target_value : Q) :
  ((exists p, get_benchmark_position m current_value target_value = inr p) <->
   In m metric_keys) /\
  (get_benchmark_position m current_value target_value = inl KeyError <->
   ~ In m metric_keys).
Proof.
  unfold get_benchmark_position.
  destruct (metric_keys_cases m) as [ Hin | Hout ].
  - destruct (dict_get_benchmarks_known m Hin) as [b Hb].
    rewrite Hb. cbn [bind ret]. split; split.
    + intros _. exact Hin.
    + intros _. eexists. reflexivity.
    + intros H. discriminate H.
    + intros H. contradiction.
  - assert (Hn : ~ In m metric_keys).
    { destruct Hout as (H1 & H2 & H3 & H4 & H5). cbn.
      intros [ H | [ H | [ H | [ H | [ H | [] ] ] ] ] ]; congruence. }
    rewrite (dict_get_benchmarks_unknown m Hn). cbn [bind]. split; split.
    + intros [p H]. discriminate H.
    + intros H. contradiction.
    + intros _. exact Hn.
    + intros _. reflexivity.
Qed.

(** Case analysis on every threshold comparison of the goal. *)
Ltac compare_thresholds :=
  repeat match goal with
         | |- context [ Qle_bool ?x ?y ] =>
             let E := fresh "E" in
             destruct (Qle_bool x y) eqn:E;
             [ apply Qle_bool_iff in E | apply Qle_bool_false in E ]
         end.

Lemma categorize_lower_monotone (m : string) (b : Benchmarks) (v1 v2 : Q) :
  str_in m lower_is_better = true ->
  v1 <= v2 ->
  (tier_rank (fst (categorize m b v2)) <= tier_rank (fst (categorize m b v1)))%nat.
Proof.
  intros Hm Hle. unfold categorize. rewrite Hm.
  compare_thresholds; cbn; try lia; exfalso; lra.
Qed.

Lemma categorize_higher_monotone (m : string) (b : Benchmarks) (v1 v2 : Q) :
  str_in m lower_is_better = false ->
  v1 <= v2 ->
  (tier_rank (fst (categorize m b v1)) <= tier_rank (fst (categorize m b v2)))%nat.
Proof.
  intros Hm Hle. unfold categorize. rewrite Hm.
  compare_thresholds; cbn; try lia; exfalso; lra.
Qed.

(** X16.  For each of the five metrics, a target value that is no worse
    than the current value (no higher for DSO, cost per order and revenue
    leakage; no lower for perfect-order rate and STP rate) is never put in
    a worse tier than the current value, where the tiers rank
    Bottom Quartile < Average < Top Quartile < Best-in-Class. *)
Theorem benchmark_tier_monotone (m : string) (current_value target_value : Q) :
  In m metric_keys ->
  exists p,
    get_benchmark_position m current_value target_value = inr p /\
    (In m lower_is_better -> target_value <= current_value ->
     (tier_rank (current_category p) <= tier_rank (target_category p))%nat) /\
    (In m higher_is_better -> current_value <= target_value ->
     (tier_rank (current_category p) <= tier_rank (target_category p))%nat).
Proof.
  intros Hm. unfold get_benchmark_position.
  destruct (dict_get_benchmarks_known m Hm) as [b Hb].
  rewrite Hb. cbn [bind ret]. eexists. split; [ reflexivity | ].
  cbn [current_category target_category].
  assert (Hdir :
    (str_in m lower_is_better = true /\ ~ In m higher_is_better) \/
    (str_in m lower_is_better = false /\ ~ In m lower_is_better)).
  { cbn in Hm.
    destruct Hm as [ <- | [ <- | [ <- | [ <- | [ <- | [] ] ] ] ] ];
      [ left | right | right | left | left ];
      (split; [ reflexivity | ]);
      cbn; intros H; repeat destruct H as [ H | H ]; try discriminate H;
      exact H. }
  destruct Hdir as [ [Hlow Hnot] | [Hhigh Hnot] ].
  - split; [ | intros H; contradiction ].
    intros _ Hle. apply categorize_lower_monotone; assumption.
  - split; [ intros H; contradiction | ].
    intros _ Hle. apply categorize_higher_monotone; assumption.
Qed.

Lemma benchmark_tier_monotone_witness :
  In "dso"%string metric_keys /\
  exists p,
    get_benchmark_position "dso" 45 35 = inr p /\
    (In "dso"%string lower_is_better -> 35 <= 45 ->
     (tier_rank (current_category p) <= tier_rank (target_category p))%nat) /\
    (In "dso"%string higher_is_better -> 45 <= 35 ->
     (tier_rank (current_category p) <= tier_rank (target_category p))%nat).
Proof.
  split; [ cbn; tauto | ].
  apply (benchmark_tier_monotone "dso" 45 35). cbn. tauto.
Defined.

(* ===================================================================== *)
(** * Inputs the engine does not read                                     *)
(* ===================================================================== *)

Lemma projection_rows_ext (adj1 adj2 : FinancialInputs) (a tab : Q) :
  initial_investment adj1 = initial_investment adj2 ->
  annual_maintenance adj1 = annual_maintenance adj2 ->
  change_management_cost adj1 = change_management_cost adj2 ->
  integration_cost adj1 = integration_cost adj2 ->
  wacc adj1 = wacc adj2 ->
  time_horizon adj1 = time_horizon adj2 ->
  projection_rows adj1 a tab = projection_rows adj2 a tab.
Proof.
  intros Hi Hm Hc Hg Hw Hh.
  unfold projection_rows, ramp_rows, steady_state_row.
  rewrite Hi, Hm, Hc, Hg, Hw, Hh. f_equal.
  apply steady_state_rows_ext; assumption.
Qed.

Lemma scenario_value_unused (inputs : FinancialInputs) (t : ScenarioTag)
    (tax : Q) (pilot limited full : Z) :
  scenario_value (with_unused inputs tax pilot limited full) t =
  scenario_value inputs t.
Proof.
  unfold scenario_value. cbv zeta.
  rewrite (projection_rows_ext
             (adj_inputs (with_unused inputs tax pilot limited full)
                         (performance (multipliers_of t)))
             (adj_inputs inputs (performance (multipliers_of t))))
    by reflexivity.
  reflexivity.
Qed.

(** X17.  The tax rate and the three implementation month counts are
    collected and stored but never read: replacing them changes neither
    the result of [calculate_scenario] nor the exception it raises. *)
Theorem unused_inputs (inputs : FinancialInputs) (t : ScenarioTag)
    (tax : Q) (pilot limited full : Z) :
  calculate_scenario (with_unused inputs tax pilot limited full) (tag_key t) =
  calculate_scenario inputs (tag_key t).
Proof.
  destruct (divisors_nonzero_dec inputs) as [ Hok | Hzero ].
  - rewrite (calculate_scenario_defined inputs t Hok).
    rewrite (calculate_scenario_defined
               (with_unused inputs tax pilot limited full) t Hok).
    rewrite scenario_value_unused. reflexivity.
  - rewrite (calculate_scenario_raises inputs t Hzero).
    rewrite (calculate_scenario_raises
               (with_unused inputs tax pilot limited full) t Hzero).
    reflexivity.
Qed.

(* ===================================================================== *)
(** * The performance multiplier                                          *)
(* ===================================================================== *)

(** X18.  When no divisor is zero, each of the six annual figures of a
    scenario is the performance multiplier of the scenario times the same
    figure of the base scenario, and the total annual benefit is
    adoption * performance / 0.75 times that of the base scenario. *)
Theorem benefits_scale_with_performance (inputs : FinancialInputs) (t : ScenarioTag) :
  divisors_nonzero inputs ->
  exists r r_base,
    calculate_scenario inputs (tag_key t) = inr r /\
    calculate_scenario inputs "base" = inr r_base /\
    let perf := performance_multiplier r in
    WorkingCapital.annual_benefit (working_capital r) ==
      perf * WorkingCapital.annual_benefit (working_capital r_base) /\
    ErrorReduction.annual_savings (error_reduction r) ==
      perf * ErrorReduction.annual_savings (error_reduction r_base) /\
    RevenueLeakage.profit_impact (revenue_leakage r) ==
      perf * RevenueLeakage.profit_impact (revenue_leakage r_base) /\
    LaborAutomation.annual_savings (labor_automation r) ==
      perf * LaborAutomation.annual_savings (labor_automation r_base) /\
    CycleTime.profit_impact (cycle_time r) ==
      perf * CycleTime.profit_impact (cycle_time r_base) /\
    CostReduction.annual_savings (cost_reduction r) ==
      perf * CostReduction.annual_savings (cost_reduction r_base) /\
    0.75 * total_annual_benefit r ==
      sr_adoption_rate r * perf * total_annual_benefit r_base.
Proof.
  intros Hok. exists (scenario_value inputs t), (scenario_value inputs base).
  split; [ apply calculate_scenario_defined; exact Hok | ].
  split; [ apply (calculate_scenario_defined inputs base Hok) | ].
  destruct Hok as (Hc & _ & _).
  cbn zeta.
  cbn [performance_multiplier sr_adoption_rate working_capital error_reduction
       revenue_leakage labor_automation cycle_time cost_reduction
       total_annual_benefit scenario_value].
  repeat split;
    try (unfold calculate_annual_revenue; cbn; field; exact Hc).
  rewrite (benefit_components_scaled inputs (performance (multipliers_of t)) Hc).
  rewrite (benefit_components_scaled inputs (performance (multipliers_of base)) Hc).
  cbn [multipliers_of adoption performance]. ring.
Qed.

Lemma benefits_scale_with_performance_witness :
  divisors_nonzero default_inputs /\
  exists r r_base,
    calculate_scenario default_inputs (tag_key best) = inr r /\
    calculate_scenario default_inputs "base" = inr r_base /\
    let perf := performance_multiplier r in
    WorkingCapital.annual_benefit (working_capital r) ==
      perf * WorkingCapital.annual_benefit (working_capital r_base) /\
    ErrorReduction.annual_savings (error_reduction r) ==
      perf * ErrorReduction.annual_savings (error_reduction r_base) /\
    RevenueLeakage.profit_impact (revenue_leakage r) ==
      perf * RevenueLeakage.profit_impact (revenue_leakage r_base) /\
    LaborAutomation.annual_savings (labor_automation r) ==
      perf * LaborAutomation.annual_savings (labor_automation r_base) /\
    CycleTime.profit_impact (cycle_time r) ==
      perf * CycleTime.profit_impact (cycle_time r_base) /\
    CostReduction.annual_savings (cost_reduction r) ==
      perf * CostReduction.annual_savings (cost_reduction r_base) /\
    0.75 * total_annual_benefit r ==
      sr_adoption_rate r * perf * total_annual_benefit r_base.
Proof.
  assert (H : divisors_nonzero default_inputs).
  { repeat split; cbn; discriminate. }
  split; [ exact H | ].
  apply (benefits_scale_with_performance default_inputs best H).
Defined.

(** X19.  The best scenario moves every target 10% beyond the input
    target without clamping it: for valid inputs whose perfect-order
    target is close enough to 1 that
    1 - current < (target - current) * 1.10, the adjusted perfect-order
    rate exceeds 1, the target error count is negative, and more errors
    are reported eliminated than currently occur. *)
Theorem best_case_overshoot (inputs : FinancialInputs) :
  valid_inputs inputs ->
  1 - current_perfect_order_rate inputs <
    (target_perfect_order_rate inputs - current_perfect_order_rate inputs) * 1.10 ->
  exists r,
    calculate_scenario inputs "best" = inr r /\
    1 < target_perfect_order_rate (adj_inputs inputs (performance_multiplier r)) /\
    ErrorReduction.target_errors (error_reduction r) < 0 /\
    ErrorReduction.current_errors (error_reduction r) <
      ErrorReduction.errors_eliminated (error_reduction r).
Proof.
  intros V Hover. exists (scenario_value inputs best).
  split; [ apply (calculate_scenario_valid inputs best V) | ].
  cbn [performance_multiplier error_reduction scenario_value multipliers_of
       performance].
  unfold calculate_error_reduction_benefit.
  cbn [ErrorReduction.target_errors ErrorReduction.current_errors
       ErrorReduction.errors_eliminated target_perfect_order_rate
       current_perfect_order_rate annual_order_volume adj_inputs].
  assert (Hv : 0 < inject_Z (annual_order_volume inputs)).
  { change 0 with (inject_Z 0). rewrite <- Zlt_Qlt.
    exact (valid_annual_order_volume _ V). }
  set (v := inject_Z (annual_order_volume inputs)) in *.
  set (c := current_perfect_order_rate inputs) in *.
  set (g := target_perfect_order_rate inputs) in *.
  assert (Hadj : 1 < c + (g - c) * 1.10) by lra.
  set (adj := c + (g - c) * 1.10) in *.
  assert (Hneg : v * (1 - adj) < 0) by nra.
  repeat split; [ exact Hadj | exact Hneg | lra ].
Qed.

Lemma best_case_overshoot_witness :
  valid_inputs (with_targets default_inputs 35 0.98 3 0.03 52 0.88) /\
  1 - current_perfect_order_rate
        (with_targets default_inputs 35 0.98 3 0.03 52 0.88) <
    (target_perfect_order_rate
       (with_targets default_inputs 35 0.98 3 0.03 52 0.88) -
     current_perfect_order_rate
       (with_targets default_inputs 35 0.98 3 0.03 52 0.88)) * 1.10 /\
  exists r,
    calculate_scenario (with_targets default_inputs 35 0.98 3 0.03 52 0.88)
                       "best" = inr r /\
    1 < target_perfect_order_rate
          (adj_inputs (with_targets default_inputs 35 0.98 3 0.03 52 0.88)
                      (performance_multiplier r)) /\
    ErrorReduction.target_errors (error_reduction r) < 0 /\
    ErrorReduction.current_errors (error_reduction r) <
      ErrorReduction.errors_eliminated (error_reduction r).
Proof.
  split; [ concrete_inputs | ].
  split; [ reflexivity | ].
  apply (best_case_overshoot
           (with_targets default_inputs 35 0.98 3 0.03 52 0.88));
    [ concrete_inputs | reflexivity ].
Defined.

(* ===================================================================== *)
(** * The executive summary                                               *)
(* ===================================================================== *)

Lemma executive_summary_cases (inputs : FinancialInputs)
    (best base worst : ScenarioResult) (pw : Q) :
  (payback base = None ->
   generate_executive_summary inputs best base worst pw = inl TypeError) /\
  (payback base <> None -> payback worst = None ->
   generate_executive_summary inputs best base worst pw = inl TypeError).
Proof.
  unfold generate_executive_summary.
  cbn [dict_get INDUSTRY_BENCHMARKS String.eqb Ascii.eqb Bool.eqb lift rbind].
  split.
  - intros Hb. rewrite Hb. reflexivity.
  - intros Hb Hw. destruct (payback base) as [ pb | ]; [ | contradiction ].
    rewrite Hw. reflexivity.
Qed.

(** X20.  [generate_executive_summary] formats the paybacks of the base
    and of the worst scenario without a guard: it raises [TypeError] when
    the base payback is absent, and when the base payback is present and
    the worst one absent; with both present it returns its 52 fields.
    The result of the best scenario is passed in and never read. *)
Theorem executive_summary_errors (inputs : FinancialInputs)
    (best base worst : ScenarioResult) (pw : Q) :
  (payback base = None ->
   generate_executive_summary inputs best base worst pw = inl TypeError) /\
  (payback base <> None -> payback worst = None ->
   generate_executive_summary inputs best base worst pw = inl TypeError) /\
  (payback base <> None -> payback worst <> None ->
   exists fields,
     generate_executive_summary inputs best base worst pw = inr fields /\
     List.length fields = 52%nat) /\
  (forall best' : ScenarioResult,
     generate_executive_summary inputs best' base worst pw =
     generate_executive_summary inputs best base worst pw).
Proof.
  unfold generate_executive_summary.
  cbn [dict_get INDUSTRY_BENCHMARKS String.eqb Ascii.eqb Bool.eqb lift rbind].
  split; [ | split; [ | split ] ].
  - intros Hb. rewrite Hb. reflexivity.
  - intros Hb Hw. destruct (payback base) as [ pb | ]; [ | contradiction ].
    rewrite Hw. reflexivity.
  - intros Hb Hw.
    destruct (payback base) as [ pb | ]; [ | contradiction ].
    destruct (payback worst) as [ pw' | ]; [ | contradiction ].
    cbn [format_fixed rbind].
    eexists. split; reflexivity.
  - intros best'. reflexivity.
Qed.

(** X21.  [main] builds the executive summary unconditionally, so for
    valid inputs whose base or worst scenario has no payback within the
    horizon the run ends in [TypeError]. *)
Theorem main_summary_without_payback (inputs : FinancialInputs)
    (r_base r_worst : ScenarioResult) :
  valid_inputs inputs ->
  calculate_scenario inputs "base" = inr r_base ->
  calculate_scenario inputs "worst" = inr r_worst ->
  payback r_base = None \/ payback r_worst = None ->
  main_executive_summary inputs = inl TypeError.
Proof.
  intros V Hb Hw Hnone. unfold main_executive_summary.
  rewrite (calculate_scenario_valid inputs best V : calculate_scenario inputs "best" = _).
  rewrite Hb, Hw. cbn [lift ret rbind].
  destruct (executive_summary_cases inputs (scenario_value inputs best)
              r_base r_worst
              (probability_weighted_npv (scenario_value inputs best) r_base r_worst))
    as [H1 H2].
  destruct (payback r_base) as [ pb | ] eqn:Eb.
  - destruct Hnone as [ H | H ]; [ discriminate H | ].
    apply H2; [ discriminate | exact H ].
  - apply H1. reflexivity.
Qed.

Lemma main_summary_without_payback_witness :
  valid_inputs dso_only_inputs /\
  calculate_scenario dso_only_inputs "base" =
    inr (scenario_value dso_only_inputs base) /\
  calculate_scenario dso_only_inputs "worst" =
    inr (scenario_value dso_only_inputs worst) /\
  (payback (scenario_value dso_only_inputs base) = None \/
   payback (scenario_value dso_only_inputs worst) = None) /\
  main_executive_summary dso_only_inputs = inl TypeError.
Proof.
  split; [ concrete_inputs | ].
  split; [ vm_compute; reflexivity | ].
  split; [ vm_compute; reflexivity | ].
  split; [ left; vm_compute; reflexivity | ].
  apply (main_summary_without_payback dso_only_inputs
           (scenario_value dso_only_inputs base)
           (scenario_value dso_only_inputs worst)).
  - concrete_inputs.
  - vm_compute; reflexivity.
  - vm_compute; reflexivity.
  - left; vm_compute; reflexivity.
Defined.

(* ===================================================================== *)
(** * Inverted inputs                                                     *)
(* ===================================================================== *)

(** The five components are a combination of the five improvements with
    coefficients that do not mention the targets. *)
Lemma benefit_components_linear (inputs : FinancialInputs) :
  ~ current_cycle_time inputs == 0 ->
  let v := inject_Z (annual_order_volume inputs) in
  benefit_components (adj_inputs inputs 1) ==
  (current_dso inputs - target_dso inputs) *
    (v * average_order_value inputs * wacc inputs * / 365) +
  (target_perfect_order_rate inputs - current_perfect_order_rate inputs) *
    (v * avg_rework_cost inputs) +
  (current_revenue_leakage inputs - target_revenue_leakage inputs) *
    (v * average_order_value inputs * profit_margin inputs) +
  (target_stp_rate inputs - current_stp_rate inputs) *
    (v * avg_manual_processing_time inputs * / 60 *
     fully_loaded_hourly_rate inputs) +
  (current_cycle_time inputs - target_cycle_time inputs) *
    (v * / current_cycle_time inputs * average_order_value inputs *
     default_capacity_capture_rate * profit_margin inputs).
Proof.
  intros Hc. cbv zeta.
  unfold benefit_components, calculate_annual_revenue. cbn.
  field. exact Hc.
Qed.

Lemma benefit_components_nonpos (inputs : FinancialInputs) :
  valid_inputs inputs ->
  targets_worsen inputs ->
  benefit_components (adj_inputs inputs 1) <= 0.
Proof.
  intros V T.
  destruct (valid_inputs_ok inputs V) as (Hc & _ & _).
  rewrite (benefit_components_linear inputs Hc). cbv zeta.
  destruct V as [Hvol Haov [Hm0 Hm1] Hcd _ Hcc _ _ _ _ _ _ _ _ _
                 Hrw Hrt Htm _ _ _ _ [Hw0 Hw1] _ _ _ _ _].
  destruct T as [Tdso Tpor Tcyc Tleak _ Tstp].
  assert (Hv : 0 <= inject_Z (annual_order_volume inputs)).
  { change 0 with (inject_Z 0). rewrite <- Zle_Qle. lia. }
  set (v := inject_Z (annual_order_volume inputs)) in *.
  assert (K1 : 0 <= v * average_order_value inputs * wacc inputs * / 365)
    by nonneg.
  assert (K2 : 0 <= v * avg_rework_cost inputs) by nonneg.
  assert (K3 : 0 <= v * average_order_value inputs * profit_margin inputs)
    by nonneg.
  assert (K4 : 0 <= v * avg_manual_processing_time inputs * / 60 *
                    fully_loaded_hourly_rate inputs) by nonneg.
  assert (K5 : 0 <= v * / current_cycle_time inputs *
                    average_order_value inputs *
                    default_capacity_capture_rate * profit_margin inputs)
    by (unfold default_capacity_capture_rate; nonneg).
  set (k1 := v * average_order_value inputs * wacc inputs * / 365) in *.
  set (k2 := v * avg_rework_cost inputs) in *.
  set (k3 := v * average_order_value inputs * profit_margin inputs) in *.
  set (k4 := v * avg_manual_processing_time inputs * / 60 *
             fully_loaded_hourly_rate inputs) in *.
  set (k5 := v * / current_cycle_time inputs * average_order_value inputs *
             default_capacity_capture_rate * profit_margin inputs) in *.
  nra.
Qed.

(** X22.  The code does not check that the targets improve on the current
    values.  For valid inputs whose targets are all at most as good as the
    current values, the total annual benefit of every scenario is at most
    0 and the order of the scenarios is reversed: the "best" scenario has
    the lowest total annual benefit and the "worst" the highest. *)
Theorem inverted_targets_reverse_scenarios (inputs : FinancialInputs) :
  valid_inputs inputs ->
  targets_worsen inputs ->
  exists r_best r_base r_worst,
    calculate_scenario inputs "best" = inr r_best /\
    calculate_scenario inputs "base" = inr r_base /\
    calculate_scenario inputs "worst" = inr r_worst /\
    total_annual_benefit r_best <= total_annual_benefit r_base /\
    total_annual_benefit r_base <= total_annual_benefit r_worst /\
    total_annual_benefit r_worst <= 0.
Proof.
  intros V T.
  exists (scenario_value inputs best), (scenario_value inputs base),
         (scenario_value inputs worst).
  split; [ apply (calculate_scenario_valid inputs best V) | ].
  split; [ apply (calculate_scenario_valid inputs base V) | ].
  split; [ apply (calculate_scenario_valid inputs worst V) | ].
  destruct (valid_inputs_ok inputs V) as (Hc & _ & _).
  pose proof (benefit_components_nonpos inputs V T) as Hs.
  cbn [total_annual_benefit scenario_value multipliers_of adoption performance].
  rewrite (benefit_components_scaled inputs 1.10 Hc).
  rewrite (benefit_components_scaled inputs 1.00 Hc).
  rewrite (benefit_components_scaled inputs 0.80 Hc).
  set (s := benefit_components (adj_inputs inputs 1)) in *.
  repeat split; lra.
Qed.

Lemma inverted_targets_reverse_scenarios_witness :
  valid_inputs (with_targets default_inputs 50 0.70 6 0.10 90 0.60) /\
  targets_worsen (with_targets default_inputs 50 0.70 6 0.10 90 0.60) /\
  exists r_best r_base r_worst,
    calculate_scenario (with_targets default_inputs 50 0.70 6 0.10 90 0.60)
                       "best" = inr r_best /\
    calculate_scenario (with_targets default_inputs 50 0.70 6 0.10 90 0.60)
                       "base" = inr r_base /\
    calculate_scenario (with_targets default_inputs 50 0.70 6 0.10 90 0.60)
                       "worst" = inr r_worst /\
    total_annual_benefit r_best <= total_annual_benefit r_base /\
    total_annual_benefit r_base <= total_annual_benefit r_worst /\
    total_annual_benefit r_worst <= 0.
Proof.
  split; [ concrete_inputs | ].
  split; [ concrete_inputs | ].
  apply (inverted_targets_reverse_scenarios
           (with_targets default_inputs 50 0.70 6 0.10 90 0.60));
    concrete_inputs.
Defined.

(* ===================================================================== *)
(** * Total benefits and ROI across the scenarios                         *)
(* ===================================================================== *)

Lemma projection_rows_total_benefits (adj : FinancialInputs) (a tab : Q) :
  Qsum (map benefits (projection_rows adj a tab)) ==
  a * tab * Qsum (map spec_ramp (projection_years (time_horizon adj))).
Proof.
  rewrite (Qsum_map_ext benefits (fun r => a * tab * spec_ramp (year r))).
  - rewrite <- (map_map year (fun y => a * tab * spec_ramp y)).
    rewrite projection_rows_year.
    rewrite (Qsum_map_scale (a * tab) spec_ramp). reflexivity.
  - eapply Forall_impl; [ | apply projection_rows_benefits ].
    cbn beta. intros r Hr. rewrite Hr. ring.
Qed.

Lemma ramp_sum_nonneg (ys : list Z) : 0 <= Qsum (map spec_ramp ys).
Proof.
  apply Qsum_nonneg. apply Forall_forall. intros x Hx.
  apply in_map_iff in Hx. destruct Hx as (y & <- & _).
  apply spec_ramp_nonneg.
Qed.

Lemma total_benefits_of_tag (inputs : FinancialInputs) (t : ScenarioTag) :
  ~ current_cycle_time inputs == 0 ->
  total_benefits (scenario_value inputs t) ==
  adoption (multipliers_of t) * adoption (multipliers_of t) *
  performance (multipliers_of t) *
  (benefit_components (adj_inputs inputs 1) *
   Qsum (map spec_ramp (projection_years (time_horizon inputs)))).
Proof.
  intros Hc. cbn [total_benefits scenario_value].
  rewrite projection_rows_total_benefits.
  rewrite (benefit_components_scaled inputs _ Hc).
  cbn [time_horizon adj_inputs]. ring.
Qed.

Lemma total_investment_of_tag (inputs : FinancialInputs) (t : ScenarioTag) :
  total_investment (scenario_value inputs t) ==
  initial_investment inputs + change_management_cost inputs +
  integration_cost inputs +
  annual_maintenance inputs *
  (0.5 + 1 + Qsum (map (fun y => 1.02 ^ (y - 2))
                       (py_range 3 (time_horizon inputs + 1)))).
Proof.
  cbn [total_investment scenario_value].
  rewrite projection_rows_investment, projection_rows_maintenance.
  reflexivity.
Qed.

(** X23.  For every valid input whose targets improve on the current
    values, the total benefits and the ROI are ordered like the scenarios:
    best at least base, base at least worst. *)
Theorem roi_monotonicity (inputs : FinancialInputs) :
  valid_inputs inputs ->
  targets_improve inputs ->
  exists r_best r_base r_worst,
    calculate_scenario inputs "best" = inr r_best /\
    calculate_scenario inputs "base" = inr r_base /\
    calculate_scenario inputs "worst" = inr r_worst /\
    total_benefits r_base <= total_benefits r_best /\
    total_benefits r_worst <= total_benefits r_base /\
    roi r_base <= roi r_best /\
    roi r_worst <= roi r_base.
Proof.
  intros V T.
  exists (scenario_value inputs best), (scenario_value inputs base),
         (scenario_value inputs worst).
  split; [ apply (calculate_scenario_valid inputs best V) | ].
  split; [ apply (calculate_scenario_valid inputs base V) | ].
  split; [ apply (calculate_scenario_valid inputs worst V) | ].
  destruct (valid_inputs_ok inputs V) as (Hc & _ & _).
  destruct (roi_of_valid_inputs_aux inputs best V) as [Hpos Hrb].
  destruct (roi_of_valid_inputs_aux inputs base V) as [_ Hrm].
  destruct (roi_of_valid_inputs_aux inputs worst V) as [_ Hrw].
  rewrite Hrb, Hrm, Hrw.
  rewrite (total_investment_of_tag inputs best) in *.
  rewrite (total_investment_of_tag inputs base).
  rewrite (total_investment_of_tag inputs worst).
  rewrite (total_benefits_of_tag inputs best Hc),
          (total_benefits_of_tag inputs base Hc),
          (total_benefits_of_tag inputs worst Hc).
  cbn [multipliers_of adoption performance].
  assert (Hp : 0 <= benefit_components (adj_inputs inputs 1) *
                    Qsum (map spec_ramp (projection_years (time_horizon inputs)))).
  { apply Qmult_le_0_compat.
    - apply benefit_components_nonneg; assumption.
    - apply ramp_sum_nonneg. }
  set (p := benefit_components (adj_inputs inputs 1) * _) in *.
  set (ti := initial_investment inputs + _ + _ + _) in *.
  assert (Hk : 0 < / ti) by (apply Qinv_lt_0_compat; exact Hpos).
  unfold Qdiv. set (k := / ti) in *.
  repeat split; try lra; nra.
Qed.

Lemma roi_monotonicity_witness :
  valid_inputs default_inputs /\
  targets_improve default_inputs /\
  exists r_best r_base r_worst,
    calculate_scenario default_inputs "best" = inr r_best /\
    calculate_scenario default_inputs "base" = inr r_base /\
    calculate_scenario default_inputs "worst" = inr r_worst /\
    total_benefits r_base <= total_benefits r_best /\
    total_benefits r_worst <= total_benefits r_base /\
    roi r_base <= roi r_best /\
    roi r_worst <= roi r_base.
Proof.
  split; [ concrete_inputs | ].
  split; [ concrete_inputs | ].
  apply (roi_monotonicity default_inputs); concrete_inputs.
Defined.

(* ===================================================================== *)
(** * Discounting with a non-negative rate                                *)
(* ===================================================================== *)

Lemma steady_state_rows_discount_form (adj : FinancialInputs) (a tab : Q)
    (ys : list Z) :
  Forall (fun y => (3 <= y)%Z) ys ->
  forall c : Q,
  Forall (fun r => discounted_cf r = net_cf r / (1 + wacc adj) ^ year r /\
                   (0 <= year r)%Z)
         (steady_state_rows adj a tab ys c).
Proof.
  induction 1 as [ | y ys Hy _ IH ]; intros c; cbn [steady_state_rows];
    constructor.
  - cbn. split; [ reflexivity | lia ].
  - apply IH.
Qed.

Lemma projection_rows_discount_form (adj : FinancialInputs) (a tab : Q) :
  Forall (fun r => discounted_cf r = net_cf r / (1 + wacc adj) ^ year r /\
                   (0 <= year r)%Z)
         (projection_rows adj a tab).
Proof.
  unfold projection_rows. apply Forall_app. split.
  - unfold ramp_rows. repeat constructor; cbn; discriminate.
  - apply steady_state_rows_discount_form. apply py_range_lower.
Qed.

Lemma discount_shrinks (n w : Q) (y : Z) :
  0 <= w -> (0 <= y)%Z -> Qabs (n / (1 + w) ^ y) <= Qabs n.
Proof.
  intros Hw Hy.
  assert (Hd : 1 <= (1 + w) ^ y) by (apply Qpower_1_le; [ lra | exact Hy ]).
  set (d := (1 + w) ^ y) in *.
  unfold Qdiv. rewrite Qabs_Qmult, Qabs_Qinv, (Qabs_pos d) by lra.
  pose proof (Qabs_nonneg n) as Hn.
  apply Qle_shift_div_r; [ lra | nra ].
Qed.

(** X24.  For every valid input (so with a WACC of at least 0) and every
    scenario tag, no year's discounted cash flow is larger in absolute
    value than its net cash flow. *)
Theorem discounting_never_enlarges (inputs : FinancialInputs) (t : ScenarioTag) :
  valid_inputs inputs ->
  exists r,
    calculate_scenario inputs (tag_key t) = inr r /\
    Forall (fun row => Qabs (discounted_cf row) <= Qabs (net_cf row))
           (cash_flow_df r).
Proof.
  intros V. exists (scenario_value inputs t).
  split; [ apply calculate_scenario_valid; exact V | ].
  cbn [cash_flow_df scenario_value].
  eapply Forall_impl; [ | apply projection_rows_discount_form ].
  cbn beta. intros row [Hd Hy]. rewrite Hd.
  apply discount_shrinks; [ | exact Hy ].
  cbn [wacc adj_inputs]. destruct (valid_wacc _ V) as [Hw _]. exact Hw.
Qed.

Lemma discounting_never_enlarges_witness :
  valid_inputs default_inputs /\
  exists r,
    calculate_scenario default_inputs (tag_key base) = inr r /\
    Forall (fun row => Qabs (discounted_cf row) <= Qabs (net_cf row))
           (cash_flow_df r).
Proof.
  split; [ concrete_inputs | ].
  apply (discounting_never_enlarges default_inputs base). concrete_inputs.
Defined.
